(** * Arabic Programming Learning Platform: session, quiz and challenge logic

    A shallow embedding of [main.py]: the response extractor
    ([clean_json_response]), the five content generators with their fallback
    documents, the single global session kept in [memory_storage], and the
    request handlers that read and update it.

    Conventions of the embedding:
    - a Python [str] is the list of its code points ([list N]); string
      literals of the source are written [py "..."] and decoded from UTF-8;
    - values that came out of [json.loads] are [pyval]s; Python's dynamic
      operations on them ([len], [x[i]], [x.get(k, d)], [k in x], truthiness,
      [==]) are total functions into [exn + _], one constructor of [exn] per
      Python exception class the code can meet;
    - a handler is a computation in the monad [M]: it threads the
      [memory_storage] and the log of calls made to the external model, and
      ends either with a response or with a raised [HTTPException];
    - the reply of the external model and the reading of the clock are inputs
      of the handler that consumes them;
    - requests are served one after another: a handler runs to its end
      before the next one starts (the single-user deployment the service is
      meant for), so the interleaving of two handlers at their [await]s is
      not part of the model;
    - [json.loads] is the standard library's decoder: the definitions take it
      as a parameter ([json_loads]), and [Json.loads] is a decoder for the
      JSON grammar Python accepts, used wherever a closed example needs one. *)

From Stdlib Require Import ZArith NArith List Ascii String Floats Lia Bool.
From stdpp Require Import base option list gmap fin_maps pretty.

Local Open Scope Z_scope.
Set Warnings "-register-all".

(** ** Python strings *)

Abbreviation str := (list N).

(** Code points of a UTF-8 byte sequence (the source file is UTF-8). *)
Fixpoint utf8_decode (bs : list N) : list N :=
  match bs with
  | [] => []
  | b0 :: r0 =>
    if (b0 <? 128)%N then b0 :: utf8_decode r0 else
    match r0 with
    | [] => [b0]
    | b1 :: r1 =>
      if (b0 <? 224)%N then ((b0 - 192) * 64 + (b1 - 128))%N :: utf8_decode r1 else
      match r1 with
      | [] => [b0; b1]
      | b2 :: r2 =>
        if (b0 <? 240)%N
        then ((b0 - 224) * 4096 + (b1 - 128) * 64 + (b2 - 128))%N :: utf8_decode r2
        else
        match r2 with
        | [] => [b0; b1; b2]
        | b3 :: r3 =>
          ((b0 - 240) * 262144 + (b1 - 128) * 4096 + (b2 - 128) * 64 + (b3 - 128))%N
            :: utf8_decode r3
        end
      end
    end
  end.

Definition py (s : string) : str :=
  utf8_decode (map N_of_ascii (list_ascii_of_string s)).

Arguments py : simpl never.

(** A literal in which every apostrophe stands for a double quote and every
    vertical bar for a line feed. *)
Definition pyq (s : string) : str :=
  map (fun c => if (c =? 39)%N then 34%N else if (c =? 124)%N then 10%N else c) (py s).

(** [str(n)] for an [int]. *)
Definition str_of_int (n : Z) : str := py (pretty n).

Arguments str_of_int : simpl never.

(** [str.isspace] on one code point: what [str.strip()] removes. *)
Definition isspace (c : N) : bool :=
  ((9 <=? c) && (c <=? 13) || (28 <=? c) && (c <=? 32) || (c =? 133) || (c =? 160)
   || (c =? 5760) || (8192 <=? c) && (c <=? 8202) || (c =? 8232) || (c =? 8233)
   || (c =? 8239) || (c =? 8287) || (c =? 12288))%N.

Fixpoint lstrip (s : str) : str :=
  match s with
  | c :: r => if isspace c then lstrip r else s
  | [] => []
  end.

Definition rstrip (s : str) : str := rev (lstrip (rev s)).

Definition strip (s : str) : str := rstrip (lstrip s).

Fixpoint startswith (s prefix : str) : bool :=
  match prefix, s with
  | [], _ => true
  | p :: prefix', c :: s' => (c =? p)%N && startswith s' prefix'
  | _ :: _, [] => false
  end.

Definition endswith (s suffix : str) : bool := startswith (rev s) (rev suffix).

(** [s[a:b]] for [0 <= a], [0 <= b]. *)
Definition slice (s : str) (a b : Z) : str :=
  take (Z.to_nat b - Z.to_nat a) (drop (Z.to_nat a) s).

(** [sub in s] on strings. *)
Fixpoint str_contains (s sub : str) : bool :=
  startswith s sub ||
  match s with
  | [] => false
  | _ :: s' => str_contains s' sub
  end.

(** ** Python values *)

(** What [json.loads] can return, which is also all the handlers store. A
    [dict] keeps its items in insertion order, with distinct keys. *)
Inductive pyval : Type :=
| PNone
| PBool (b : bool)
| PInt (z : Z)
| PFloat (f : float)
| PStr (s : str)
| PList (l : list pyval)
| PDict (d : list (str * pyval)).

Inductive exn : Type :=
| IndexError
| KeyError
| TypeError
| AttributeError
| ValueError
| ModelError.

Abbreviation Raise := inl.
Abbreviation Return := inr.

Fixpoint dict_lookup (d : list (str * pyval)) (k : str) : option pyval :=
  match d with
  | [] => None
  | (k', v) :: d' => if decide (k' = k) then Some v else dict_lookup d' k
  end.

(** [d[k] = v]: replaces the value of an existing key in place, appends a
    new key. *)
Fixpoint dict_set (d : list (str * pyval)) (k : str) (v : pyval) : list (str * pyval) :=
  match d with
  | [] => [(k, v)]
  | (k', v') :: d' => if decide (k' = k) then (k, v) :: d' else (k', v') :: dict_set d' k v
  end.

(** [bool(v)], as in [if not v]. *)
Definition truthy (v : pyval) : bool :=
  match v with
  | PNone => false
  | PBool b => b
  | PInt z => negb (z =? 0)
  | PFloat f => negb (PrimFloat.eqb f 0)
  | PStr s => negb (bool_decide (s = []))
  | PList l => negb (bool_decide (length l = 0%nat))
  | PDict d => negb (bool_decide (length d = 0%nat))
  end.

(** [v.get(k, d)]: only a [dict] has the method. *)
Definition py_get (v : pyval) (k : str) (d : pyval) : exn + pyval :=
  match v with
  | PDict items => Return (default d (dict_lookup items k))
  | _ => Raise AttributeError
  end.

(** [v[k]] with a string key. *)
Definition py_getitem_str (v : pyval) (k : str) : exn + pyval :=
  match v with
  | PDict items =>
    match dict_lookup items k with
    | Some x => Return x
    | None => Raise KeyError
    end
  | _ => Raise TypeError
  end.

(** [len(v)]. *)
Definition py_len (v : pyval) : exn + Z :=
  match v with
  | PStr s => Return (Z.of_nat (length s))
  | PList l => Return (Z.of_nat (length l))
  | PDict items => Return (Z.of_nat (length items))
  | _ => Raise TypeError
  end.

(** [l[i]] on a sequence of length [length l]: a negative index counts from
    the end, an index outside [-len, len) raises [IndexError]. *)
Definition seq_index {A} (l : list A) (i : Z) : exn + A :=
  let n := Z.of_nat (length l) in
  let j := if i <? 0 then i + n else i in
  if (j <? 0) || (n <=? j) then Raise IndexError
  else match l !! Z.to_nat j with
       | Some x => Return x
       | None => Raise IndexError
       end.

(** [v[i]] with an integer index. The keys of a [dict] that came from JSON
    are strings, so an integer key is always missing. *)
Definition py_getitem_int (v : pyval) (i : Z) : exn + pyval :=
  match v with
  | PList l => seq_index l i
  | PStr s =>
    match seq_index s i with
    | Return c => Return (PStr [c])
    | Raise e => Raise e
    end
  | PDict _ => Raise KeyError
  | _ => Raise TypeError
  end.

(** [k in v] for a string [k]. *)
Definition py_contains_str (v : pyval) (k : str) : exn + bool :=
  match v with
  | PDict items => Return (bool_decide (is_Some (dict_lookup items k)))
  | PList l =>
    Return (existsb (fun x => match x with PStr s => bool_decide (s = k) | _ => false end) l)
  | PStr s => Return (str_contains s k)
  | _ => Raise TypeError
  end.

(** The integer a float is equal to, if there is one. *)
Definition float_to_Z_exact (f : float) : option Z :=
  match Prim2SF f with
  | S754_zero _ => Some 0
  | S754_finite s m e =>
    let sign := if s then -1 else 1 in
    match e with
    | Z0 => Some (sign * Zpos m)
    | Zpos p => Some (sign * Zpos m * 2 ^ Zpos p)
    | Zneg p =>
      if (Zpos m mod 2 ^ Zpos p =? 0) then Some (sign * (Zpos m / 2 ^ Zpos p)) else None
    end
  | _ => None
  end.

(** [a == v] for an [int] [a]: numbers compare by value ([True] is [1]),
    anything else is unequal. *)
Definition int_eq (a : Z) (v : pyval) : bool :=
  match v with
  | PInt z => a =? z
  | PBool b => a =? (if b then 1 else 0)
  | PFloat f => bool_decide (float_to_Z_exact f = Some a)
  | _ => false
  end.

(** [a / b] on [int]s: the correctly rounded quotient. *)
Definition int_true_div (a b : Z) : float :=
  SF2Prim (SFdiv prec emax (binary_normalize prec emax a 0 false)
                           (binary_normalize prec emax b 0 false)).

(** ** The JSON decoder

    [Json.loads] follows the grammar of Python's [json.loads] with its
    default settings: whitespace is space, tab, newline and carriage return;
    [NaN], [Infinity] and [-Infinity] are accepted; a control character
    inside a string is refused; a later duplicate key overrides an earlier
    one; anything after the value except whitespace is refused. [None]
    stands for a raised [JSONDecodeError]. The limits of the interpreter are
    not part of it: an integer literal of more than 4300 digits (a
    [ValueError] in Python) and a nesting beyond the recursion limit (a
    [RecursionError]) are decoded here. *)
Module Json.

Definition is_ws (c : N) : bool :=
  ((c =? 32) || (c =? 9) || (c =? 10) || (c =? 13))%N.

Fixpoint skip_ws (s : str) : str :=
  match s with
  | c :: r => if is_ws c then skip_ws r else s
  | [] => []
  end.

Definition is_digit (c : N) : bool := ((48 <=? c) && (c <=? 57))%N.

Definition hex_digit (c : N) : option N :=
  if is_digit c then Some (c - 48)%N
  else if ((97 <=? c) && (c <=? 102))%N then Some (c - 87)%N
  else if ((65 <=? c) && (c <=? 70))%N then Some (c - 55)%N
  else None.

Definition hex4 (a b c d : N) : option N :=
  match hex_digit a, hex_digit b, hex_digit c, hex_digit d with
  | Some a, Some b, Some c, Some d => Some (((a * 16 + b) * 16 + c) * 16 + d)%N
  | _, _, _, _ => None
  end.

(** The character after a backslash: quote, backslash, slash, b, f, n, r, t. *)
Definition simple_escape (c : N) : option N :=
  if (c =? 34)%N then Some 34%N
  else if (c =? 92)%N then Some 92%N
  else if (c =? 47)%N then Some 47%N
  else if (c =? 98)%N then Some 8%N
  else if (c =? 102)%N then Some 12%N
  else if (c =? 110)%N then Some 10%N
  else if (c =? 114)%N then Some 13%N
  else if (c =? 116)%N then Some 9%N
  else None.

(** The body of a string literal, after its opening quote: the decoded
    text and the input left after the closing quote. *)
Fixpoint scanstring (s : str) (acc : str) : option (str * str) :=
  match s with
  | [] => None
  | c :: r =>
    if (c =? 34)%N then Some (rev acc, r)
    else if (c =? 92)%N then
      match r with
      | [] => None
      | e :: r1 =>
        if (e =? 117)%N then
          match r1 with
          | h1 :: h2 :: h3 :: h4 :: r2 =>
            match hex4 h1 h2 h3 h4 with
            | None => None
            | Some u =>
              let single := scanstring r2 (u :: acc) in
              if ((55296 <=? u) && (u <=? 56319))%N then
                match r2 with
                | 92%N :: 117%N :: g1 :: g2 :: g3 :: g4 :: r3 =>
                  match hex4 g1 g2 g3 g4 with
                  | Some u2 =>
                    if ((56320 <=? u2) && (u2 <=? 57343))%N
                    then scanstring r3
                           ((65536 + (u - 55296) * 1024 + (u2 - 56320))%N :: acc)
                    else single
                  | None => single
                  end
                | _ => single
                end
              else single
            end
          | _ => None
          end
        else
          match simple_escape e with
          | Some x => scanstring r1 (x :: acc)
          | None => None
          end
      end
    else if (c <? 32)%N then None
    else scanstring r (c :: acc)
  end.

Fixpoint take_digits (s : str) : str * str :=
  match s with
  | c :: r => if is_digit c then let '(ds, r') := take_digits r in (c :: ds, r') else ([], s)
  | [] => ([], [])
  end.

Definition digits_value (ds : str) : Z :=
  fold_left (fun acc c => acc * 10 + Z.of_N (c - 48)) ds 0.

(** The float nearest to [m * 10^e] (ties to even), as [float(...)] gives:
    the exact integer, or the exact quotient of two integers, rounded
    once. *)
Definition decimal_to_float (negative : bool) (m e : Z) : float :=
  if m =? 0 then (if negative then (-0)%float else 0%float)
  else
    let sm := if negative then - m else m in
    if 0 <=? e then SF2Prim (binary_normalize prec emax (sm * 10 ^ e) 0 false)
    else SF2Prim (SFdiv prec emax (S754_finite negative (Z.to_pos m) 0)
                                  (S754_finite false (Z.to_pos (10 ^ (- e))) 0)).

(** A number at the head of [s]: sign, integer part, optional fraction,
    optional exponent; a fraction or exponent that is not complete is left
    in the input. *)
Definition parse_number (s : str) : option (pyval * str) :=
  let '(negative, s1) :=
    match s with
    | 45%N :: r => (true, r)
    | _ => (false, s)
    end in
  let int_part :=
    match s1 with
    | 48%N :: r => Some ([48%N], r)
    | c :: _ => if is_digit c then Some (take_digits s1) else None
    | [] => None
    end in
  match int_part with
  | None => None
  | Some (ids, s2) =>
    let '(frac, s3) :=
      match s2 with
      | 46%N :: r =>
        match take_digits r with
        | ([], _) => (None, s2)
        | (fds, r') => (Some fds, r')
        end
      | _ => (None, s2)
      end in
    let '(expo, s4) :=
      match s3 with
      | c :: r =>
        if ((c =? 101) || (c =? 69))%N then
          let '(eneg, r1) :=
            match r with
            | 45%N :: r' => (true, r')
            | 43%N :: r' => (false, r')
            | _ => (false, r)
            end in
          match take_digits r1 with
          | ([], _) => (None, s3)
          | (eds, r') => (Some (if eneg then - digits_value eds else digits_value eds), r')
          end
        else (None, s3)
      | [] => (None, s3)
      end in
    match frac, expo with
    | None, None =>
      Some (PInt (if negative then - digits_value ids else digits_value ids), s4)
    | _, _ =>
      let fds := default [] frac in
      Some (PFloat (decimal_to_float negative (digits_value (ids ++ fds))
                      (default 0 expo - Z.of_nat (length fds))), s4)
    end
  end.

Definition literals : list (str * pyval) :=
  [ (py "null", PNone); (py "true", PBool true); (py "false", PBool false);
    (py "NaN", PFloat nan); (py "Infinity", PFloat infinity);
    (py "-Infinity", PFloat neg_infinity) ].

Fixpoint parse_literal (table : list (str * pyval)) (s : str) : option (pyval * str) :=
  match table with
  | [] => None
  | (word, v) :: table' =>
    if startswith s word then Some (v, drop (length word) s)
    else parse_literal table' s
  end.

(** One value at the head of [s]. [fuel] bounds the number of nested and
    successive values; [loads] gives one unit per character. *)
Fixpoint parse_value (fuel : nat) (s : str) : option (pyval * str) :=
  match fuel with
  | O => None
  | S fuel =>
    match s with
    | 34%N :: r =>
      match scanstring r [] with
      | Some (x, r') => Some (PStr x, r')
      | None => None
      end
    | 123%N :: r =>
      match skip_ws r with
      | 125%N :: r' => Some (PDict [], r')
      | r' => parse_members fuel r' []
      end
    | 91%N :: r =>
      match skip_ws r with
      | 93%N :: r' => Some (PList [], r')
      | r' => parse_elements fuel r' []
      end
    | _ =>
      match parse_number s with
      | Some res => Some res
      | None => parse_literal literals s
      end
    end
  end
with parse_elements (fuel : nat) (s : str) (acc : list pyval) : option (pyval * str) :=
  match fuel with
  | O => None
  | S fuel =>
    match parse_value fuel s with
    | None => None
    | Some (v, r) =>
      match skip_ws r with
      | 93%N :: r' => Some (PList (rev (v :: acc)), r')
      | 44%N :: r' => parse_elements fuel (skip_ws r') (v :: acc)
      | _ => None
      end
    end
  end
with parse_members (fuel : nat) (s : str) (acc : list (str * pyval)) : option (pyval * str) :=
  match fuel with
  | O => None
  | S fuel =>
    match s with
    | 34%N :: r =>
      match scanstring r [] with
      | None => None
      | Some (k, r1) =>
        match skip_ws r1 with
        | 58%N :: r2 =>
          match parse_value fuel (skip_ws r2) with
          | None => None
          | Some (v, r3) =>
            match skip_ws r3 with
            | 125%N :: r' => Some (PDict (dict_set acc k v), r')
            | 44%N :: r' => parse_members fuel (skip_ws r') (dict_set acc k v)
            | _ => None
            end
          end
        | _ => None
        end
      end
    | _ => None
    end
  end.

Definition loads (s : str) : option pyval :=
  match s with
  | 65279%N :: _ => None
  | _ =>
    match parse_value (S (length s)) (skip_ws s) with
    | Some (v, r) =>
      match skip_ws r with
      | [] => Some v
      | _ :: _ => None
      end
    | None => None
    end
  end.

End Json.

(** ** The error monad of Python expressions *)

Definition sum_bind {E A B} (x : E + A) (k : A -> E + B) : E + B :=
  match x with
  | Raise e => Raise e
  | Return a => k a
  end.

Notation "'let?' x ':=' e 'in' k" := (sum_bind e (fun x => k))
  (at level 10, x pattern, e at level 100, k at level 200).

(** [try: ... except Exception: fallback]. *)
Definition try_except {A} (body : exn + A) (handler : A) : A :=
  match body with
  | Return a => a
  | Raise _ => handler
  end.

(** ** Utility functions and content generators of [main.py] *)

(** The external model, as one call of [llm.ainvoke] sees it: either a
    response with its [content], or a raised exception. *)
Inductive reply : Type :=
| Content (content : str)
| Fails.

Definition ainvoke (r : reply) : exn + str :=
  match r with
  | Content c => Return c
  | Fails => Raise ModelError
  end.

(** A reading of [datetime.now()]: [timestamp()] formatted in an f-string,
    [int(timestamp())] and [isoformat()]. *)
Record clock : Type := MkClock {
  timestamp_str : str;
  timestamp_int : Z;
  isoformat : str
}.

Definition get_lesson_structure : list str :=
  [ py "أساسيات الحاسوب ونظام التشغيل";
    py "تثبيت بايثون وضبط بيئة العمل";
    py "تعلم أساسيات اللغة";
    py "التعامل مع المتغيرات وأنواع البيانات";
    py "التحكم في سير البرنامج باستخدام الشروط والتكرار";
    py "الدوال";
    py "المجموعات مثل Lists و Tuples و Sets و Dictionaries";
    py "التعامل مع الملفات";
    py "استخدام الموديولات والمكتبات";
    py "التعامل مع الأخطاء";
    py "بناء مشاريع عملية صغيرة";
    py "استخدام أدوات إدارة الحزم مثل pip و venv";
    py "العمل على مشاريع مفتوحة المصدر أو حل تمارين برمجية";
    py "تعلم مكتبات متخصصة مثل NumPy و Pandas و Matplotlib لتحليل البيانات" ].

(** The scanner's three variables. *)
Record scan_state : Type := MkScan {
  brace_count : Z;
  start_idx : Z;
  end_idx : Z
}.

(** The [for i, char in enumerate(cleaned)] loop, from position [i] on. *)
Fixpoint brace_scan (cleaned : str) (i : Z) (st : scan_state) : scan_state :=
  match cleaned with
  | [] => st
  | char :: rest =>
    if (char =? 123)%N then
      brace_scan rest (i + 1)
        (MkScan (brace_count st + 1)
                (if start_idx st =? -1 then i else start_idx st)
                (end_idx st))
    else if (char =? 125)%N then
      let count := brace_count st - 1 in
      if (count =? 0) && negb (start_idx st =? -1)
      then MkScan count (start_idx st) (i + 1)
      else brace_scan rest (i + 1) (MkScan count (start_idx st) (end_idx st))
    else brace_scan rest (i + 1) st
  end.

(** The text left after the fences are removed. *)
Definition strip_fences (response_text : str) : str :=
  let cleaned := strip response_text in
  let cleaned := if startswith cleaned (py "```json") then drop 7 cleaned else cleaned in
  let cleaned := if startswith cleaned (py "```") then drop 3 cleaned else cleaned in
  let cleaned :=
    if endswith cleaned (py "```") then take (length cleaned - 3) cleaned else cleaned in
  strip cleaned.

(** ** The in-memory storage *)

Record chat_entry : Type := MkChat {
  user : str;
  assistant : str;
  timestamp : str
}.

(** The dict stored under [memory_storage["current_session"]]. *)
Record session : Type := MkSession {
  session_id : str;
  language : str;
  curriculum : pyval;
  current_lesson : Z;
  completed_lessons : list Z;
  chat_history : list chat_entry;
  created_at : str
}.

(** An item of [memory_storage["coding_quizzes"]]. *)
Record coding_quiz : Type := MkCodingQuiz {
  challenge_data : pyval;
  cq_session_id : str;
  cq_created_at : str
}.

(** [memory_storage]; its keys "students", "courses", "sessions" and
    "student_progress" are never read or written and are left out. *)
Record memory_storage : Type := MkStorage {
  current_session : option session;
  quiz_cache : gmap str pyval;
  coding_quizzes : gmap str coding_quiz
}.

(** The calls made to the external model, each with the arguments of the
    generator that made it. *)
Inductive llm_call : Type :=
| CallCurriculum (lang : str)
| CallLessonContent (lang : str) (lesson_number : Z) (lesson_title : pyval)
| CallQuizQuestions (lang : str) (lesson_number : Z) (lesson_title : pyval)
| CallCodingChallenge (lang : str) (lessons_completed : Z)
| CallEvaluateCode (lang code challenge_id : str) (data : pyval)
| CallTutor (question lang : str) (lesson_number : Z) (history : list chat_entry).

(** What a handler runs in: the storage and the log of model calls, oldest
    first. *)
Record world : Type := MkWorld {
  storage : memory_storage;
  calls : list llm_call
}.

(** The [detail] of an [HTTPException]: a text, or a text that ends with
    [str(e)] of the exception caught. *)
Inductive detail : Type :=
| Detail (text : str)
| DetailExc (text : str) (e : exn).

Inductive raised : Type :=
| HTTPException (status_code : Z) (d : detail)
| Exception (e : exn).

Definition M (A : Type) : Type := world -> (raised + A) * world.

Definition ret {A} (a : A) : M A := fun w => (inr a, w).

Definition bind {A B} (m : M A) (k : A -> M B) : M B :=
  fun w =>
    match m w with
    | (inl e, w') => (inl e, w')
    | (inr a, w') => k a w'
    end.

Notation "'let*' x ':=' e 'in' k" := (bind e (fun x => k))
  (at level 10, x pattern, e at level 100, k at level 200).

Definition raise {A} (e : raised) : M A := fun w => (inl e, w).

(** A Python expression that may raise, inside a handler. *)
Definition exc {A} (x : exn + A) : raised + A :=
  match x with
  | Raise e => Raise (Exception e)
  | Return a => Return a
  end.

(** A block of a handler that does not touch the storage. *)
Definition check {A} (x : raised + A) : M A := fun w => (x, w).

Definition eval {A} (x : exn + A) : M A := check (exc x).

Definition get_storage : M memory_storage := fun w => (inr (storage w), w).

Definition put_storage (st : memory_storage) : M unit :=
  fun w => (inr tt, MkWorld st (calls w)).

(** [await generator(...)]: the call is logged. *)
Definition await (c : llm_call) : M unit :=
  fun w => (inr tt, MkWorld (storage w) (calls w ++ [c])).

(** [if cond: raise e]. *)
Definition raise_if (cond : bool) (e : raised) : raised + unit :=
  if cond then Raise e else Return tt.

(** What the [except] clauses of a handler make of a raised exception:
    [except HTTPException: raise] and [except Exception as e: raise
    HTTPException(500, ...)]. *)
Definition caught (on_exception : exn -> detail) (e : raised) : raised :=
  match e with
  | HTTPException _ _ => e
  | Exception x => HTTPException 500 (on_exception x)
  end.

(** [try: body] under those two clauses. *)
Definition handler {A} (on_exception : exn -> detail) (body : M A) : M A :=
  fun w =>
    match body w with
    | (Raise e, w') => (Raise (caught on_exception e), w')
    | (Return a, w') => (Return a, w')
    end.

Section Platform.

(** [json.loads]; [None] when it raises. *)
Variable json_loads : str -> option pyval.

(** [str(v)] for a float, a list or a dict, as an f-string formats it. *)
Variable repr : pyval -> str.

Definition loads (s : str) : exn + pyval :=
  match json_loads s with
  | Some v => Return v
  | None => Raise ValueError
  end.

(** [f"{v}"]. *)
Definition format (v : pyval) : str :=
  match v with
  | PStr s => s
  | PInt z => str_of_int z
  | PBool true => py "True"
  | PBool false => py "False"
  | PNone => py "None"
  | _ => repr v
  end.

Definition clean_json_response (response_text : str) : exn + str :=
  let cleaned := strip_fences response_text in
  let st := brace_scan cleaned 0 (MkScan 0 (-1) (-1)) in
  if negb (start_idx st =? -1) && negb (end_idx st =? -1) then
    let json_str := slice cleaned (start_idx st) (end_idx st) in
    match json_loads json_str with
    | Some _ => Return json_str
    | None => Raise ValueError
    end
  else
    match json_loads cleaned with
    | Some _ => Return cleaned
    | None => Raise ValueError
    end.

Definition fallback_lesson (language : str) (i : nat) (title : str) : pyval :=
  PDict [ (py "lesson_number", PInt (Z.of_nat i + 1));
          (py "title", PStr title);
          (py "description", PStr (py "تعلم " ++ title ++ py " في لغة " ++ language));
          (py "objectives",
           PList [ PStr (py "فهم أساسيات " ++ title);
                   PStr (py "تطبيق " ++ title ++ py " عملياً");
                   PStr (py "حل المشاكل باستخدام " ++ title) ]) ].

Definition fallback_curriculum (language : str) : pyval :=
  PDict [ (py "language", PStr language);
          (py "lessons", PList (imap (fallback_lesson language) get_lesson_structure)) ].

Definition generate_curriculum (language : str) (r : reply) : pyval :=
  try_except
    (let? response := ainvoke r in
     let? cleaned_response := clean_json_response response in
     let? curriculum := loads cleaned_response in
     let? lessons := py_get curriculum (py "lessons") (PList []) in
     let? _ := py_len lessons in
     Return curriculum)
    (fallback_curriculum language).

Definition fallback_lesson_content (language : str) (lesson_number : Z)
    (lesson_title : pyval) : pyval :=
  let t := format lesson_title in
  let n := str_of_int lesson_number in
  PDict [ (py "introduction",
           PStr (py "مرحباً بك في الدرس " ++ n ++ py ": " ++ t
                 ++ py ". في هذا الدرس سنتعلم المفاهيم الأساسية والمهمة في " ++ t ++ py "."));
          (py "detailed_explanation",
           PStr (py "في هذا الدرس سنتعلم " ++ t ++ py " في لغة " ++ language
                 ++ py ". هذا الموضوع مهم جداً للمبتدئين ويشكل أساساً قوياً لفهم المفاهيم المتقدمة في البرمجة."));
          (py "code_examples",
           PList [ PDict [ (py "title", PStr (py "مثال بسيط"));
                           (py "code",
                            PStr (py "// هذا مثال بسيط في " ++ language ++ [10%N]
                                  ++ py "// " ++ t ++ [10%N]
                                  ++ py "print('مرحباً بالعالم');"));
                           (py "explanation", PStr (py "هذا المثال يوضح المفهوم الأساسي")) ] ]);
          (py "tips",
           PList [ PStr (py "تدرب كثيراً على الأمثلة");
                   PStr (py "اقرأ الكود بعناية");
                   PStr (py "لا تتردد في طرح الأسئلة") ]);
          (py "summary",
           PStr (py "تعلمنا في هذا الدرس " ++ t ++ py " وأهمية هذا المفهوم في البرمجة")) ].

(** [content.keys()]: only a [dict] has the method. *)
Definition py_keys (v : pyval) : exn + list str :=
  match v with
  | PDict items => Return (map fst items)
  | _ => Raise AttributeError
  end.

Definition generate_lesson_content (language : str) (lesson_number : Z)
    (lesson_title : pyval) (r : reply) : pyval :=
  try_except
    (let? response := ainvoke r in
     let? cleaned_response := clean_json_response response in
     let? content := loads cleaned_response in
     let? _ := py_keys content in
     Return content)
    (fallback_lesson_content language lesson_number lesson_title).

Definition fallback_quiz (lesson_number : Z) (lesson_title : pyval) : pyval :=
  PDict [ (py "questions",
           PList [ PDict [ (py "question",
                            PStr (py "ما هو الموضوع الرئيسي للدرس "
                                  ++ str_of_int lesson_number ++ py "؟"));
                           (py "options",
                            PList [ lesson_title; PStr (py "موضوع آخر");
                                    PStr (py "لا أعرف"); PStr (py "كل ما سبق") ]);
                           (py "correct_answer", PInt 0);
                           (py "explanation",
                            PStr (py "الإجابة الصحيحة هي " ++ format lesson_title)) ] ]) ].

Definition generate_quiz_questions (language : str) (lesson_number : Z)
    (lesson_title : pyval) (r : reply) : pyval :=
  try_except
    (let? response := ainvoke r in
     let? cleaned_response := clean_json_response response in
     loads cleaned_response)
    (fallback_quiz lesson_number lesson_title).

Definition default_challenge_id (lessons_completed timestamp : Z) : str :=
  py "challenge_" ++ str_of_int lessons_completed ++ py "_" ++ str_of_int timestamp.

Definition fallback_challenge (lessons_completed timestamp : Z) : pyval :=
  let n := str_of_int lessons_completed in
  PDict [ (py "challenge_id", PStr (default_challenge_id lessons_completed timestamp));
          (py "title", PStr (py "تحدي برمجي بعد " ++ n ++ py " دروس"));
          (py "description",
           PStr (py "قم بكتابة برنامج يحل المشكلة التالية بناءً على ما تعلمته في الدروس "
                 ++ str_of_int (lessons_completed - 3) ++ py "-" ++ n));
          (py "requirements",
           PList [ PStr (py "يجب أن يحل البرنامج المشكلة المطلوبة");
                   PStr (py "يجب أن يكون الكود نظيفًا وواضحًا") ]);
          (py "example_input", PStr (py "المدخلات المطلوبة"));
          (py "example_output", PStr (py "المخرجات المتوقعة"));
          (py "hints",
           PList [ PStr (py "فكر في استخدام الدوال");
                   PStr (py "تأكد من معالجة جميع الحالات") ]) ].

(** [d[k] = v] on a value: only a [dict] (of those [json.loads] returns)
    takes a string key. *)
Definition py_setitem_str (d : pyval) (k : str) (v : pyval) : exn + pyval :=
  match d with
  | PDict items => Return (PDict (dict_set items k v))
  | _ => Raise TypeError
  end.

Definition generate_coding_challenge (language : str) (lessons_completed : Z)
    (now : clock) (r : reply) : pyval :=
  let timestamp := timestamp_int now in
  try_except
    (let? response := ainvoke r in
     let? cleaned_response := clean_json_response response in
     let? challenge_data := loads cleaned_response in
     let? challenge_id :=
       py_get challenge_data (py "challenge_id")
              (PStr (default_challenge_id lessons_completed timestamp)) in
     py_setitem_str challenge_data (py "challenge_id") challenge_id)
    (fallback_challenge lessons_completed timestamp).

Definition fallback_evaluation : pyval :=
  PDict [ (py "is_correct", PBool false);
          (py "score", PInt 0);
          (py "feedback",
           PStr (py "عذرًا، حدث خطأ في تقييم الكود. يرجى المحاولة مرة أخرى."));
          (py "errors", PList [ PStr (py "لا يمكن تقييم الكود حاليًا") ]);
          (py "hints", PList [ PStr (py "تأكد من صحة بناء الجملة في الكود") ]);
          (py "suggestions",
           PList [ PStr (py "راجع الدروس السابقة للتعرف على المفاهيم الأساسية") ]) ].

(** The prompt reads five fields of [challenge_data] with [.get] before
    the [try] block is entered. *)
Definition evaluate_code (language code challenge_id : str) (challenge_data : pyval)
    (r : reply) : exn + pyval :=
  let? _ := py_get challenge_data (py "title") (PStr []) in
  Return
    (try_except
       (let? response := ainvoke r in
        let? cleaned_response := clean_json_response response in
        loads cleaned_response)
       fallback_evaluation).

Definition get_ai_tutor_response (question language : str) (lesson_number : Z)
    (history : list chat_entry) (r : reply) : str :=
  try_except
    (ainvoke r)
    (py "عذراً، حدث خطأ في النظام. يرجى إعادة المحاولة.").


(** *** API endpoints *)

Definition no_session : raised :=
  HTTPException 404 (Detail (py "No active session. Please select a language first.")).

(** [current_session = memory_storage.get("current_session")] followed by
    [if not current_session: raise HTTPException(404, ...)]. *)
Definition require_session : M session :=
  fun w =>
    match current_session (storage w) with
    | None => (Raise no_session, w)
    | Some current => (Return current, w)
    end.

(** [lesson_info.get("title", f"الدرس {lesson_number}")]. *)
Definition title_or_default (lesson_info : pyval) (lesson_number : Z) : exn + pyval :=
  py_get lesson_info (py "title") (PStr (py "الدرس " ++ str_of_int lesson_number)).

(** [v[:3]] on what [len] accepts; a [dict] does not take a slice. *)
Definition first_three (v : pyval) : exn + pyval :=
  match v with
  | PList l => Return (PList (take 3 l))
  | PStr s => Return (PStr (take 3 s))
  | _ => Raise TypeError
  end.

Record select_language_response : Type := MkSelectLanguage {
  sl_message : str;
  sl_session_id : str;
  sl_language : str;
  sl_current_lesson : Z;
  sl_total_lessons : Z;
  sl_curriculum_overview : pyval
}.

(** [f"Error creating course: {str(e)}"]. *)
Definition course_failed : exn -> detail := DetailExc (py "Error creating course: ").

Definition select_language (lang : str) (now : clock) (r : reply)
    : M select_language_response :=
  handler course_failed
    (let* _ := await (CallCurriculum lang) in
     let curriculum := generate_curriculum lang r in
     let session_id := py "session_" ++ timestamp_str now in
     let* st := get_storage in
     let* _ := put_storage
       (MkStorage
          (Some (MkSession session_id lang curriculum 1 [] [] (isoformat now)))
          (quiz_cache st) (coding_quizzes st)) in
     let* lessons := eval (py_get curriculum (py "lessons") (PList [])) in
     let* total := eval (py_len lessons) in
     let* overview := eval (first_three lessons) in
     ret (MkSelectLanguage
            (py "تم إنشاء كورس " ++ lang ++ py " بنجاح!")
            session_id lang 1 total overview)).

(** [if not curriculum or "lessons" not in curriculum: raise
    HTTPException(500, "Curriculum not found")]. *)
Definition require_lessons (curriculum : pyval) : raised + unit :=
  let not_found := HTTPException 500 (Detail (py "Curriculum not found")) in
  if negb (truthy curriculum) then Raise not_found
  else
    let? present := exc (py_contains_str curriculum (py "lessons")) in
    raise_if (negb present) not_found.

Definition lesson_not_found (lesson_number : Z) : raised :=
  HTTPException 404
    (Detail (py "Lesson " ++ str_of_int lesson_number ++ py " not found")).

(** [if len(curriculum["lessons"]) < lesson_number: raise
    HTTPException(404, ...)] and then
    [lesson_info = curriculum["lessons"][lesson_number - 1]]. *)
Definition lookup_lesson (curriculum : pyval) (lesson_number : Z) : raised + pyval :=
  let? lessons := exc (py_getitem_str curriculum (py "lessons")) in
  let? n := exc (py_len lessons) in
  let? _ := raise_if (n <? lesson_number) (lesson_not_found lesson_number) in
  let? lessons := exc (py_getitem_str curriculum (py "lessons")) in
  exc (py_getitem_int lessons (lesson_number - 1)).

Record lesson_response : Type := MkLesson {
  ls_lesson_number : Z;
  ls_title : pyval;
  ls_description : pyval;
  ls_objectives : pyval;
  ls_content : pyval;
  ls_language : str
}.

(** [f"Error fetching lesson: {str(e)}"]. *)
Definition lesson_failed : exn -> detail := DetailExc (py "Error fetching lesson: ").

Definition lesson_locked : raised :=
  HTTPException 403 (Detail (py "Complete previous lessons first")).

Definition get_lesson (lesson_number : Z) (r : reply) : M lesson_response :=
  handler lesson_failed
    (let* current := require_session in
     let* _ := check (raise_if (lesson_number >? current_lesson current) lesson_locked) in
     let curriculum := curriculum current in
     let* _ := check (require_lessons curriculum) in
     let* lesson_info := check (lookup_lesson curriculum lesson_number) in
     let* lesson_title := eval (title_or_default lesson_info lesson_number) in
     let* _ := await (CallLessonContent (language current) lesson_number lesson_title) in
     let content :=
       generate_lesson_content (language current) lesson_number lesson_title r in
     let* title := eval (py_get lesson_info (py "title") PNone) in
     let* description := eval (py_get lesson_info (py "description") PNone) in
     let* objectives := eval (py_get lesson_info (py "objectives") (PList [])) in
     ret (MkLesson lesson_number title description objectives content
                   (language current))).

Record tutor_response : Type := MkTutor {
  tr_response : str;
  tr_session_id : str
}.

Definition tutor_failed : exn -> detail :=
  fun _ => Detail (py "Error processing question").

Definition ask_tutor (question : str) (now : clock) (r : reply) : M tutor_response :=
  handler tutor_failed
    (let* current := require_session in
     let* _ := await (CallTutor question (language current) (current_lesson current)
                                (chat_history current)) in
     let ai_response :=
       get_ai_tutor_response question (language current) (current_lesson current)
                             (chat_history current) r in
     let chat := MkChat question ai_response (isoformat now) in
     let* st := get_storage in
     let* _ := put_storage
       (MkStorage
          (Some (MkSession (session_id current) (language current) (curriculum current)
                           (current_lesson current) (completed_lessons current)
                           (chat_history current ++ [chat]) (created_at current)))
          (quiz_cache st) (coding_quizzes st)) in
     ret (MkTutor ai_response (session_id current))).

(** [f"{session_id}_lesson_{lesson_number}"]. *)
Definition quiz_cache_key (sid : str) (lesson_number : Z) : str :=
  sid ++ py "_lesson_" ++ str_of_int lesson_number.

Record quiz_response : Type := MkQuiz {
  qz_lesson_number : Z;
  qz_lesson_title : pyval;
  qz_questions : pyval;
  qz_cached : bool
}.

(** The miss branch shared by [generate_quiz] and [submit_quiz]:
    [await generate_quiz_questions(...)] with the lesson's title, then
    [memory_storage["quiz_cache"][cache_key] = questions]. *)
Definition generate_and_cache_quiz (current : session) (lesson_info : pyval)
    (lesson_number : Z) (r : reply) : M pyval :=
  let cache_key := quiz_cache_key (session_id current) lesson_number in
  let* lesson_title := eval (title_or_default lesson_info lesson_number) in
  let* _ := await (CallQuizQuestions (language current) lesson_number lesson_title) in
  let questions :=
    generate_quiz_questions (language current) lesson_number lesson_title r in
  let* st := get_storage in
  let* _ := put_storage
    (MkStorage (current_session st) (<[cache_key := questions]> (quiz_cache st))
               (coding_quizzes st)) in
  ret questions.

Definition quiz_failed : exn -> detail := fun _ => Detail (py "Error generating quiz").

Definition generate_quiz (lesson_number : Z) (r : reply) : M quiz_response :=
  handler quiz_failed
    (let* current := require_session in
     let curriculum := curriculum current in
     let* _ := check (require_lessons curriculum) in
     let* lesson_info := check (lookup_lesson curriculum lesson_number) in
     let cache_key := quiz_cache_key (session_id current) lesson_number in
     let* st := get_storage in
     match quiz_cache st !! cache_key with
     | Some cached_quiz =>
       let* title := eval (py_get lesson_info (py "title") PNone) in
       ret (MkQuiz lesson_number title cached_quiz true)
     | None =>
       let* questions := generate_and_cache_quiz current lesson_info lesson_number r in
       let* title := eval (py_get lesson_info (py "title") PNone) in
       ret (MkQuiz lesson_number title questions false)
     end).

(** An item of [results]. *)
Record quiz_result : Type := MkResult {
  question_number : Z;
  question_text : pyval;
  user_answer : Z;
  correct_answer : pyval;
  is_correct : bool;
  explanation : pyval
}.

(** The [for i, user_answer in enumerate(submission.answers)] loop, from
    position [i] on, with the current [correct_count] and [results]. *)
Fixpoint evaluate_answers (questions : pyval) (answers : list Z) (i : Z)
    (correct_count : Z) (results : list quiz_result) : exn + (Z * list quiz_result) :=
  match answers with
  | [] => Return (correct_count, results)
  | answer :: rest =>
    let? n := py_len questions in
    if i <? n then
      let? question := py_getitem_int questions i in
      let? correct := py_get question (py "correct_answer") (PInt 0) in
      let right := int_eq answer correct in
      let correct_count := if right then correct_count + 1 else correct_count in
      let? text := py_get question (py "question") (PStr []) in
      let? why := py_get question (py "explanation") (PStr (py "لا يوجد شرح متاح")) in
      evaluate_answers questions rest (i + 1) correct_count
        (results ++ [MkResult (i + 1) text answer correct right why])
    else evaluate_answers questions rest (i + 1) correct_count results
  end.

(** What the grading block of [submit_quiz] computes. *)
Record grading : Type := MkGrading {
  g_score : float;
  g_passed : bool;
  g_correct_count : Z;
  g_total : Z;
  g_results : list quiz_result
}.

(** The block of [submit_quiz] from [questions = questions_data.get(...)]
    to [passed = score >= 70]. *)
Definition grade (questions_data : pyval) (answers : list Z) : raised + grading :=
  let? questions := exc (py_get questions_data (py "questions") (PList [])) in
  let? _ := raise_if (negb (truthy questions))
              (HTTPException 400 (Detail (py "No questions found"))) in
  let? graded := exc (evaluate_answers questions answers 0 0 []) in
  let correct_count := graded.1 in
  let results := graded.2 in
  let? _ := raise_if (bool_decide (results = []))
              (HTTPException 400 (Detail (py "No valid answers to evaluate"))) in
  let? total := exc (py_len questions) in
  let score := (int_true_div correct_count total * 100)%float in
  let passed := (70 <=? score)%float in
  Return (MkGrading score passed correct_count total results).

Record quiz_submission_response : Type := MkSubmission {
  score : float;
  passed : bool;
  correct_answers : Z;
  total_questions : Z;
  results : list quiz_result;
  message : str;
  next_lesson_available : option Z;
  quiz_was_cached : bool
}.

(** The [if passed:] block: the progress update of a passed quiz. *)
Definition record_pass (current : session) (lesson_number : Z) : session :=
  let completed :=
    if bool_decide (lesson_number ∈ completed_lessons current)
    then completed_lessons current
    else completed_lessons current ++ [lesson_number] in
  let next :=
    if (lesson_number =? current_lesson current) && (lesson_number <? 14)
    then current_lesson current + 1
    else current_lesson current in
  MkSession (session_id current) (language current) (curriculum current)
            next completed (chat_history current) (created_at current).

Definition submission_failed : exn -> detail :=
  fun _ => Detail (py "Error submitting quiz").

Definition submit_quiz (lesson_id : Z) (answers : list Z) (r : reply)
    : M quiz_submission_response :=
  handler submission_failed
    (let* current := require_session in
     let curriculum := curriculum current in
     let lesson_number := lesson_id in
     let* lesson_info := check (lookup_lesson curriculum lesson_number) in
     let cache_key := quiz_cache_key (session_id current) lesson_number in
     let* st := get_storage in
     let* questions_data :=
       match quiz_cache st !! cache_key with
       | Some cached => ret cached
       | None => generate_and_cache_quiz current lesson_info lesson_number r
       end in
     let* g := check (grade questions_data answers) in
     let* st := get_storage in
     let current' := if g_passed g then record_pass current lesson_number else current in
     let* _ := put_storage
       (MkStorage (Some current') (quiz_cache st) (coding_quizzes st)) in
     ret (MkSubmission (g_score g) (g_passed g) (g_correct_count g) (g_total g)
            (g_results g)
            (if g_passed g then py "تهانينا! لقد نجحت في الاختبار"
             else py "للأسف، لم تجتز الاختبار. حاول مرة أخرى")
            (if g_passed g then Some (current_lesson current') else None)
            (bool_decide (is_Some (quiz_cache st !! cache_key))))).

(** [f"{session_id}_challenge_{challenge_milestone}"]. *)
Definition challenge_key (sid : str) (challenge_milestone : Z) : str :=
  sid ++ py "_challenge_" ++ str_of_int challenge_milestone.

Definition too_few_lessons (completed : Z) : raised :=
  HTTPException 400
    (Detail (py "يتم إنشاء التحديات البرمجية بعد إكمال 4 دروس على الأقل. لقد أكملت "
             ++ str_of_int completed ++ py " دروس فقط حتى الآن.")).

Record challenge_response : Type := MkChallenge {
  ch_challenge : pyval;
  ch_message : str;
  ch_is_cached : bool
}.

Definition challenge_failed : exn -> detail :=
  fun _ => Detail (py "Error generating coding challenge").

Definition generate_coding_challenge_endpoint (now : clock) (r : reply)
    : M challenge_response :=
  handler challenge_failed
    (let* current := require_session in
     let completed := Z.of_nat (length (completed_lessons current)) in
     let* _ := check (raise_if (completed <? 4) (too_few_lessons completed)) in
     let sid := session_id current in
     let challenge_milestone := (completed / 4) * 4 in
     let existing_challenge_key := challenge_key sid challenge_milestone in
     let* st := get_storage in
     match coding_quizzes st !! existing_challenge_key with
     | Some existing =>
       ret (MkChallenge (challenge_data existing)
              (py "تم إيجاد تحدي برمجي سابق بعد إكمال "
               ++ str_of_int challenge_milestone ++ py " دروس")
              true)
     | None =>
       let* _ := await (CallCodingChallenge (language current) challenge_milestone) in
       let challenge :=
         generate_coding_challenge (language current) challenge_milestone now r in
       let* _ := put_storage
         (MkStorage (current_session st) (quiz_cache st)
            (<[existing_challenge_key := MkCodingQuiz challenge sid (isoformat now)]>
               (coding_quizzes st))) in
       ret (MkChallenge challenge
              (py "تم إنشاء تحدي برمجي جديد بعد إكمال "
               ++ str_of_int challenge_milestone ++ py " دروس")
              false)
     end).

Record code_response : Type := MkCode {
  cd_evaluation : pyval;
  cd_challenge_id : str;
  cd_challenge_title : pyval
}.

Definition challenge_not_found : raised :=
  HTTPException 404 (Detail (py "Challenge not found")).

Definition evaluation_failed : exn -> detail :=
  fun _ => Detail (py "Error evaluating code").

Definition submit_code (code challenge_id : str) (r : reply) : M code_response :=
  handler evaluation_failed
    (let* current := require_session in
     let* st := get_storage in
     match coding_quizzes st !! challenge_id with
     | None => raise challenge_not_found
     | Some entry =>
       let data := challenge_data entry in
       let* _ := await (CallEvaluateCode (language current) code challenge_id data) in
       let* evaluation := eval (evaluate_code (language current) code challenge_id data r) in
       let* title := eval (py_get data (py "title") (PStr [])) in
       ret (MkCode evaluation challenge_id title)
     end).

(** *** The server *)

(** The requests served inside a session (all but [POST /select-language],
    which starts one). *)
Inductive request : Type :=
| GetLesson (lesson_number : Z)
| AskTutor (question : str)
| GenerateQuiz (lesson_number : Z)
| SubmitQuiz (lesson_id : Z) (answers : list Z)
| GenerateCodingChallenge
| SubmitCode (code challenge_id : str).

(** One request served: the world it leaves. Each request comes with the
    clock reading and the model reply its handler will meet. *)
Definition serve (rq : request) (now : clock) (r : reply) (w : world) : world :=
  match rq with
  | GetLesson n => (get_lesson n r w).2
  | AskTutor q => (ask_tutor q now r w).2
  | GenerateQuiz n => (generate_quiz n r w).2
  | SubmitQuiz n answers => (submit_quiz n answers r w).2
  | GenerateCodingChallenge => (generate_coding_challenge_endpoint now r w).2
  | SubmitCode code id => (submit_code code id r w).2
  end.

Fixpoint serve_all (rqs : list (request * clock * reply)) (w : world) : world :=
  match rqs with
  | [] => w
  | (rq, now, r) :: rest => serve_all rest (serve rq now r w)
  end.

End Platform.

(** ** Notions the properties are stated with *)

(** The text from an opening brace (already read, at nesting [depth] + 1) up
    to the brace that closes it, every brace character counted. *)
Fixpoint match_close (s : str) (depth : nat) : option str :=
  match s with
  | [] => None
  | c :: r =>
    if (c =? 123)%N then cons c <$> match_close r (S depth)
    else if (c =? 125)%N then
      match depth with
      | O => Some [c]
      | S d => cons c <$> match_close r d
      end
    else cons c <$> match_close r depth
  end.

(** The substring from the first opening brace to the brace matching it
    under brace-depth counting. *)
Fixpoint first_object (s : str) : option str :=
  match s with
  | [] => None
  | c :: r => if (c =? 123)%N then cons c <$> match_close r 0 else first_object r
  end.

Definition brace_free (s : str) : Prop := Forall (fun c => c ≠ 123%N ∧ c ≠ 125%N) s.

Definition all_space (s : str) : Prop := Forall (fun c => isspace c = true) s.

(** [text] is [obj] wrapped in markdown fences: leading whitespace, the
    opening fence with an optional language tag, [obj], then anything (the
    closing fence, trailing prose). *)
Definition fenced (text obj : str) : Prop :=
  ∃ lead tag rest,
    text = lead ++ py "```" ++ tag ++ obj ++ rest ∧ all_space lead ∧ brace_free tag.

(** [s] holds [obj] after a prefix without braces. *)
Definition framed (obj s : str) : Prop :=
  ∃ m t, s = m ++ obj ++ t ∧ brace_free m.

Definition is_dict (v : pyval) : Prop :=
  match v with
  | PDict _ => True
  | _ => False
  end.

(** The [correct_answer] a question holds ([0] when it has none). *)
Definition correct_answer_of (question : pyval) : pyval :=
  match question with
  | PDict items => default (PInt 0) (dict_lookup items (py "correct_answer"))
  | _ => PInt 0
  end.

(** Whether an answer equals the correct answer of the question it is
    paired with. *)
Definition answer_matches (aq : Z * pyval) : bool := int_eq aq.1 (correct_answer_of aq.2).

(** The number of answers equal to the question's correct answer, answers
    and questions both truncated to the shorter of the two. *)
Definition matching_answers (answers : list Z) (questions : list pyval) : Z :=
  let m := Nat.min (length answers) (length questions) in
  Z.of_nat (length (List.filter answer_matches
                                (zip (take m answers) (take m questions)))).

(** Whether [correct] right answers out of [total] pass, in floating point
    and in exact arithmetic. *)
Definition threshold_agrees (total correct : nat) : bool :=
  Bool.eqb (70 <=? int_true_div (Z.of_nat correct) (Z.of_nat total) * 100)%float
           (7 * Z.of_nat total <=? 10 * Z.of_nat correct).

(** [submit_quiz] from the grading block on, given the questions in use. *)
Definition finish_quiz (s : session) (n : Z) (answers : list Z) (qd : pyval) (w : world)
    : (raised + quiz_submission_response) * world :=
  match grade qd answers with
  | Raise e => (Raise (caught submission_failed e), w)
  | Return g =>
    let s' := if g_passed g then record_pass s n else s in
    (Return (MkSubmission (g_score g) (g_passed g) (g_correct_count g) (g_total g)
              (g_results g)
              (if g_passed g then py "تهانينا! لقد نجحت في الاختبار"
               else py "للأسف، لم تجتز الاختبار. حاول مرة أخرى")
              (if g_passed g then Some (current_lesson s') else None)
              (bool_decide
                 (is_Some (quiz_cache (storage w) !! quiz_cache_key (session_id s) n)))),
     MkWorld (MkStorage (Some s') (quiz_cache (storage w)) (coding_quizzes (storage w)))
             (calls w))
  end.

(** The [lessons] list of a curriculum, when it is a dict that has one. *)
Definition lessons_of (curriculum : pyval) : option (list pyval) :=
  match curriculum with
  | PDict items =>
    match dict_lookup items (py "lessons") with
    | Some (PList lessons) => Some lessons
    | _ => None
    end
  | _ => None
  end.

(** The number of quiz generations for lesson [n] in a log of model calls. *)
Definition quiz_generations (n : Z) (log : list llm_call) : nat :=
  length (List.filter
            (fun c => match c with
                      | CallQuizQuestions _ m _ => bool_decide (m = n)
                      | _ => false
                      end) log).

(** What [get_lesson] returns for the curriculum entry [items]. *)
Definition lesson_served (json_loads : str -> option pyval) (repr : pyval -> str)
    (s : session) (n : Z) (items : list (str * pyval)) (r : reply)
    (w : world) : (raised + lesson_response) * world :=
  let title := default (PStr (py "الدرس " ++ str_of_int n))
                       (dict_lookup items (py "title")) in
  (Return (MkLesson n
             (default PNone (dict_lookup items (py "title")))
             (default PNone (dict_lookup items (py "description")))
             (default (PList []) (dict_lookup items (py "objectives")))
             (generate_lesson_content json_loads repr (language s) n title r)
             (language s)),
   MkWorld (storage w) (calls w ++ [CallLessonContent (language s) n title])).

(** The calls one request adds, given the log [cs] and the cache [cache] it
    leaves: none that generates the quiz of lesson [n], or exactly that
    one, made on a cache miss and cached at once. *)
Definition one_generation (json_loads : str -> option pyval) (repr : pyval -> str)
    (w : world) (s : session) (n : Z) (r : reply)
    (cs : list llm_call) (cache : gmap str pyval) : Prop :=
  ∃ new,
    cs = calls w ++ new ∧
    (quiz_generations n new = 0%nat ∨
     ∃ info title,
       new = [CallQuizQuestions (language s) n title] ∧
       lookup_lesson (curriculum s) n = Return info ∧
       title_or_default info n = Return title ∧
       quiz_cache (storage w) !! quiz_cache_key (session_id s) n = None ∧
       cache !! quiz_cache_key (session_id s) n =
         Some (generate_quiz_questions json_loads repr (language s) n title r)).

(** Two states of one session. *)
Definition same_course (s s' : session) : Prop :=
  session_id s' = session_id s ∧ language s' = language s ∧ curriculum s' = curriculum s.

(** [s'] is [s] some requests later. *)
Definition progress (s s' : session) : Prop :=
  same_course s s' ∧ current_lesson s ≤ current_lesson s' ∧
  (current_lesson s ≤ 14 -> current_lesson s' ≤ 14).

(** A parameter for [repr] in closed examples: they format strings and
    integers only, which [format] handles itself. *)
Definition no_repr : pyval -> str := fun _ => [].

(** The storage when the module is loaded. *)
Definition initial_world : world := MkWorld (MkStorage None ∅ ∅) [].

Definition sample_clock : clock :=
  MkClock (py "1700000000.5") 1700000000 (py "2023-11-14T22:13:20.500000").

(** A session started while the model is unreachable: the fallback
    curriculum with its 14 lessons. *)
Definition sample_world : world :=
  (select_language Json.loads (py "Python") sample_clock Fails initial_world).2.

(** A model reply: five questions inside fences, followed by prose. The
    correct answers are 1, 2, 0, 3, 1. *)
Definition five_questions_reply : str :=
  pyq "```json|{'questions': ["
  ++ pyq "{'question': 'q1', 'options': ['a', 'b', 'c', 'd'], 'correct_answer': 1,"
  ++ pyq " 'explanation': 'e1'}, "
  ++ pyq "{'question': 'q2', 'correct_answer': 2}, "
  ++ pyq "{'question': 'q3', 'correct_answer': 0}, "
  ++ pyq "{'question': 'q4', 'correct_answer': 3}, "
  ++ pyq "{'question': 'q5', 'correct_answer': 1}]}"
  ++ pyq "|```|Good luck with the quiz!".

(** Four right answers out of five, and three out of five. *)
Definition four_of_five : list Z := [1; 2; 0; 3; 0].

Definition three_of_five : list Z := [1; 2; 0; 0; 0].

(** The sample session after [GET /generate-quiz/1] met that reply. *)
Definition quiz_world : world :=
  (generate_quiz Json.loads no_repr 1 (Content five_questions_reply) sample_world).2.

(** The sample session after lessons 1 to 4 were passed on the fallback
    quiz (one question, correct answer 0). *)
Definition four_passed_world : world :=
  serve_all Json.loads no_repr
    [ (SubmitQuiz 1 [0], sample_clock, Fails); (SubmitQuiz 2 [0], sample_clock, Fails);
      (SubmitQuiz 3 [0], sample_clock, Fails); (SubmitQuiz 4 [0], sample_clock, Fails) ]
    sample_world.

(** A JSON object inside fences with trailing prose. *)
Definition fenced_object : str := pyq "{'title': 'Loops', 'meta': {'level': 2}}".

Definition fenced_reply : str :=
  pyq "```json|{'title': 'Loops', 'meta': {'level': 2}}|```|I hope this helps!".

(** A JSON object with a closing brace inside a string, inside fences. *)
Definition brace_string_object : str := pyq "{'a': '}'}".

Definition brace_string_reply : str := pyq "```json|{'a': '}'}|```".

(** A session whose curriculum came back from the model without lessons. *)
Definition bare_world : world :=
  (select_language Json.loads (py "Python") sample_clock
     (Content (pyq "{'language': 'Python'}")) initial_world).2.

(** The challenge endpoint served once in [four_passed_world] while the
    model is unreachable. *)
Definition challenge_world : world :=
  (generate_coding_challenge_endpoint Json.loads sample_clock Fails four_passed_world).2.

(** The sample session after [GET /generate-quiz/1] met a reply that is
    valid JSON but holds no questions: that reply is what the cache holds. *)
Definition no_questions_world : world :=
  (generate_quiz Json.loads no_repr 1 (Content (pyq "{'foo': 1}")) sample_world).2.

(** ** The endpoints that only read, and the server from its start *)

(** [default or {}]. *)
Definition or_empty_dict (default : pyval) : pyval :=
  if truthy default then default else PDict [].

(** What [json.loads] does with a text: it returns a document, raises
    [JSONDecodeError], or raises something else, which on a [str] is the
    [ValueError] of an integer literal longer than the interpreter's digit
    limit or the [RecursionError] of too deep a nesting. *)
Inductive decoder_exception : Type :=
| IntegerTooLong
| RecursionError.

Inductive decoding : Type :=
| Document (v : pyval)
| JSONDecodeError
| Escapes (e : decoder_exception).

(** [safe_json_loads(json_str, default)]: its [except] clause catches
    [json.JSONDecodeError] only, any other exception of the decoder leaves
    the function. *)
Definition safe_json_loads (json_loads : str -> decoding) (json_str : str)
    (default : pyval) : decoder_exception + pyval :=
  if bool_decide (json_str = []) || bool_decide (strip json_str = [])
  then Return (or_empty_dict default)
  else
    match json_loads json_str with
    | Document v => Return v
    | JSONDecodeError => Return (or_empty_dict default)
    | Escapes e => Raise e
    end.

(** A [json.loads] made of the decoder of the closed examples; it raises
    nothing but [JSONDecodeError]. *)
Definition sample_loads (s : str) : decoding :=
  match Json.loads s with
  | Some v => Document v
  | None => JSONDecodeError
  end.

(** The body of the answer of [GET /session-status] for an active session. *)
Record session_status : Type := MkStatus {
  ss_session_id : str;
  ss_language : str;
  ss_current_lesson : Z;
  ss_completed_lessons : list Z;
  ss_total_lessons : Z;
  ss_progress_percentage : float;
  ss_chat_history_count : Z;
  ss_created_at : str
}.

Inductive status_response : Type :=
| NoActiveSession (message : str)
| ActiveSession (status : session_status).

Definition status_failed : raised :=
  HTTPException 500 (Detail (py "Error fetching session status")).

(** [try: body] under the single clause [except Exception: raise
    HTTPException(500, ...)]. *)
Definition handler_any {A} (failed : raised) (body : M A) : M A :=
  fun w =>
    match body w with
    | (Raise _, w') => (Raise failed, w')
    | (Return a, w') => (Return a, w')
    end.

Definition get_session_status : M status_response :=
  handler_any status_failed
    (let* st := get_storage in
     match current_session st with
     | None => ret (NoActiveSession (py "No active session"))
     | Some current =>
       let* lessons := eval (py_get (curriculum current) (py "lessons") (PList [])) in
       let* total := eval (py_len lessons) in
       ret (ActiveSession
              (MkStatus (session_id current) (language current) (current_lesson current)
                 (completed_lessons current) total
                 (int_true_div (Z.of_nat (length (completed_lessons current)) * 100) 14)
                 (Z.of_nat (length (chat_history current)))
                 (created_at current)))
     end).

(** Every request that can change the storage: [POST /select-language], and
    the requests served inside a session. *)
Inductive api_request : Type :=
| SelectLanguage (lang : str)
| InSession (rq : request).

Definition handle (json_loads : str -> option pyval) (repr : pyval -> str)
    (a : api_request) (now : clock) (r : reply) (w : world) : world :=
  match a with
  | SelectLanguage lang => (select_language json_loads lang now r w).2
  | InSession rq => serve json_loads repr rq now r w
  end.

(** The server after a sequence of requests, each with the clock reading
    and the model reply it meets. *)
Fixpoint handle_all (json_loads : str -> option pyval) (repr : pyval -> str)
    (rqs : list (api_request * clock * reply)) (w : world) : world :=
  match rqs with
  | [] => w
  | (a, now, r) :: rest => handle_all json_loads repr rest (handle json_loads repr a now r w)
  end.

(** [current_session["chat_history"].append(entry)]. *)
Definition with_chat (s : session) (entry : chat_entry) : session :=
  MkSession (session_id s) (language s) (curriculum s) (current_lesson s)
            (completed_lessons s) (chat_history s ++ [entry]) (created_at s).

(** The milestone the challenge endpoint computes for a session. *)
Definition milestone_of (s : session) : Z :=
  Z.of_nat (length (completed_lessons s)) / 4 * 4.

(** What the tutor answers, given what the model replies: the reply, or
    the apology of [get_ai_tutor_response] when the call raises. *)
Definition tutor_answer (r : reply) : str :=
  match r with
  | Content c => c
  | Fails => py "عذراً، حدث خطأ في النظام. يرجى إعادة المحاولة."
  end.

(** The chat entries a sequence of requests adds: one per question asked. *)
Definition chat_log (rqs : list (request * clock * reply)) : list chat_entry :=
  flat_map
    (fun x =>
       match x with
       | (AskTutor question, now, r) => [MkChat question (tutor_answer r) (isoformat now)]
       | _ => []
       end)
    rqs.

(** [t] is a contiguous part of [s]. *)
Definition part_of (t s : str) : Prop := ∃ a b, s = a ++ t ++ b.

(** A text of ASCII characters only. *)
Definition ascii_only (s : string) : Prop :=
  Forall (fun b => (b < 128)%N) (map N_of_ascii (list_ascii_of_string s)).

(** ** Properties *)

Section Properties.

Variable json_loads : str -> option pyval.
Variable repr : pyval -> str.

Local Abbreviation clean_json_response := (clean_json_response json_loads).
Local Abbreviation generate_curriculum := (generate_curriculum json_loads).
Local Abbreviation generate_lesson_content := (generate_lesson_content json_loads repr).
Local Abbreviation generate_quiz_questions := (generate_quiz_questions json_loads repr).
Local Abbreviation generate_coding_challenge := (generate_coding_challenge json_loads).
Local Abbreviation evaluate_code := (evaluate_code json_loads).
Local Abbreviation select_language := (select_language json_loads).
Local Abbreviation get_lesson := (get_lesson json_loads repr).
Local Abbreviation generate_and_cache_quiz := (generate_and_cache_quiz json_loads repr).
Local Abbreviation generate_quiz := (generate_quiz json_loads repr).
Local Abbreviation submit_quiz := (submit_quiz json_loads repr).
Local Abbreviation generate_coding_challenge_endpoint :=
  (generate_coding_challenge_endpoint json_loads).
Local Abbreviation submit_code := (submit_code json_loads).
Local Abbreviation lesson_served := (lesson_served json_loads repr).
Local Abbreviation one_generation := (one_generation json_loads repr).
Local Abbreviation serve := (serve json_loads repr).
Local Abbreviation serve_all := (serve_all json_loads repr).

(** String literals stay folded while the handlers are unfolded. *)
Opaque py pretty.

Ltac run_handler :=
  unfold handler, bind, ret, raise, eval, check, get_storage, put_storage, await,
    require_session in *; simpl in *.

Ltac run_cases :=
  repeat (simpl in *; simplify_eq/=; try case_match); try done.

(** *** The response extractor *)

Lemma brace_scan_free m rest i st :
  brace_free m ->
  brace_scan (m ++ rest) i st = brace_scan rest (i + Z.of_nat (length m)) st.
Proof.
  intros Hm. revert i. induction Hm as [|c m [Ho Hc] _ IH]; intros i; simpl.
  - f_equal. lia.
  - apply N.eqb_neq in Ho, Hc. rewrite Ho, Hc, IH. f_equal. lia.
Qed.

Lemma match_close_scan o : ∀ depth t i st,
  match_close o depth = Some o ->
  brace_count st = Z.of_nat depth + 1 ->
  start_idx st ≠ -1 ->
  brace_scan (o ++ t) i st = MkScan 0 (start_idx st) (i + Z.of_nat (length o)).
Proof.
  induction o as [|c o IH]; intros depth t i st Hm Hcount Hstart; [done|].
  simpl in Hm |- *.
  assert (Hs : (start_idx st =? -1) = false) by (by apply Z.eqb_neq).
  destruct (c =? 123)%N eqn:Ho.
  - destruct (match_close o (S depth)) as [o'|] eqn:E; simplify_eq/=.
    rewrite (IH (S depth)); simpl; [|done|lia|by rewrite Hs].
    rewrite Hs. f_equal. lia.
  - destruct (c =? 125)%N eqn:Hc.
    + destruct depth as [|d].
      * simplify_eq/=. rewrite Hcount. simpl. rewrite Hs. simpl. f_equal.
      * destruct (match_close o d) as [o'|] eqn:E; simplify_eq/=.
        replace (brace_count st - 1 =? 0) with false
          by (symmetry; apply Z.eqb_neq; lia).
        simpl. rewrite (IH d); simpl; [|done|lia|done]. f_equal. lia.
    + destruct (match_close o depth) as [o'|] eqn:E; simplify_eq/=.
      rewrite (IH depth); [|done..]. f_equal. lia.
Qed.

Lemma match_close_last o : ∀ depth,
  match_close o depth = Some o -> ∃ o', o = o' ++ [125%N].
Proof.
  induction o as [|c o IH]; intros depth Hm; [done|]. simpl in Hm.
  assert (∀ d, cons c <$> match_close o d = Some (c :: o) -> ∃ o', c :: o = o' ++ [125%N]).
  { intros d Hd. destruct (match_close o d) as [o'|] eqn:E; simplify_eq/=.
    destruct (IH d E) as [o' ->]. by exists (c :: o'). }
  destruct (c =? 123)%N; [by eauto|].
  destruct (c =? 125)%N eqn:Hc; [|by eauto].
  destruct depth; [|by eauto].
  apply N.eqb_eq in Hc. simplify_eq. by exists [].
Qed.

Lemma not_elem_of_literal (c : N) (p : str) :
  forallb (fun x => negb (x =? c)%N) p = true -> c ∉ p.
Proof.
  intros Hall Hin. apply list_elem_of_In in Hin.
  rewrite forallb_forall in Hall. specialize (Hall c Hin).
  by rewrite N.eqb_refl in Hall.
Qed.

Lemma first_object_head s o : first_object s = Some o -> ∃ b, o = 123%N :: b.
Proof.
  induction s as [|c s IH]; simpl; [done|].
  destruct (c =? 123)%N eqn:Hc; [|done].
  apply N.eqb_eq in Hc as ->.
  destruct (match_close s 0) as [b|]; intros; simplify_eq/=. by eexists.
Qed.

Lemma brace_free_drop k m : brace_free m -> brace_free (drop k m).
Proof. apply Forall_drop. Qed.

Lemma startswith_drop a c b p :
  startswith (a ++ c :: b) p = true -> c ∉ p ->
  drop (length p) (a ++ c :: b) = drop (length p) a ++ c :: b.
Proof.
  revert a. induction p as [|x p IH]; intros a Hs Hc; [done|].
  destruct a as [|y a]; simpl in *.
  - apply andb_true_iff in Hs as [Hx _]. apply N.eqb_eq in Hx. set_solver.
  - apply andb_true_iff in Hs as [_ Hs]. apply IH; [done|set_solver].
Qed.

Lemma lstrip_app_nonspace a c b :
  isspace c = false -> lstrip (a ++ c :: b) = lstrip a ++ c :: b.
Proof.
  intros Hc. induction a as [|x a IH]; simpl.
  - by rewrite Hc.
  - destruct (isspace x); [done|]. done.
Qed.

Lemma lstrip_suffix a : ∃ k, lstrip a = drop k a.
Proof.
  induction a as [|x a [k IH]]; simpl; [by exists 0%nat|].
  destruct (isspace x); [by exists (S k)|by exists 0%nat].
Qed.

Lemma rstrip_app_nonspace a c b :
  isspace c = false -> rstrip (a ++ c :: b) = a ++ c :: rstrip b.
Proof.
  intros Hc. unfold rstrip.
  rewrite rev_app_distr. simpl. rewrite <- app_assoc. simpl.
  rewrite lstrip_app_nonspace by done.
  rewrite rev_app_distr. simpl. rewrite rev_involutive.
  by rewrite <- app_assoc.
Qed.

Section Framed.
Variables (body : str).
Hypothesis Hbody : match_close body 0 = Some body.
Let obj : str := 123%N :: body.

Lemma framed_lstrip s : framed obj s -> framed obj (lstrip s).
Proof.
  intros (m & t & -> & Hm). unfold obj. simpl.
  rewrite (lstrip_app_nonspace m 123%N (body ++ t)) by done.
  destruct (lstrip_suffix m) as [k ->].
  exists (drop k m), t. split; [done|by apply brace_free_drop].
Qed.

Lemma framed_rstrip s : framed obj s -> framed obj (rstrip s).
Proof.
  intros (m & t & -> & Hm). destruct (match_close_last _ _ Hbody) as [o' Ho'].
  exists m, (rstrip t). split; [|done].
  unfold obj. rewrite Ho'.
  replace (m ++ (123%N :: o' ++ [125%N]) ++ t) with ((m ++ 123%N :: o') ++ 125%N :: t)
    by (simpl; rewrite <- !app_assoc; done).
  rewrite rstrip_app_nonspace by done. simpl. by rewrite <- !app_assoc.
Qed.

Lemma framed_drop s p :
  framed obj s -> startswith s p = true -> 123%N ∉ p ->
  framed obj (drop (length p) s).
Proof.
  intros (m & t & -> & Hm) Hs Hp. unfold obj in *. simpl in *.
  rewrite startswith_drop by done.
  exists (drop (length p) m), t. split; [done|by apply brace_free_drop].
Qed.

Lemma framed_take s p :
  framed obj s -> endswith s p = true -> 125%N ∉ p ->
  framed obj (take (length s - length p) s).
Proof.
  intros (m & t & -> & Hm) Hs Hp. destruct (match_close_last _ _ Hbody) as [o' Ho'].
  unfold endswith in Hs.
  assert (Hrev : rev (m ++ obj ++ t) = rev t ++ 125%N :: (rev o' ++ 123%N :: rev m)).
  { unfold obj. rewrite Ho'. rewrite !rev_app_distr. simpl. rewrite !rev_app_distr. simpl.
    rewrite <- app_assoc. simpl. by rewrite <- app_assoc. }
  rewrite Hrev in Hs.
  assert (Hp' : 125%N ∉ rev p).
  { intros H. apply Hp, list_elem_of_In, in_rev. by apply list_elem_of_In. }
  pose proof (startswith_drop _ _ _ _ Hs Hp') as Hd.
  rewrite length_rev in Hd.
  assert (Htake : ∀ (s : str) k, take (length s - k) s = rev (drop k (rev s)))
    by (intros; by rewrite skipn_rev, rev_involutive).
  rewrite Htake, Hrev, Hd.
  exists m, (rev (drop (length p) (rev t))). split; [|done].
  rewrite rev_app_distr. simpl. rewrite rev_app_distr. simpl. rewrite !rev_involutive.
  unfold obj. rewrite Ho'. by rewrite <- !app_assoc.
Qed.

Lemma framed_strip_fences s : framed obj s -> framed obj (strip_fences s).
Proof.
  intros Hs. unfold strip_fences, strip.
  apply framed_rstrip, framed_lstrip.
  assert (H0 : framed obj (rstrip (lstrip s))) by (by apply framed_rstrip, framed_lstrip).
  set (s0 := rstrip (lstrip s)) in *. clearbody s0.
  assert (H1 : framed obj (if startswith s0 (py "```json") then drop 7 s0 else s0)).
  { destruct (startswith s0 (py "```json")) eqn:E; [|done].
    apply (framed_drop s0 (py "```json")); [done..|]. by apply not_elem_of_literal. }
  set (s1 := if startswith s0 (py "```json") then drop 7 s0 else s0) in *. clearbody s1.
  assert (H2 : framed obj (if startswith s1 (py "```") then drop 3 s1 else s1)).
  { destruct (startswith s1 (py "```")) eqn:E; [|done].
    apply (framed_drop s1 (py "```")); [done..|]. by apply not_elem_of_literal. }
  set (s2 := if startswith s1 (py "```") then drop 3 s1 else s1) in *. clearbody s2.
  destruct (endswith s2 (py "```")) eqn:E; [|done].
  apply (framed_take s2 (py "```")); [done..|]. by apply not_elem_of_literal.
Qed.

Lemma framed_clean s v :
  framed obj s -> json_loads obj = Some v -> clean_json_response s = Return obj.
Proof.
  intros Hs Hv. apply framed_strip_fences in Hs as (m & t & Hc & Hm).
  unfold clean_json_response. rewrite Hc.
  rewrite brace_scan_free by done. unfold obj at 1. simpl.
  rewrite (match_close_scan body 0 t) by (simpl; done || lia).
  simpl.
  assert (Hstart : (0 + Z.of_nat (length m) =? -1) = false) by (apply Z.eqb_neq; lia).
  assert (Hend : (0 + Z.of_nat (length m) + 1 + Z.of_nat (length body) =? -1) = false)
    by (apply Z.eqb_neq; lia).
  rewrite Hstart, Hend. simpl.
  assert (Hslice : slice (m ++ obj ++ t) (0 + Z.of_nat (length m))
            (0 + Z.of_nat (length m) + 1 + Z.of_nat (length body)) = obj).
  { unfold slice.
    replace (Z.to_nat (0 + Z.of_nat (length m))) with (length m) by lia.
    replace (Z.to_nat (0 + Z.of_nat (length m) + 1 + Z.of_nat (length body)) - length m)%nat
      with (length obj) by (unfold obj; simpl; lia).
    rewrite drop_app_length. by rewrite take_app_length. }
  change (m ++ 123%N :: body ++ t) with (m ++ obj ++ t).
  by rewrite Hslice, Hv.
Qed.
End Framed.

Lemma brace_free_check (s : str) :
  forallb (fun c => negb (c =? 123)%N && negb (c =? 125)%N) s = true -> brace_free s.
Proof.
  intros Hall. apply Forall_forall. intros c Hc. apply list_elem_of_In in Hc.
  rewrite forallb_forall in Hall. specialize (Hall c Hc).
  apply andb_true_iff in Hall as [H1 H2].
  apply negb_true_iff in H1, H2. by apply N.eqb_neq in H1, H2.
Qed.

Lemma all_space_check (s : str) : forallb isspace s = true -> all_space s.
Proof.
  intros Hall. apply Forall_forall. intros c Hc. apply list_elem_of_In in Hc.
  rewrite forallb_forall in Hall. by apply Hall.
Qed.

(** C7 (amended). For every text wrapped in markdown fences that holds a
    JSON object [obj], possibly followed by trailing prose, where [obj] is
    accepted by [json.loads] and its first opening brace is matched, under
    brace-depth counting over all its characters, by its last character,
    [clean_json_response] returns exactly [obj]. *)
Theorem clean_json_response_fenced text obj v :
  fenced text obj ->
  first_object obj = Some obj ->
  json_loads obj = Some v ->
  clean_json_response text = Return obj.
Proof.
  intros (lead & tag & rest & -> & Hlead & Htag) Hobj Hv.
  destruct obj as [|c body]; [done|]. simpl in Hobj.
  destruct (c =? 123)%N eqn:Hc.
  - apply N.eqb_eq in Hc as ->.
    destruct (match_close body 0) as [b|] eqn:Hb; simplify_eq/=.
    apply (framed_clean body Hb _ v); [|done].
    exists (lead ++ py "```" ++ tag), rest. split.
    + by rewrite <- !app_assoc.
    + apply Forall_app. split.
      * eapply Forall_impl; [exact Hlead|]. intros x Hx. split; intros ->; done.
      * apply Forall_app. split; [|done]. vm_compute. repeat constructor; done.
  - apply first_object_head in Hobj as [b Hb]. injection Hb as -> _. done.
Qed.

(** *** The handlers, branch by branch *)

Lemma generate_and_cache_quiz_run s info n r w :
  generate_and_cache_quiz s info n r w =
    match title_or_default info n with
    | Raise e => (Raise (Exception e), w)
    | Return title =>
      let q := generate_quiz_questions (language s) n title r in
      (Return q,
       MkWorld (MkStorage (current_session (storage w))
                          (<[quiz_cache_key (session_id s) n := q]> (quiz_cache (storage w)))
                          (coding_quizzes (storage w)))
               (calls w ++ [CallQuizQuestions (language s) n title]))
    end.
Proof.
  unfold generate_and_cache_quiz. run_handler.
  destruct (title_or_default info n); done.
Qed.

Lemma generate_quiz_run n r w :
  generate_quiz n r w =
    match current_session (storage w) with
    | None => (Raise no_session, w)
    | Some s =>
      match require_lessons (curriculum s) with
      | Raise e => (Raise (caught quiz_failed e), w)
      | Return _ =>
        match lookup_lesson (curriculum s) n with
        | Raise e => (Raise (caught quiz_failed e), w)
        | Return info =>
          match quiz_cache (storage w) !! quiz_cache_key (session_id s) n with
          | Some q =>
            match py_get info (py "title") PNone with
            | Raise e => (Raise (caught quiz_failed (Exception e)), w)
            | Return t => (Return (MkQuiz n t q true), w)
            end
          | None =>
            match generate_and_cache_quiz s info n r w with
            | (Raise e, w') => (Raise (caught quiz_failed e), w')
            | (Return q, w') =>
              match py_get info (py "title") PNone with
              | Raise e => (Raise (caught quiz_failed (Exception e)), w')
              | Return t => (Return (MkQuiz n t q false), w')
              end
            end
          end
        end
      end
    end.
Proof.
  unfold generate_quiz, handler, bind, ret, check, eval, get_storage, require_session.
  destruct (current_session (storage w)) as [s|]; simpl; [|done].
  destruct (require_lessons (curriculum s)) as [e|[]]; simpl; [done|].
  destruct (lookup_lesson (curriculum s) n) as [e|info]; simpl; [done|].
  destruct (quiz_cache (storage w) !! quiz_cache_key (session_id s) n) as [q|]; simpl.
  - destruct (py_get info (py "title") PNone); done.
  - destruct (generate_and_cache_quiz s info n r w) as [[e|q] w']; simpl; [done|].
    destruct (py_get info (py "title") PNone); done.
Qed.

Lemma submit_quiz_run n answers r w :
  submit_quiz n answers r w =
    match current_session (storage w) with
    | None => (Raise no_session, w)
    | Some s =>
      match lookup_lesson (curriculum s) n with
      | Raise e => (Raise (caught submission_failed e), w)
      | Return info =>
        match quiz_cache (storage w) !! quiz_cache_key (session_id s) n with
        | Some qd => finish_quiz s n answers qd w
        | None =>
          match generate_and_cache_quiz s info n r w with
          | (Raise e, w') => (Raise (caught submission_failed e), w')
          | (Return qd, w') => finish_quiz s n answers qd w'
          end
        end
      end
    end.
Proof.
  unfold submit_quiz, finish_quiz, handler, bind, ret, check, get_storage, put_storage,
    require_session.
  destruct (current_session (storage w)) as [s|]; simpl; [|done].
  destruct (lookup_lesson (curriculum s) n) as [e|info]; simpl; [done|].
  destruct (quiz_cache (storage w) !! quiz_cache_key (session_id s) n) as [qd|] eqn:Hq;
    simpl.
  - destruct (grade qd answers) as [e|g]; simpl; rewrite ?Hq; done.
  - destruct (generate_and_cache_quiz s info n r w) as [[e|qd] w']; simpl; [done|].
    destruct (grade qd answers) as [e|g]; done.
Qed.

Lemma get_lesson_run n r w :
  get_lesson n r w =
    match current_session (storage w) with
    | None => (Raise no_session, w)
    | Some s =>
      if n >? current_lesson s then (Raise lesson_locked, w) else
      match require_lessons (curriculum s) with
      | Raise e => (Raise (caught lesson_failed e), w)
      | Return _ =>
        match lookup_lesson (curriculum s) n with
        | Raise e => (Raise (caught lesson_failed e), w)
        | Return info =>
          match info with
          | PDict items =>
            let title := default (PStr (py "الدرس " ++ str_of_int n))
                                 (dict_lookup items (py "title")) in
            (Return (MkLesson n
                       (default PNone (dict_lookup items (py "title")))
                       (default PNone (dict_lookup items (py "description")))
                       (default (PList []) (dict_lookup items (py "objectives")))
                       (generate_lesson_content (language s) n title r)
                       (language s)),
             MkWorld (storage w) (calls w ++ [CallLessonContent (language s) n title]))
          | _ => (Raise (HTTPException 500 (lesson_failed AttributeError)), w)
          end
        end
      end
    end.
Proof.
  unfold get_lesson, handler, bind, ret, check, eval, await, require_session.
  destruct (current_session (storage w)) as [s|]; simpl; [|done].
  destruct (n >? current_lesson s); simpl; [done|].
  destruct (require_lessons (curriculum s)) as [e|[]]; simpl; [done|].
  destruct (lookup_lesson (curriculum s) n) as [e|info]; simpl; [done|].
  destruct info; done.
Qed.

Lemma generate_coding_challenge_endpoint_run now r w :
  generate_coding_challenge_endpoint now r w =
    match current_session (storage w) with
    | None => (Raise no_session, w)
    | Some s =>
      let completed := Z.of_nat (length (completed_lessons s)) in
      if completed <? 4 then (Raise (too_few_lessons completed), w) else
      let milestone := completed / 4 * 4 in
      match coding_quizzes (storage w) !! challenge_key (session_id s) milestone with
      | Some existing =>
        (Return (MkChallenge (challenge_data existing)
                   (py "تم إيجاد تحدي برمجي سابق بعد إكمال "
                    ++ str_of_int milestone ++ py " دروس")
                   true),
         w)
      | None =>
        let challenge := generate_coding_challenge (language s) milestone now r in
        (Return (MkChallenge challenge
                   (py "تم إنشاء تحدي برمجي جديد بعد إكمال "
                    ++ str_of_int milestone ++ py " دروس")
                   false),
         MkWorld (MkStorage (current_session (storage w)) (quiz_cache (storage w))
                    (<[challenge_key (session_id s) milestone :=
                         MkCodingQuiz challenge (session_id s) (isoformat now)]>
                       (coding_quizzes (storage w))))
                 (calls w ++ [CallCodingChallenge (language s) milestone]))
      end
    end.
Proof.
  unfold generate_coding_challenge_endpoint, handler, bind, ret, check, await,
    get_storage, put_storage, require_session.
  destruct (current_session (storage w)) as [s|] eqn:Hs; simpl; [|done].
  destruct (Z.of_nat (length (completed_lessons s)) <? 4); simpl; [done|].
  destruct (coding_quizzes (storage w) !! _); simpl; rewrite ?Hs; done.
Qed.

Lemma submit_code_run code challenge_id r w :
  submit_code code challenge_id r w =
    match current_session (storage w) with
    | None => (Raise no_session, w)
    | Some s =>
      match coding_quizzes (storage w) !! challenge_id with
      | None => (Raise challenge_not_found, w)
      | Some entry =>
        let w' := MkWorld (storage w)
                    (calls w ++ [CallEvaluateCode (language s) code challenge_id
                                                   (challenge_data entry)]) in
        match evaluate_code (language s) code challenge_id (challenge_data entry) r with
        | Raise e => (Raise (HTTPException 500 (evaluation_failed e)), w')
        | Return evaluation =>
          match py_get (challenge_data entry) (py "title") (PStr []) with
          | Raise e => (Raise (HTTPException 500 (evaluation_failed e)), w')
          | Return title => (Return (MkCode evaluation challenge_id title), w')
          end
        end
      end
    end.
Proof.
  unfold submit_code, handler, bind, ret, raise, check, eval, await, get_storage,
    require_session.
  destruct (current_session (storage w)) as [s|]; simpl; [|done].
  destruct (coding_quizzes (storage w) !! challenge_id) as [entry|]; simpl; [|done].
  destruct (evaluate_code _ _ _ _ _) as [e|evaluation]; simpl; [done|].
  destruct (py_get _ _ _); done.
Qed.

Lemma ask_tutor_run question now r w :
  ask_tutor question now r w =
    match current_session (storage w) with
    | None => (Raise no_session, w)
    | Some s =>
      let answer :=
        get_ai_tutor_response question (language s) (current_lesson s) (chat_history s) r in
      (Return (MkTutor answer (session_id s)),
       MkWorld
         (MkStorage
            (Some (MkSession (session_id s) (language s) (curriculum s) (current_lesson s)
                     (completed_lessons s)
                     (chat_history s ++ [MkChat question answer (isoformat now)])
                     (created_at s)))
            (quiz_cache (storage w)) (coding_quizzes (storage w)))
         (calls w ++ [CallTutor question (language s) (current_lesson s) (chat_history s)]))
    end.
Proof.
  unfold ask_tutor, handler, bind, ret, await, get_storage, put_storage, require_session.
  destruct (current_session (storage w)) as [s|]; done.
Qed.

Lemma select_language_session lang now r w :
  current_session (storage (select_language lang now r w).2) =
    Some (MkSession (py "session_" ++ timestamp_str now) lang
                    (generate_curriculum lang r) 1 [] [] (isoformat now)).
Proof. unfold select_language. run_handler. run_cases. Qed.

(** *** Progress through the lessons *)

Lemma progress_refl s : progress s s.
Proof. repeat split; lia. Qed.

Lemma progress_trans s1 s2 s3 : progress s1 s2 -> progress s2 s3 -> progress s1 s3.
Proof.
  intros ((? & ? & ?) & ? & ?) ((? & ? & ?) & ? & ?).
  repeat split; try congruence; lia.
Qed.

Lemma record_pass_progress s n : progress s (record_pass s n).
Proof.
  unfold record_pass. repeat split; simpl; destruct (n =? current_lesson s) eqn:E1;
    destruct (n <? 14) eqn:E2; simpl; lia.
Qed.

Lemma finish_quiz_session s n answers qd w :
  current_session (storage w) = Some s ->
  ∃ s', current_session (storage (finish_quiz s n answers qd w).2) = Some s'
        ∧ progress s s'.
Proof.
  intros Hs. unfold finish_quiz. destruct (grade qd answers) as [e|g]; simpl.
  - eauto using progress_refl.
  - eexists; split; [done|].
    destruct (g_passed g); auto using progress_refl, record_pass_progress.
Qed.

Lemma serve_progress rq now r w s :
  current_session (storage w) = Some s ->
  ∃ s', current_session (storage (serve rq now r w)) = Some s' ∧ progress s s'.
Proof.
  intros Hs. destruct rq as [n|q|n|n answers| |c i]; simpl.
  - rewrite get_lesson_run, Hs. run_cases; eauto using progress_refl.
  - rewrite ask_tutor_run, Hs. simpl.
    eexists. split; [done|]. repeat split; simpl; lia.
  - rewrite generate_quiz_run, Hs. run_cases; eauto using progress_refl;
      rewrite generate_and_cache_quiz_run in *; run_cases; eauto using progress_refl.
  - rewrite submit_quiz_run, Hs.
    destruct (lookup_lesson (curriculum s) n) as [e|info]; simpl; [eauto using progress_refl|].
    destruct (quiz_cache (storage w) !! quiz_cache_key (session_id s) n) as [qd|].
    + by apply finish_quiz_session.
    + rewrite generate_and_cache_quiz_run.
      destruct (title_or_default info n) as [e|title]; simpl; [eauto using progress_refl|].
      by apply finish_quiz_session.
  - rewrite generate_coding_challenge_endpoint_run, Hs. run_cases; eauto using progress_refl.
  - rewrite submit_code_run, Hs. run_cases; eauto using progress_refl.
Qed.

Lemma serve_all_progress rqs : ∀ w s,
  current_session (storage w) = Some s ->
  ∃ s', current_session (storage (serve_all rqs w)) = Some s' ∧ progress s s'.
Proof.
  induction rqs as [|[[rq now] r] rqs IH]; intros w s Hs; simpl.
  - eauto using progress_refl.
  - destruct (serve_progress rq now r w s Hs) as (s1 & Hs1 & Hp1).
    destruct (IH _ _ Hs1) as (s2 & Hs2 & Hp2).
    eauto using progress_trans.
Qed.

Lemma serve_all_app rqs1 rqs2 w :
  serve_all (rqs1 ++ rqs2) w = serve_all rqs2 (serve_all rqs1 w).
Proof.
  revert w. induction rqs1 as [|[[rq now] r] rqs1 IH]; intros w; simpl; [done|].
  apply IH.
Qed.

(** C4. A session starts with [current_lesson = 1]; across every sequence
    of requests served in it (submit-quiz calls and any others),
    [current_lesson] never decreases and never exceeds 14. *)
Theorem current_lesson_monotone w lang now r rqs1 rqs2 :
  let w0 := (select_language lang now r w).2 in
  ∃ s0 s1 s2,
    current_session (storage w0) = Some s0 ∧ current_lesson s0 = 1 ∧
    current_session (storage (serve_all rqs1 w0)) = Some s1 ∧
    current_session (storage (serve_all (rqs1 ++ rqs2) w0)) = Some s2 ∧
    1 ≤ current_lesson s1 ∧ current_lesson s1 ≤ current_lesson s2 ∧
    current_lesson s2 ≤ 14.
Proof.
  intros w0. pose proof (select_language_session lang now r w) as Hs0.
  fold w0 in Hs0.
  destruct (serve_all_progress rqs1 _ _ Hs0) as (s1 & Hs1 & _ & Hle1 & Hmax1).
  destruct (serve_all_progress rqs2 _ _ Hs1) as (s2 & Hs2 & _ & Hle2 & Hmax2).
  rewrite <- serve_all_app in Hs2. simpl in *.
  eexists _, s1, s2. repeat split; try done; lia.
Qed.

Lemma record_pass_twice s n : record_pass (record_pass s n) n = record_pass s n.
Proof.
  unfold record_pass. simpl. f_equal.
  - destruct ((n =? current_lesson s) && (n <? 14)) eqn:E.
    + apply andb_true_iff in E as [E1 E2]. apply Z.eqb_eq in E1.
      replace (n =? current_lesson s + 1) with false by (symmetry; apply Z.eqb_neq; lia).
      done.
    + by rewrite E.
  - destruct (bool_decide (n ∈ completed_lessons s)) eqn:E.
    + by rewrite E.
    + rewrite bool_decide_true; [done|]. set_solver.
Qed.

Lemma finish_quiz_again s n answers qd w resp w' :
  quiz_cache (storage w) !! quiz_cache_key (session_id s) n = Some qd ->
  finish_quiz s n answers qd w = (Return resp, w') ->
  passed resp = true ->
  current_session (storage w') = Some (record_pass s n) ∧
  quiz_cache (storage w') !! quiz_cache_key (session_id s) n = Some qd ∧
  finish_quiz (record_pass s n) n answers qd w' = (Return resp, w').
Proof.
  intros Hq Hf Hp. unfold finish_quiz in *.
  destruct (grade qd answers) as [e|g]; [done|]. simplify_eq/=.
  rewrite Hp, !record_pass_twice. simpl. rewrite Hq. done.
Qed.

(** C3. A passing submission for lesson [n] appends [n] to
    [completed_lessons] only when it is not there yet, and increments
    [current_lesson] exactly when [n] is the current lesson and [n < 14]; a
    second submission of the same answers right after it passes again with
    the same response and changes nothing. *)
Theorem passing_submission_progress w s n answers r resp w' :
  current_session (storage w) = Some s ->
  submit_quiz n answers r w = (Return resp, w') ->
  passed resp = true ->
  ∃ s',
    current_session (storage w') = Some s' ∧
    completed_lessons s' =
      (if bool_decide (n ∈ completed_lessons s) then completed_lessons s
       else completed_lessons s ++ [n]) ∧
    current_lesson s' =
      (if bool_decide (n = current_lesson s ∧ n < 14) then current_lesson s + 1
       else current_lesson s) ∧
    (NoDup (completed_lessons s) -> NoDup (completed_lessons s')) ∧
    (n ∈ completed_lessons s -> n ≠ current_lesson s ->
       current_lesson s' = current_lesson s) ∧
    ∀ r2, submit_quiz n answers r2 w' = (Return resp, w').
Proof.
  intros Hs Hrun Hp.
  assert (∃ qd w1,
    quiz_cache (storage w1) !! quiz_cache_key (session_id s) n = Some qd ∧
    finish_quiz s n answers qd w1 = (Return resp, w') ∧
    ∃ info, lookup_lesson (curriculum s) n = Return info) as (qd & w1 & Hq & Hf & info & Hl).
  { rewrite submit_quiz_run, Hs in Hrun.
    destruct (lookup_lesson (curriculum s) n) as [e|info]; [done|].
    destruct (quiz_cache (storage w) !! quiz_cache_key (session_id s) n) as [qd|] eqn:Hq.
    - eauto 10.
    - rewrite generate_and_cache_quiz_run in Hrun.
      destruct (title_or_default info n) as [e|title]; [done|]. simpl in Hrun.
      eexists _, _. split; [|eauto]. simpl. apply lookup_insert_eq. }
  destruct (finish_quiz_again _ _ _ _ _ _ _ Hq Hf Hp) as (Hs' & Hq' & Hf').
  exists (record_pass s n). split; [done|].
  assert (Hcur : current_lesson (record_pass s n) =
    (if bool_decide (n = current_lesson s ∧ n < 14) then current_lesson s + 1
     else current_lesson s)).
  { simpl. destruct (n =? current_lesson s) eqn:E1; destruct (n <? 14) eqn:E2; simpl;
      case_bool_decide; lia. }
  split; [by simpl; repeat case_bool_decide|].
  split; [exact Hcur|]. split; [|split].
  - clear Hcur. simpl. intros Hnd. case_bool_decide; [done|].
    apply NoDup_app. split; [done|]. split; [|apply NoDup_singleton].
    intros x Hx Hx'. apply list_elem_of_singleton in Hx'. by subst.
  - intros _ Hne. rewrite Hcur. case_bool_decide; [|done]. lia.
  - intros r2. rewrite submit_quiz_run, Hs'. simpl. rewrite Hl.
    simpl in Hq'. by rewrite Hq'.
Qed.

(** *** Grading *)

Lemma zip_take_min {A B} (l : list A) (k : list B) :
  zip (take (Nat.min (length l) (length k)) l) (take (Nat.min (length l) (length k)) k)
  = zip l k.
Proof.
  revert k. induction l as [|a l IH]; intros [|b k]; simpl; try done.
  by rewrite IH.
Qed.

Lemma matching_answers_zip answers qs :
  matching_answers answers qs =
    Z.of_nat (length (List.filter answer_matches (zip answers qs))).
Proof. unfold matching_answers. by rewrite zip_take_min. Qed.

Lemma seq_index_lookup {A} (l : list A) (k : nat) x :
  l !! k = Some x -> seq_index l (Z.of_nat k) = Return x.
Proof.
  intros Hk. pose proof (lookup_lt_Some _ _ _ Hk) as Hlt. unfold seq_index.
  replace (Z.of_nat k <? 0) with false by (symmetry; apply Z.ltb_ge; lia).
  replace (Z.of_nat k <? 0) with false by (symmetry; apply Z.ltb_ge; lia).
  replace (Z.of_nat (length l) <=? Z.of_nat k) with false
    by (symmetry; apply Z.leb_gt; lia).
  simpl. by rewrite Nat2Z.id, Hk.
Qed.

(** The loop on a list of questions: it counts the matches of the zipped
    answers and questions, and appends one result per pair. *)
Lemma evaluate_answers_list qs : ∀ answers k correct_count results,
  Forall is_dict (take (length answers) (drop k qs)) ->
  ∃ added,
    evaluate_answers (PList qs) answers (Z.of_nat k) correct_count results =
      Return (correct_count
              + Z.of_nat (length (List.filter answer_matches (zip answers (drop k qs)))),
              results ++ added) ∧
    length added = Nat.min (length answers) (length (drop k qs)).
Proof.
  induction answers as [|a answers IH]; intros k c res Hd.
  - exists []. simpl. split; [|done]. f_equal. f_equal; [lia|by rewrite app_nil_r].
  - simpl. destruct (drop k qs) as [|q rest] eqn:Hk.
    + assert (Hlen : (length qs <= k)%nat).
      { apply (f_equal length) in Hk. rewrite length_drop in Hk. simpl in Hk. lia. }
      replace (Z.of_nat k <? Z.of_nat (length qs)) with false
        by (symmetry; apply Z.ltb_ge; lia).
      replace (Z.of_nat k + 1) with (Z.of_nat (S k)) by lia.
      destruct (IH (S k) c res) as (added & Hrun & Hadd).
      { rewrite drop_ge by lia. by rewrite take_nil. }
      rewrite drop_ge in Hrun, Hadd by lia.
      exists added. split; [|by destruct answers].
      rewrite Hrun. by destruct answers.
    + assert (Hq : qs !! k = Some q).
      { rewrite <- (Nat.add_0_r k), <- lookup_drop, Hk. done. }
      assert (Hrest : drop (S k) qs = rest).
      { replace (S k) with (k + 1)%nat by lia. by rewrite <- drop_drop, Hk. }
      pose proof (lookup_lt_Some _ _ _ Hq) as Hlt.
      replace (Z.of_nat k <? Z.of_nat (length qs)) with true
        by (symmetry; apply Z.ltb_lt; lia).
      simpl in Hd. apply Forall_cons in Hd as [Hdict Hd].
      destruct q as [| | | | | |items]; try done.
      rewrite (seq_index_lookup _ _ _ Hq). simpl.
      replace (Z.of_nat k + 1) with (Z.of_nat (S k)) by lia.
      destruct (IH (S k)
                  (if int_eq a (default (PInt 0) (dict_lookup items (py "correct_answer")))
                   then c + 1 else c)
                  (res ++ [MkResult (Z.of_nat (S k))
                             (default (PStr []) (dict_lookup items (py "question")))
                             a
                             (default (PInt 0) (dict_lookup items (py "correct_answer")))
                             (int_eq a (default (PInt 0)
                                          (dict_lookup items (py "correct_answer"))))
                             (default (PStr (py "لا يوجد شرح متاح"))
                                      (dict_lookup items (py "explanation")))]))
        as (added & Hrun & Hadd).
      { by rewrite Hrest. }
      rewrite Hrest in Hrun, Hadd. rewrite Hrun.
      eexists (_ :: added). split.
      * f_equal. f_equal; [|by rewrite <- app_assoc].
        unfold answer_matches at 2. simpl.
        destruct (int_eq a _); simpl; lia.
      * simpl. by rewrite Hadd.
Qed.


(** Up to 100 questions the float comparison [score >= 70] is the exact
    comparison [correct / total >= 7 / 10]. *)
Lemma pass_threshold_exact (total correct : nat) :
  (1 <= total <= 100)%nat -> (correct <= total)%nat ->
  (70 <=? int_true_div (Z.of_nat correct) (Z.of_nat total) * 100)%float
  = (7 * Z.of_nat total <=? 10 * Z.of_nat correct).
Proof.
  intros Ht Hc.
  assert (Hall : forallb (fun t => forallb (threshold_agrees t) (seq 0 (S t))) (seq 1 100)
                 = true) by (vm_compute; reflexivity).
  rewrite forallb_forall in Hall.
  assert (Hin : In total (seq 1 100)) by (apply in_seq; lia).
  specialize (Hall _ Hin). rewrite forallb_forall in Hall.
  assert (Hin' : In correct (seq 0 (S total))) by (apply in_seq; lia).
  specialize (Hall _ Hin'). by apply eqb_prop.
Qed.

(** *** The quiz cache *)

Lemma finish_quiz_cache s n answers qd w :
  quiz_cache (storage (finish_quiz s n answers qd w).2) = quiz_cache (storage w) ∧
  calls (finish_quiz s n answers qd w).2 = calls w.
Proof. unfold finish_quiz. by destruct (grade qd answers). Qed.

(** A request never replaces or removes a cached quiz. *)
Lemma serve_cache_mono rq now r w k q :
  quiz_cache (storage w) !! k = Some q ->
  quiz_cache (storage (serve rq now r w)) !! k = Some q.
Proof.
  intros Hk.
  assert (Hins : ∀ s info n,
    quiz_cache (storage w) !! quiz_cache_key (session_id s) n = None ->
    quiz_cache (storage (generate_and_cache_quiz s info n r w).2) !! k = Some q).
  { intros s info n Hnone. rewrite generate_and_cache_quiz_run.
    destruct (title_or_default info n); simpl; [done|].
    rewrite lookup_insert_ne; [done|]. intros <-. congruence. }
  destruct rq as [n|question|n|n answers| |c i]; simpl.
  - rewrite get_lesson_run. run_cases.
  - rewrite ask_tutor_run. run_cases.
  - rewrite generate_quiz_run.
    destruct (current_session (storage w)) as [s|]; [|done].
    destruct (require_lessons (curriculum s)) as [e|[]]; [done|].
    destruct (lookup_lesson (curriculum s) n) as [e|info]; [done|].
    destruct (quiz_cache (storage w) !! quiz_cache_key (session_id s) n) as [q'|] eqn:Hq.
    + by destruct (py_get info (py "title") PNone).
    + specialize (Hins s info n Hq).
      destruct (generate_and_cache_quiz s info n r w) as [[e|q'] w']; [done|].
      by destruct (py_get info (py "title") PNone).
  - rewrite submit_quiz_run.
    destruct (current_session (storage w)) as [s|]; [|done].
    destruct (lookup_lesson (curriculum s) n) as [e|info]; [done|].
    destruct (quiz_cache (storage w) !! quiz_cache_key (session_id s) n) as [q'|] eqn:Hq.
    + by rewrite (proj1 (finish_quiz_cache _ _ _ _ _)).
    + specialize (Hins s info n Hq).
      destruct (generate_and_cache_quiz s info n r w) as [[e|q'] w']; [done|].
      by rewrite (proj1 (finish_quiz_cache _ _ _ _ _)).
  - rewrite generate_coding_challenge_endpoint_run. run_cases.
  - rewrite submit_code_run. run_cases.
Qed.

Lemma quiz_generations_app n l1 l2 :
  quiz_generations n (l1 ++ l2) = (quiz_generations n l1 + quiz_generations n l2)%nat.
Proof. unfold quiz_generations. by rewrite List.filter_app, length_app. Qed.

Lemma one_generation_none w s n r cache : one_generation w s n r (calls w) cache.
Proof. exists []. rewrite app_nil_r. auto. Qed.

Lemma one_generation_other w s n r c cache :
  match c with CallQuizQuestions _ _ _ => False | _ => True end ->
  one_generation w s n r (calls w ++ [c]) cache.
Proof. intros Hc. exists [c]. split; [done|]. left. by destruct c. Qed.

Lemma generate_and_cache_quiz_calls w s n r m info :
  lookup_lesson (curriculum s) m = Return info ->
  quiz_cache (storage w) !! quiz_cache_key (session_id s) m = None ->
  one_generation w s n r (calls (generate_and_cache_quiz s info m r w).2)
    (quiz_cache (storage (generate_and_cache_quiz s info m r w).2)).
Proof.
  intros Hl Hnone. rewrite generate_and_cache_quiz_run.
  destruct (title_or_default info m) as [e|title] eqn:Ht; simpl.
  - apply one_generation_none.
  - eexists. split; [done|]. destruct (decide (m = n)) as [->|Hne].
    + right. exists info, title. by rewrite lookup_insert_eq.
    + left. unfold quiz_generations. simpl. by rewrite bool_decide_false.
Qed.

Lemma serve_quiz_calls rq now r w s n :
  current_session (storage w) = Some s ->
  one_generation w s n r (calls (serve rq now r w))
    (quiz_cache (storage (serve rq now r w))).
Proof.
  intros Hs.
  destruct rq as [m|question|m|m answers| |c i]; simpl in *.
  - rewrite get_lesson_run, Hs.
    run_cases; first [by apply one_generation_none|by apply one_generation_other].
  - rewrite ask_tutor_run, Hs. simpl. by apply one_generation_other.
  - rewrite generate_quiz_run, Hs.
    destruct (require_lessons (curriculum s)) as [e|[]]; [by apply one_generation_none|].
    destruct (lookup_lesson (curriculum s) m) as [e|info] eqn:Hl;
      [by apply one_generation_none|].
    destruct (quiz_cache (storage w) !! quiz_cache_key (session_id s) m) as [q'|] eqn:Hq.
    + destruct (py_get info (py "title") PNone); by apply one_generation_none.
    + pose proof (generate_and_cache_quiz_calls w s n r m info Hl Hq) as Hgen.
      destruct (generate_and_cache_quiz s info m r w) as [[e|q'] w']; [done|].
      by destruct (py_get info (py "title") PNone).
  - rewrite submit_quiz_run, Hs.
    destruct (lookup_lesson (curriculum s) m) as [e|info] eqn:Hl;
      [by apply one_generation_none|].
    destruct (quiz_cache (storage w) !! quiz_cache_key (session_id s) m) as [q'|] eqn:Hq.
    + destruct (finish_quiz_cache s m answers q' w) as [_ ->].
      by apply one_generation_none.
    + pose proof (generate_and_cache_quiz_calls w s n r m info Hl Hq) as Hgen.
      destruct (generate_and_cache_quiz s info m r w) as [[e|q'] w']; [done|].
      destruct (finish_quiz_cache s m answers q' w') as [-> ->]. done.
  - rewrite generate_coding_challenge_endpoint_run, Hs.
    run_cases; first [by apply one_generation_none|by apply one_generation_other].
  - rewrite submit_code_run, Hs.
    run_cases; first [by apply one_generation_none|by apply one_generation_other].
Qed.

(** Once the quiz of lesson [n] is cached for the session, no sequence of
    requests changes it or generates it again. *)
Lemma serve_all_cached rqs : ∀ w s n q,
  current_session (storage w) = Some s ->
  quiz_cache (storage w) !! quiz_cache_key (session_id s) n = Some q ->
  quiz_cache (storage (serve_all rqs w)) !! quiz_cache_key (session_id s) n = Some q ∧
  ∃ new, calls (serve_all rqs w) = calls w ++ new ∧ quiz_generations n new = 0%nat.
Proof.
  induction rqs as [|[[rq now] r] rqs IH]; intros w s n q Hs Hq; simpl.
  - split; [done|]. exists []. by rewrite app_nil_r.
  - destruct (serve_progress rq now r w s Hs) as (s1 & Hs1 & (Hid & _ & _) & _).
    pose proof (serve_cache_mono rq now r w _ _ Hq) as Hq1.
    destruct (serve_quiz_calls rq now r w s n Hs) as (new1 & Hc1 & Hg1).
    destruct Hg1 as [Hg1|(? & ? & _ & _ & _ & Hnone & _)]; [|congruence].
    rewrite <- Hid in Hq1. destruct (IH _ _ _ _ Hs1 Hq1) as (Hq2 & new2 & Hc2 & Hg2).
    rewrite Hid in Hq2. split; [done|].
    exists (new1 ++ new2). rewrite Hc2, Hc1, quiz_generations_app, Hg1, Hg2.
    by rewrite <- app_assoc.
Qed.

(** Within a session the quiz of a lesson is generated at most once. *)
Lemma serve_all_generates_once rqs : ∀ w s n,
  current_session (storage w) = Some s ->
  ∃ new, calls (serve_all rqs w) = calls w ++ new ∧ (quiz_generations n new <= 1)%nat.
Proof.
  induction rqs as [|[[rq now] r] rqs IH]; intros w s n Hs; simpl.
  - exists []. rewrite app_nil_r. split; [done|]. unfold quiz_generations. simpl. lia.
  - destruct (serve_progress rq now r w s Hs) as (s1 & Hs1 & (Hid & _ & _) & _).
    destruct (serve_quiz_calls rq now r w s n Hs) as (new1 & Hc1 & Hg1).
    destruct Hg1 as [Hg1|(info & title & -> & _ & _ & _ & Hq1)].
    + destruct (IH _ _ n Hs1) as (new2 & Hc2 & Hg2).
      exists (new1 ++ new2). rewrite Hc2, Hc1, quiz_generations_app, Hg1.
      by rewrite <- app_assoc.
    + rewrite <- Hid in Hq1.
      destruct (serve_all_cached rqs _ _ _ _ Hs1 Hq1) as (_ & new2 & Hc2 & Hg2).
      exists ([CallQuizQuestions (language s) n title] ++ new2).
      rewrite Hc2, Hc1, quiz_generations_app, Hg2.
      split; [by rewrite <- app_assoc|].
      unfold quiz_generations. simpl. rewrite bool_decide_true by done. simpl. lia.
Qed.

Lemma lookup_lesson_require c n info :
  lookup_lesson c n = Return info -> require_lessons c = Return tt.
Proof.
  unfold lookup_lesson, require_lessons.
  destruct c as [| | | | | |items]; try done. simpl.
  destruct (dict_lookup items (py "lessons")) as [lessons|] eqn:Hl; [|done].
  intros _. by destruct items.
Qed.

Lemma drop_app_length' {A} (l k : list A) : drop (length l) (l ++ k) = k.
Proof. apply drop_app_length. Qed.


(** *** The coding challenge milestone *)


(** *** Fetching a lesson *)

Lemma seq_index_nonneg {A} (l : list A) (i : Z) x :
  0 ≤ i -> l !! Z.to_nat i = Some x -> seq_index l i = Return x.
Proof.
  intros Hi Hx. rewrite <- (Z2Nat.id i) by done. by apply seq_index_lookup.
Qed.

Lemma seq_index_negative {A} (l : list A) (i : Z) x :
  i < 0 -> 0 ≤ i + Z.of_nat (length l) ->
  l !! Z.to_nat (i + Z.of_nat (length l)) = Some x -> seq_index l i = Return x.
Proof.
  intros Hi Hj Hx. pose proof (lookup_lt_Some _ _ _ Hx) as Hlt. unfold seq_index.
  replace (i <? 0) with true by (symmetry; apply Z.ltb_lt; lia).
  replace (i + Z.of_nat (length l) <? 0) with false by (symmetry; apply Z.ltb_ge; lia).
  replace (Z.of_nat (length l) <=? i + Z.of_nat (length l)) with false
    by (symmetry; apply Z.leb_gt; lia).
  simpl. by rewrite Hx.
Qed.

Lemma seq_index_below {A} (l : list A) (i : Z) :
  i + Z.of_nat (length l) < 0 -> seq_index l i = Raise IndexError.
Proof.
  intros Hi. unfold seq_index.
  replace (i <? 0) with true by (symmetry; apply Z.ltb_lt; lia).
  replace (i + Z.of_nat (length l) <? 0) with true by (symmetry; apply Z.ltb_lt; lia).
  done.
Qed.

Lemma lessons_of_require c lessons :
  lessons_of c = Some lessons -> require_lessons c = Return tt.
Proof.
  unfold lessons_of, require_lessons. destruct c as [| | | | | |items]; try done.
  simpl. destruct (dict_lookup items (py "lessons")) as [v|] eqn:Hl; [|done].
  intros _. by destruct items.
Qed.

Lemma lessons_of_lookup c lessons n :
  lessons_of c = Some lessons ->
  lookup_lesson c n =
    if Z.of_nat (length lessons) <? n then Raise (lesson_not_found n)
    else exc (seq_index lessons (n - 1)).
Proof.
  unfold lessons_of, lookup_lesson. destruct c as [| | | | | |items]; try done.
  simpl. destruct (dict_lookup items (py "lessons")) as [[]|]; try done.
  intros [= ->]. simpl. by destruct (_ <? n).
Qed.

(** C9 (amended). [GET /lesson/n] fails with 404 when no session is active.
    With an active session it fails with 403 when [n > current_lesson];
    otherwise it fails with 500 (curriculum not found) when the curriculum
    has no [lessons] entry, and, when the curriculum holds a list of
    lessons, it fails with 404 when [n] exceeds the length of that list, and
    for [1 <= n] within the list whose entry is an object it succeeds,
    returning the info of lesson [n] with content generated for this request
    (nothing is cached: the storage is unchanged and the model is called). *)
Theorem get_lesson_cases n r w :
  (current_session (storage w) = None ->
     get_lesson n r w = (Raise no_session, w)) ∧
  ∀ s, current_session (storage w) = Some s ->
    (n > current_lesson s -> get_lesson n r w = (Raise lesson_locked, w)) ∧
    (∀ d, curriculum s = PDict d -> dict_lookup d (py "lessons") = None ->
       n ≤ current_lesson s ->
       get_lesson n r w =
         (Raise (HTTPException 500 (Detail (py "Curriculum not found"))), w)) ∧
    ∀ lessons, lessons_of (curriculum s) = Some lessons ->
      n ≤ current_lesson s ->
      (Z.of_nat (length lessons) < n ->
         get_lesson n r w = (Raise (lesson_not_found n), w)) ∧
      ∀ items,
        1 ≤ n ->
        lessons !! Z.to_nat (n - 1) = Some (PDict items) ->
        get_lesson n r w = lesson_served s n items r w.
Proof.
  split.
  - intros Hs. by rewrite get_lesson_run, Hs.
  - intros s Hs. split; [|split].
    + intros Hn. rewrite get_lesson_run, Hs.
      by rewrite (proj2 (Z.gtb_gt _ _)) by lia.
    + intros d Hd Hnone Hn. rewrite get_lesson_run, Hs.
      rewrite Z.gtb_ltb, (proj2 (Z.ltb_ge _ _)) by lia.
      rewrite Hd. unfold require_lessons. simpl. rewrite Hnone.
      by destruct d.
    + intros lessons Hl Hn. rewrite get_lesson_run, Hs.
      rewrite Z.gtb_ltb, (proj2 (Z.ltb_ge _ _)) by lia.
      rewrite (lessons_of_require _ _ Hl), (lessons_of_lookup _ _ n Hl).
      split.
      * intros Hlen. apply Z.ltb_lt in Hlen. by rewrite Hlen.
      * intros items H1 Hitem. pose proof (lookup_lt_Some _ _ _ Hitem) as Hlt.
        replace (Z.of_nat (length lessons) <? n) with false
          by (symmetry; apply Z.ltb_ge; lia).
        rewrite (seq_index_nonneg lessons (n - 1) (PDict items)); [done|lia|done].
Qed.

Lemma lookup_lesson_nonpositive c n status d :
  n ≤ 0 -> lookup_lesson c n = Raise (HTTPException status d) -> False.
Proof.
  intros Hn. unfold lookup_lesson.
  destruct (py_getitem_str c (py "lessons")) as [e|lessons]; [done|]. simpl.
  destruct (py_len lessons) as [e|len] eqn:Hlen; [done|]. simpl.
  assert (0 ≤ len) by (destruct lessons; simplify_eq/=; lia).
  replace (len <? n) with false by (symmetry; apply Z.ltb_ge; lia). simpl.
  by destruct (py_getitem_int lessons (n - 1)).
Qed.

(** C10. What [GET /lesson/n] does for [n <= 0], in every session: it fails
    with neither 403 nor 404, because both checks are false, and it indexes
    the lessons at [n - 1] with nothing guarding the index from below. While
    [n - 1] is at least minus the number of lessons, Python's negative
    indexing serves the lesson counted from the end (for [n = 0], the last
    one); below that the index is out of range, the [IndexError] is caught by
    the handler and the request fails with 500: no lesson is returned. *)
Theorem get_lesson_nonpositive w0 lang now0 r0 rqs n r :
  n ≤ 0 ->
  let w := serve_all rqs (select_language lang now0 r0 w0).2 in
  ∃ s,
    current_session (storage w) = Some s ∧
    (∀ e, (get_lesson n r w).1 = Raise e -> ∃ d, e = HTTPException 500 d) ∧
    ∀ lessons, lessons_of (curriculum s) = Some lessons ->
      (∀ items,
         1 - Z.of_nat (length lessons) ≤ n ->
         lessons !! Z.to_nat (Z.of_nat (length lessons) + n - 1) = Some (PDict items) ->
         get_lesson n r w = lesson_served s n items r w) ∧
      (n < 1 - Z.of_nat (length lessons) ->
         get_lesson n r w = (Raise (HTTPException 500 (lesson_failed IndexError)), w)).
Proof.
  intros Hn w.
  destruct (serve_all_progress rqs _ _ (select_language_session lang now0 r0 w0))
    as (s & Hs & _ & Hcur & _).
  fold w in Hs. simpl in Hcur. exists s. split; [done|].
  assert (Hgt : (n >? current_lesson s) = false)
    by (rewrite Z.gtb_ltb; apply Z.ltb_ge; lia).
  split.
  - intros e. rewrite get_lesson_run, Hs, Hgt.
    destruct (require_lessons (curriculum s)) as [e'|[]] eqn:Hreq; simpl.
    + intros [= <-]. unfold require_lessons in Hreq.
      destruct (truthy (curriculum s)); simpl in Hreq; [|simplify_eq; by eexists].
      destruct (py_contains_str (curriculum s) (py "lessons")) as [x|[]];
        simplify_eq/=; by eexists.
    + destruct (lookup_lesson (curriculum s) n) as [e'|info] eqn:Hl; simpl.
      * intros [= <-]. destruct e' as [status d|x]; simpl; [|by eexists].
        by destruct (lookup_lesson_nonpositive _ _ _ _ Hn Hl).
      * destruct info; simpl; intros; simplify_eq; by eexists.
  - intros lessons Hl. rewrite get_lesson_run, Hs, Hgt.
    rewrite (lessons_of_require _ _ Hl), (lessons_of_lookup _ _ n Hl).
    replace (Z.of_nat (length lessons) <? n) with false
      by (symmetry; apply Z.ltb_ge; lia).
    split.
    + intros items Hlow Hitem.
      rewrite (seq_index_negative lessons (n - 1) (PDict items)); [done|lia|lia|].
      by replace (n - 1 + Z.of_nat (length lessons))
        with (Z.of_nat (length lessons) + n - 1) by lia.
    + intros Hlow. by rewrite seq_index_below by lia.
Qed.

(** *** The content generators *)

Lemma clean_json_response_error c e : clean_json_response c = Raise e -> e = ValueError.
Proof. unfold clean_json_response. repeat case_match; congruence. Qed.


End Properties.

(** ** Further properties of the handlers *)

Section Invariants.

Variable json_loads : str -> option pyval.
Variable repr : pyval -> str.

Local Abbreviation clean_json_response := (clean_json_response json_loads).
Local Abbreviation generate_curriculum := (generate_curriculum json_loads).
Local Abbreviation generate_lesson_content := (generate_lesson_content json_loads repr).
Local Abbreviation generate_quiz_questions := (generate_quiz_questions json_loads repr).
Local Abbreviation generate_coding_challenge := (generate_coding_challenge json_loads).
Local Abbreviation evaluate_code := (evaluate_code json_loads).
Local Abbreviation select_language := (select_language json_loads).
Local Abbreviation get_lesson := (get_lesson json_loads repr).
Local Abbreviation generate_and_cache_quiz := (generate_and_cache_quiz json_loads repr).
Local Abbreviation generate_quiz := (generate_quiz json_loads repr).
Local Abbreviation submit_quiz := (submit_quiz json_loads repr).
Local Abbreviation generate_coding_challenge_endpoint :=
  (generate_coding_challenge_endpoint json_loads).
Local Abbreviation submit_code := (submit_code json_loads).
Local Abbreviation serve := (serve json_loads repr).
Local Abbreviation serve_all := (serve_all json_loads repr).
Local Abbreviation handle := (handle json_loads repr).
Local Abbreviation handle_all := (handle_all json_loads repr).

Opaque py pretty.

Ltac run_handler :=
  unfold handler, bind, ret, raise, eval, check, get_storage, put_storage, await,
    require_session in *; simpl in *.

Ltac run_cases :=
  repeat (simpl in *; simplify_eq/=; try case_match); try done.

(** *** What one request does to the session *)

Lemma select_language_world lang now r w :
  (select_language lang now r w).2 =
    MkWorld
      (MkStorage
         (Some (MkSession (py "session_" ++ timestamp_str now) lang
                          (generate_curriculum lang r) 1 [] [] (isoformat now)))
         (quiz_cache (storage w)) (coding_quizzes (storage w)))
      (calls w ++ [CallCurriculum lang]).
Proof. unfold select_language. run_handler. run_cases. Qed.

Lemma serve_no_session rq now r w :
  current_session (storage w) = None -> serve rq now r w = w.
Proof.
  intros Hs. destruct rq; simpl.
  - by rewrite get_lesson_run, Hs.
  - by rewrite ask_tutor_run, Hs.
  - by rewrite generate_quiz_run, Hs.
  - by rewrite submit_quiz_run, Hs.
  - by rewrite generate_coding_challenge_endpoint_run, Hs.
  - by rewrite submit_code_run, Hs.
Qed.

(** The session a request leaves: the one it found, that one with a chat
    entry more, or that one after a passed quiz. *)
Lemma serve_session_step rq now r w s :
  current_session (storage w) = Some s ->
  let w' := serve rq now r w in
  current_session (storage w') = Some s ∨
  (∃ question answer,
     rq = AskTutor question ∧
     current_session (storage w') = Some (with_chat s (MkChat question answer (isoformat now))))
  ∨
  (∃ n answers info qd resp,
     rq = SubmitQuiz n answers ∧
     lookup_lesson (curriculum s) n = Return info ∧
     quiz_cache (storage w') !! quiz_cache_key (session_id s) n = Some qd ∧
     submit_quiz n answers r w = (Return resp, w') ∧
     passed resp = true ∧
     current_session (storage w') = Some (record_pass s n)).
Proof.
  intros Hs. destruct rq as [n|q|n|n answers| |c i]; simpl.
  - left. rewrite get_lesson_run, Hs. run_cases.
  - right. left. rewrite ask_tutor_run, Hs. simpl. by eexists _, _.
  - left. rewrite generate_quiz_run, Hs. run_cases;
      rewrite generate_and_cache_quiz_run in *; run_cases.
  - rewrite submit_quiz_run, Hs.
    destruct (lookup_lesson (curriculum s) n) as [e|info] eqn:Hl; [by left|].
    assert (Hfin : ∀ qd w1,
      current_session (storage w1) = Some s ->
      quiz_cache (storage w1) !! quiz_cache_key (session_id s) n = Some qd ->
      current_session (storage (finish_quiz s n answers qd w1).2) = Some s ∨
      ∃ resp, finish_quiz s n answers qd w1 = (Return resp, (finish_quiz s n answers qd w1).2)
              ∧ quiz_cache (storage (finish_quiz s n answers qd w1).2)
                  !! quiz_cache_key (session_id s) n = Some qd
              ∧ passed resp = true
              ∧ current_session (storage (finish_quiz s n answers qd w1).2)
                = Some (record_pass s n)).
    { intros qd w1 Hs1 Hq1. unfold finish_quiz.
      destruct (grade qd answers) as [e|g]; simpl; [by left|].
      destruct (g_passed g) eqn:Hp; [|by left].
      right. eexists. split; [done|]. done. }
    destruct (quiz_cache (storage w) !! quiz_cache_key (session_id s) n) as [qd|] eqn:Hq.
    + destruct (Hfin qd w Hs Hq) as [?|(resp & Hrun & Hq' & Hp & Hs')]; [by left|].
      right. right. exists n, answers, info, qd, resp. repeat split; try done.
      by rewrite submit_quiz_run, Hs, Hl, Hq.
    + rewrite generate_and_cache_quiz_run.
      destruct (title_or_default info n) as [e|title] eqn:Ht; simpl; [by left|].
      match goal with |- context [finish_quiz s n answers ?qd ?w1] =>
        destruct (Hfin qd w1) as [?|(resp & Hrun & Hq' & Hp & Hs')] end;
        [done|simpl; apply lookup_insert_eq|by left|].
      right. right. eexists n, answers, info, _, resp. repeat split; try done.
      rewrite submit_quiz_run, Hs, Hl, Hq, generate_and_cache_quiz_run, Ht.
      rewrite ?Hs in Hrun |- *. exact Hrun.
  - left. rewrite generate_coding_challenge_endpoint_run, Hs. run_cases.
  - left. rewrite submit_code_run, Hs. run_cases.
Qed.

(** An invariant of the session that every request keeps holds after
    every sequence of requests. *)
Lemma serve_all_invariant (P : world -> session -> Prop) :
  (∀ rq now r w s,
     current_session (storage w) = Some s -> P w s ->
     ∀ s', current_session (storage (serve rq now r w)) = Some s' ->
           P (serve rq now r w) s') ->
  ∀ rqs w s,
    current_session (storage w) = Some s -> P w s ->
    ∃ s', current_session (storage (serve_all rqs w)) = Some s' ∧ P (serve_all rqs w) s'.
Proof.
  intros Hstep. induction rqs as [|[[rq now] r] rqs IH]; intros w s Hs HP; simpl.
  - eauto.
  - destruct (serve_progress json_loads repr rq now r w s Hs) as (s1 & Hs1 & _).
    eapply IH; [exact Hs1|]. eapply Hstep; eauto.
Qed.

(** X1. A request changes [current_lesson] or [completed_lessons]
    only when it is a quiz submission that is answered with [passed = true];
    every other request, and every submission that fails or is refused,
    leaves both as they were. *)
Theorem progress_only_by_passed_quiz rq now r w s :
  current_session (storage w) = Some s ->
  ∃ s',
    current_session (storage (serve rq now r w)) = Some s' ∧
    ((current_lesson s' = current_lesson s ∧ completed_lessons s' = completed_lessons s) ∨
     ∃ n answers resp w',
       rq = SubmitQuiz n answers ∧
       submit_quiz n answers r w = (Return resp, w') ∧
       passed resp = true ∧
       s' = record_pass s n).
Proof.
  intros Hs.
  destruct (serve_session_step rq now r w s Hs)
    as [Hs'|[(q & a & _ & Hs')|(n & answers & info & qd & resp & -> & _ & _ & Hrun & Hp & Hs')]].
  - exists s. split; [done|]. by left.
  - eexists. split; [exact Hs'|]. by left.
  - eexists. split; [exact Hs'|]. right. by eexists n, answers, resp, _.
Qed.

(** *** Invariants of a session *)

Lemma record_pass_unlocked s n :
  (∀ k, 1 ≤ k < current_lesson s -> k ∈ completed_lessons s) ->
  ∀ k, 1 ≤ k < current_lesson (record_pass s n) -> k ∈ completed_lessons (record_pass s n).
Proof.
  intros Hinv k Hk. simpl in *.
  assert (Hmono : ∀ x, x ∈ completed_lessons s ->
    x ∈ (if bool_decide (n ∈ completed_lessons s) then completed_lessons s
         else completed_lessons s ++ [n])).
  { intros x Hx. case_bool_decide; [done|]. apply elem_of_app. by left. }
  destruct ((n =? current_lesson s) && (n <? 14)) eqn:E.
  - apply andb_true_iff in E as [E1 E2]. apply Z.eqb_eq in E1.
    destruct (decide (k = n)) as [->|Hne].
    + case_bool_decide; [done|]. apply elem_of_app. right. by apply list_elem_of_singleton.
    + apply Hmono, Hinv. lia.
  - by apply Hmono, Hinv.
Qed.

(** X2. In a session, after any sequence of requests, every lesson
    before [current_lesson] is among the completed ones: a lesson is
    unlocked only by passing the quiz of each lesson before it. *)
Theorem unlocked_lessons_completed w lang now r rqs :
  ∃ s,
    current_session (storage (serve_all rqs (select_language lang now r w).2)) = Some s ∧
    1 ≤ current_lesson s ∧
    ∀ k, 1 ≤ k < current_lesson s -> k ∈ completed_lessons s.
Proof.
  pose proof (select_language_session json_loads lang now r w) as Hs0.
  destruct (serve_all_invariant
              (fun _ s => 1 ≤ current_lesson s ∧
                          ∀ k, 1 ≤ k < current_lesson s -> k ∈ completed_lessons s))
    with (rqs := rqs) (w := (select_language lang now r w).2) (s := MkSession (py "session_" ++ timestamp_str now) lang
                    (generate_curriculum lang r) 1 [] [] (isoformat now))
    as (s & Hs & Hinv); [|exact Hs0| |by exists s].
  - clear. intros rq now r w s Hs [Hone Hinv] s' Hs'.
    destruct (serve_session_step rq now r w s Hs)
      as [Hs1|[(q & a & _ & Hs1)|(n & answers & info & qd & resp & _ & _ & _ & _ & _ & Hs1)]];
      rewrite Hs1 in Hs'; simplify_eq; [done|done|].
    split; [|by apply record_pass_unlocked].
    simpl. destruct ((n =? current_lesson s) && (n <? 14)); lia.
  - simpl. split; [done|]. intros k Hk. lia.
Qed.

Lemma record_pass_completed s n x :
  x ∈ completed_lessons (record_pass s n) -> x ∈ completed_lessons s ∨ x = n.
Proof.
  simpl. case_bool_decide; [by left|].
  intros [?|Hx%list_elem_of_singleton]%elem_of_app; auto.
Qed.

Lemma record_pass_NoDup s n :
  NoDup (completed_lessons s) -> NoDup (completed_lessons (record_pass s n)).
Proof.
  simpl. intros Hnd. case_bool_decide; [done|].
  apply NoDup_app. split; [done|]. split; [|apply NoDup_singleton].
  intros x Hx Hx'. apply list_elem_of_singleton in Hx'. by subst.
Qed.

(** The completed lessons of a session: distinct, found by the lookup, and
    with their quiz in the cache. *)
Lemma serve_all_completed w lang now r rqs :
  let w' := serve_all rqs (select_language lang now r w).2 in
  ∃ s,
    current_session (storage w') = Some s ∧
    NoDup (completed_lessons s) ∧
    ∀ n, n ∈ completed_lessons s ->
      (∃ info, lookup_lesson (curriculum s) n = Return info) ∧
      is_Some (quiz_cache (storage w') !! quiz_cache_key (session_id s) n).
Proof.
  intros w'. unfold w'.
  pose proof (select_language_session json_loads lang now r w) as Hs0.
  eapply (serve_all_invariant
              (fun w s => NoDup (completed_lessons s) ∧
                 ∀ n, n ∈ completed_lessons s ->
                   (∃ info, lookup_lesson (curriculum s) n = Return info) ∧
                   is_Some (quiz_cache (storage w) !! quiz_cache_key (session_id s) n)));
    [|exact Hs0|].
  - clear. intros rq now r w s Hs [Hnd Hinv] s' Hs'.
    assert (Hkeep : ∀ n, n ∈ completed_lessons s ->
      (∃ info, lookup_lesson (curriculum s) n = Return info) ∧
      is_Some (quiz_cache (storage (serve rq now r w)) !! quiz_cache_key (session_id s) n)).
    { intros n Hn. destruct (Hinv n Hn) as [Hl [q Hq]]. split; [done|].
      exists q. by apply serve_cache_mono. }
    destruct (serve_session_step rq now r w s Hs)
      as [Hs1|[(q & a & _ & Hs1)|(n & answers & info & qd & resp & _ & Hl & Hq & _ & _ & Hs1)]];
      rewrite Hs1 in Hs'; simplify_eq; [done|done|].
    split; [by apply record_pass_NoDup|].
    intros x [Hx| ->]%record_pass_completed; [by apply Hkeep|].
    split; [by exists info|by exists qd].
  - simpl. split; [apply NoDup_nil_2|]. intros n Hn. by apply elem_of_nil in Hn.
Qed.

(** X3. In a session, after any sequence of requests, the
    completed lessons are pairwise distinct, and each of them is a lesson
    number the handler's lookup finds in the curriculum and has its quiz in
    the cache: a lesson is completed only through a quiz that was cached. *)
Theorem completed_lessons_cached w lang now r rqs :
  let w' := serve_all rqs (select_language lang now r w).2 in
  ∃ s,
    current_session (storage w') = Some s ∧
    NoDup (completed_lessons s) ∧
    ∀ n, n ∈ completed_lessons s ->
      (∃ info, lookup_lesson (curriculum s) n = Return info) ∧
      is_Some (quiz_cache (storage w') !! quiz_cache_key (session_id s) n).
Proof. apply serve_all_completed. Qed.

Lemma seq_index_range {A} (l : list A) (i : Z) x :
  seq_index l i = Return x -> - Z.of_nat (length l) ≤ i < Z.of_nat (length l).
Proof.
  unfold seq_index. destruct (i <? 0) eqn:Hi.
  - apply Z.ltb_lt in Hi.
    destruct ((i + Z.of_nat (length l) <? 0) || (Z.of_nat (length l) <=? i + Z.of_nat (length l)))
      eqn:Hj; [done|].
    apply orb_false_iff in Hj as [Hj _]. apply Z.ltb_ge in Hj. lia.
  - apply Z.ltb_ge in Hi.
    destruct ((i <? 0) || (Z.of_nat (length l) <=? i)) eqn:Hj; [done|].
    apply orb_false_iff in Hj as [_ Hj]. apply Z.leb_gt in Hj. lia.
Qed.

(** X4. In a session whose curriculum holds a list of [L] lessons,
    after any sequence of requests every completed lesson number lies
    between [1 - L] and [L]: the numbers from [1 - L] to [0] count, since the
    handlers index the lessons at [n - 1] and a negative index counts from
    the end. So at most [2 * L] lessons are ever completed. *)
Theorem completed_lessons_range w lang now r rqs :
  let w' := serve_all rqs (select_language lang now r w).2 in
  ∃ s,
    current_session (storage w') = Some s ∧
    ∀ lessons, lessons_of (curriculum s) = Some lessons ->
      (∀ n, n ∈ completed_lessons s ->
            1 - Z.of_nat (length lessons) ≤ n ≤ Z.of_nat (length lessons)) ∧
      (length (completed_lessons s) <= 2 * length lessons)%nat.
Proof.
  intros w'. destruct (serve_all_completed w lang now r rqs) as (s & Hs & Hnd & Hall).
  exists s. split; [exact Hs|]. intros lessons Hl.
  assert (Hrange : ∀ n, n ∈ completed_lessons s ->
    1 - Z.of_nat (length lessons) ≤ n ≤ Z.of_nat (length lessons)).
  { intros n Hn. destruct (Hall n Hn) as [[info Hinfo] _].
    rewrite (lessons_of_lookup _ _ n Hl) in Hinfo.
    destruct (Z.of_nat (length lessons) <? n) eqn:Hlen; [done|].
    apply Z.ltb_ge in Hlen.
    destruct (seq_index lessons (n - 1)) as [e|x] eqn:Hidx; [done|].
    apply seq_index_range in Hidx. lia. }
  split; [exact Hrange|].
  assert (Hsub : completed_lessons s ⊆+
                 seqZ (1 - Z.of_nat (length lessons)) (2 * Z.of_nat (length lessons))).
  { apply NoDup_submseteq; [done|]. intros n Hn. apply elem_of_seqZ.
    specialize (Hrange n Hn). lia. }
  apply submseteq_length in Hsub. rewrite length_seqZ in Hsub. lia.
Qed.


(** *** What the generators guarantee about their result *)

Lemma dict_lookup_set d k v : dict_lookup (dict_set d k v) k = Some v.
Proof.
  induction d as [|[k' v'] d IH]; simpl.
  - by rewrite decide_True.
  - destruct (decide (k' = k)) as [->|Hne]; simpl.
    + by rewrite decide_True.
    + by rewrite decide_False.
Qed.

Lemma dict_lookup_set_ne d k v k' :
  k' ≠ k -> dict_lookup (dict_set d k v) k' = dict_lookup d k'.
Proof.
  intros Hne. induction d as [|[k0 v0] d IH]; simpl.
  - by rewrite decide_False.
  - destruct (decide (k0 = k)) as [->|Hne0]; simpl.
    + by rewrite !decide_False.
    + destruct (decide (k0 = k')); [done|]. exact IH.
Qed.

Lemma generate_curriculum_dict lang r :
  ∃ d len,
    generate_curriculum lang r = PDict d ∧
    py_len (default (PList []) (dict_lookup d (py "lessons"))) = Return len ∧ 0 ≤ len.
Proof.
  unfold generate_curriculum, try_except, loads.
  assert (Hfb : ∃ d len,
    fallback_curriculum lang = PDict d ∧
    py_len (default (PList []) (dict_lookup d (py "lessons"))) = Return len ∧ 0 ≤ len).
  { eexists _, 14. split; [reflexivity|]. split; [vm_compute; reflexivity|lia]. }
  destruct r as [c|]; simpl; [|exact Hfb].
  destruct (clean_json_response c) as [e|text]; simpl; [exact Hfb|].
  destruct (json_loads text) as [[| | | | | |d]|]; simpl; try exact Hfb.
  destruct (py_len (default (PList []) (dict_lookup d (py "lessons")))) as [e|len] eqn:Hlen;
    simpl; [exact Hfb|].
  exists d, len. split; [done|]. split; [done|].
  clear -Hlen. destruct (default (PList []) (dict_lookup d (py "lessons")));
    simpl in Hlen; try discriminate; injection Hlen as <-; lia.
Qed.

Lemma generate_coding_challenge_dict lang n now r :
  ∃ d id,
    generate_coding_challenge lang n now r = PDict d ∧
    dict_lookup d (py "challenge_id") = Some id ∧
    ∀ c text d0,
      r = Content c -> clean_json_response c = Return text ->
      json_loads text = Some (PDict d0) ->
      id = default (PStr (default_challenge_id n (timestamp_int now)))
                   (dict_lookup d0 (py "challenge_id")) ∧
      ∀ k, k ≠ py "challenge_id" -> dict_lookup d k = dict_lookup d0 k.
Proof.
  unfold generate_coding_challenge, try_except, loads.
  assert (Hfb :
    (∀ c text d0, r = Content c -> clean_json_response c = Return text ->
                  json_loads text = Some (PDict d0) -> False) ->
    ∃ d id,
      fallback_challenge n (timestamp_int now) = PDict d ∧
      dict_lookup d (py "challenge_id") = Some id ∧
      ∀ c text d0,
        r = Content c -> clean_json_response c = Return text ->
        json_loads text = Some (PDict d0) ->
        id = default (PStr (default_challenge_id n (timestamp_int now)))
                     (dict_lookup d0 (py "challenge_id")) ∧
        ∀ k, k ≠ py "challenge_id" -> dict_lookup d k = dict_lookup d0 k).
  { intros Hno. eexists _, _. split; [done|]. split; [simpl; by rewrite decide_True|].
    intros c text d0 H1 H2 H3. destruct (Hno c text d0 H1 H2 H3). }
  destruct r as [c|]; simpl; [|apply Hfb; by intros].
  destruct (clean_json_response c) as [e|text] eqn:Hc; simpl.
  { apply Hfb. intros c' text' d0 [= <-] Ht. congruence. }
  destruct (json_loads text) as [[| | | | | |d]|] eqn:Hv; simpl;
    try (apply Hfb; intros c' text' d0 [= <-] Ht; congruence).
  eexists _, _. split; [done|]. split; [apply dict_lookup_set|].
  intros c' text' d0 [= <-] Ht Hd.
  assert (text' = text) as -> by congruence.
  assert (d0 = d) as -> by congruence.
  split; [done|]. intros k Hk. by apply dict_lookup_set_ne.
Qed.

Lemma generate_lesson_content_dict lang n title r :
  ∃ d, generate_lesson_content lang n title r = PDict d.
Proof.
  unfold generate_lesson_content, try_except, loads.
  destruct r as [c|]; simpl; [|by eexists].
  destruct (clean_json_response c) as [e|text]; simpl; [by eexists|].
  destruct (json_loads text) as [[| | | | | |d]|]; simpl; by eexists.
Qed.

(** X5. Whatever the model replies, [generate_curriculum] returns an
    object whose [lessons] (an empty list when it has none) has a length,
    [generate_lesson_content] returns an object, and
    [generate_coding_challenge] returns an object that holds a
    [challenge_id]: the one of the reply when it has one, and
    [challenge_<lessons>_<timestamp>] otherwise. *)
Theorem generated_documents_shape lang n title now r :
  (∃ d len,
     generate_curriculum lang r = PDict d ∧
     py_len (default (PList []) (dict_lookup d (py "lessons"))) = Return len ∧ 0 ≤ len) ∧
  (∃ d, generate_lesson_content lang n title r = PDict d) ∧
  (∃ d id,
     generate_coding_challenge lang n now r = PDict d ∧
     dict_lookup d (py "challenge_id") = Some id ∧
     ∀ c text d0,
       r = Content c -> clean_json_response c = Return text ->
       json_loads text = Some (PDict d0) ->
       id = default (PStr (default_challenge_id n (timestamp_int now)))
                    (dict_lookup d0 (py "challenge_id")) ∧
       ∀ k, k ≠ py "challenge_id" -> dict_lookup d k = dict_lookup d0 k).
Proof.
  split; [apply generate_curriculum_dict|].
  split; [apply generate_lesson_content_dict|apply generate_coding_challenge_dict].
Qed.


(** *** The server from its start *)

Lemma handle_all_invariant (Q : world -> Prop) :
  (∀ a now r w, Q w -> Q (handle a now r w)) ->
  ∀ rqs w, Q w -> Q (handle_all rqs w).
Proof.
  intros Hstep. induction rqs as [|[[a now] r] rqs IH]; intros w HQ; simpl; [done|].
  apply IH, Hstep, HQ.
Qed.

(** The curriculum of the session always came out of [generate_curriculum],
    and its lesson counter is within 1 and 14. *)
Lemma handle_all_session rqs :
  ∀ s, current_session (storage (handle_all rqs initial_world)) = Some s ->
    1 ≤ current_lesson s ≤ 14 ∧
    ∃ d len,
      curriculum s = PDict d ∧
      py_len (default (PList []) (dict_lookup d (py "lessons"))) = Return len ∧ 0 ≤ len.
Proof.
  apply (handle_all_invariant
    (fun w => ∀ s, current_session (storage w) = Some s ->
       1 ≤ current_lesson s ≤ 14 ∧
       ∃ d len,
         curriculum s = PDict d ∧
         py_len (default (PList []) (dict_lookup d (py "lessons"))) = Return len ∧ 0 ≤ len));
    [|done].
  intros [lang|rq] now r w HQ s'; simpl.
  - rewrite select_language_session. intros [= <-]. simpl. split; [lia|].
    apply generate_curriculum_dict.
  - destruct (current_session (storage w)) as [s|] eqn:Hs.
    + destruct (serve_progress json_loads repr rq now r w s Hs)
        as (s1 & Hs1 & (_ & _ & Hc) & Hle & Hmax).
      rewrite Hs1. intros [= <-]. destruct (HQ s eq_refl) as [Hcur Hshape].
      rewrite Hc. split; [lia|done].
    + rewrite serve_no_session by done. by rewrite Hs.
Qed.

(** X6. At any time after the server started, [GET /session-status]
    succeeds and changes nothing: without a session it reports that there
    is none (it does not answer 404 as the other endpoints do); with one it
    reports the session's progress, with [total_lessons] the length of the
    curriculum's lessons and [progress_percentage] the completed count
    times 100 over 14. Its 500 branch is never taken. *)
Theorem session_status_succeeds rqs :
  let w := handle_all rqs initial_world in
  match current_session (storage w) with
  | None => get_session_status w = (Return (NoActiveSession (py "No active session")), w)
  | Some s =>
    ∃ total,
      get_session_status w =
        (Return (ActiveSession
                   (MkStatus (session_id s) (language s) (current_lesson s)
                      (completed_lessons s) total
                      (int_true_div (Z.of_nat (length (completed_lessons s)) * 100) 14)
                      (Z.of_nat (length (chat_history s))) (created_at s))),
         w) ∧
      0 ≤ total ∧
      1 ≤ current_lesson s ≤ 14 ∧
      ∀ lessons, lessons_of (curriculum s) = Some lessons ->
                 total = Z.of_nat (length lessons)
  end.
Proof.
  intros w. pose proof (handle_all_session rqs) as Hinv. fold w in Hinv.
  unfold get_session_status, handler_any, bind, ret, eval, check, get_storage.
  destruct (current_session (storage w)) as [s|] eqn:Hs; simpl; [|done].
  destruct (Hinv s eq_refl) as (Hcur & d & len & Hd & Hlen & Hpos).
  rewrite Hd. simpl. rewrite Hlen. simpl.
  exists len. repeat split; try done; try lia.
  intros lessons. unfold lessons_of.
  destruct (dict_lookup d (py "lessons")) as [[]|]; try done.
  intros [= <-]. simpl in Hlen. congruence.
Qed.

(** The challenge store: a request leaves it as it is, or adds to it a
    challenge that [generate_coding_challenge] returned. *)
Lemma serve_challenge_store rq now r w :
  coding_quizzes (storage (serve rq now r w)) = coding_quizzes (storage w) ∨
  ∃ s,
    rq = GenerateCodingChallenge ∧
    current_session (storage w) = Some s ∧
    coding_quizzes (storage w) !! challenge_key (session_id s) (milestone_of s) = None ∧
    coding_quizzes (storage (serve rq now r w)) =
      <[challenge_key (session_id s) (milestone_of s) :=
          MkCodingQuiz (generate_coding_challenge (language s) (milestone_of s) now r)
                       (session_id s) (isoformat now)]>
        (coding_quizzes (storage w)).
Proof.
  destruct rq as [n|question|n|n answers| |c i]; simpl.
  - left. rewrite get_lesson_run. run_cases.
  - left. rewrite ask_tutor_run. run_cases.
  - left. rewrite generate_quiz_run. run_cases;
      rewrite generate_and_cache_quiz_run in *; run_cases.
  - left. rewrite submit_quiz_run.
    destruct (current_session (storage w)) as [s|]; [|done].
    destruct (lookup_lesson (curriculum s) n) as [e|info]; [done|].
    destruct (quiz_cache (storage w) !! quiz_cache_key (session_id s) n) as [qd|].
    + unfold finish_quiz. by destruct (grade qd answers).
    + rewrite generate_and_cache_quiz_run.
      destruct (title_or_default info n); simpl; [done|].
      unfold finish_quiz. by destruct (grade _ answers).
  - rewrite generate_coding_challenge_endpoint_run.
    destruct (current_session (storage w)) as [s|] eqn:Hs; [|by left].
    cbv zeta. fold (milestone_of s).
    destruct (Z.of_nat (length (completed_lessons s)) <? 4); [by left|].
    destruct (coding_quizzes (storage w) !! challenge_key (session_id s) (milestone_of s))
      eqn:Hk; [by left|].
    right. by exists s.
  - left. rewrite submit_code_run. run_cases.
Qed.

Lemma serve_challenge_mono rq now r w k e :
  coding_quizzes (storage w) !! k = Some e ->
  coding_quizzes (storage (serve rq now r w)) !! k = Some e.
Proof.
  intros Hk. destruct (serve_challenge_store rq now r w) as [->|(s & _ & _ & Hnone & ->)];
    [done|].
  rewrite lookup_insert_ne; [done|]. intros <-. congruence.
Qed.

Lemma serve_all_challenge_mono rqs : ∀ w k e,
  coding_quizzes (storage w) !! k = Some e ->
  coding_quizzes (storage (serve_all rqs w)) !! k = Some e.
Proof.
  induction rqs as [|[[rq now] r] rqs IH]; intros w k e Hk; simpl; [done|].
  by apply IH, serve_challenge_mono.
Qed.

Lemma handle_all_challenges rqs :
  ∀ k e, coding_quizzes (storage (handle_all rqs initial_world)) !! k = Some e ->
         is_dict (challenge_data e).
Proof.
  apply (handle_all_invariant
    (fun w => ∀ k e, coding_quizzes (storage w) !! k = Some e -> is_dict (challenge_data e)));
    [|done].
  intros [lang|rq] now r w HQ k e; simpl.
  - rewrite select_language_world. apply HQ.
  - destruct (serve_challenge_store rq now r w) as [->|(s & _ & _ & _ & ->)]; [apply HQ|].
    destruct (decide (k = challenge_key (session_id s) (milestone_of s))) as [->|Hne].
    + rewrite lookup_insert_eq. intros [= <-]. simpl.
      by destruct (generate_coding_challenge_dict (language s) (milestone_of s) now r)
        as (d & _ & -> & _).
    + rewrite lookup_insert_ne by done. apply HQ.
Qed.

(** X7. At any time after the server started, [POST
    /submit-code] changes nothing in the storage and never answers 500: it
    answers 404 without a session, 404 when the store has no entry under the
    submitted [challenge_id], and otherwise returns an evaluation together
    with that id and the title of the stored challenge; the evaluation is
    the fallback one when the model call raises. *)
Theorem submit_code_outcomes rqs code challenge_id r :
  let w := handle_all rqs initial_world in
  storage (submit_code code challenge_id r w).2 = storage w ∧
  match (submit_code code challenge_id r w).1 with
  | Raise e =>
    (e = no_session ∧ current_session (storage w) = None) ∨
    (e = challenge_not_found ∧ coding_quizzes (storage w) !! challenge_id = None)
  | Return resp =>
    ∃ entry d,
      coding_quizzes (storage w) !! challenge_id = Some entry ∧
      challenge_data entry = PDict d ∧
      cd_challenge_id resp = challenge_id ∧
      cd_challenge_title resp = default (PStr []) (dict_lookup d (py "title")) ∧
      (r = Fails -> cd_evaluation resp = fallback_evaluation)
  end.
Proof.
  intros w. pose proof (handle_all_challenges rqs) as Hinv. fold w in Hinv.
  rewrite submit_code_run.
  destruct (current_session (storage w)) as [s|]; [|split; [done|by left]].
  destruct (coding_quizzes (storage w) !! challenge_id) as [entry|] eqn:Hk;
    [|split; [done|by right]].
  specialize (Hinv _ _ Hk).
  destruct (challenge_data entry) as [| | | | | |d] eqn:Hd; try done.
  unfold evaluate_code. simpl. split; [done|].
  exists entry, d. repeat split; try done. by intros ->.
Qed.

(** X8. Once the challenge endpoint has answered for a
    session with at least 4 completed lessons, the store holds a challenge
    under the key of that milestone; no later request changes or removes
    it, and as long as the session's milestone stays the same the endpoint
    returns that same challenge with [is_cached = true], without calling the
    model and without changing anything. *)
Theorem challenge_generated_once w s now r rqs :
  current_session (storage w) = Some s ->
  4 ≤ Z.of_nat (length (completed_lessons s)) ->
  let key := challenge_key (session_id s) (milestone_of s) in
  let w1 := (generate_coding_challenge_endpoint now r w).2 in
  let w2 := serve_all rqs w1 in
  ∃ entry text is_cached,
    (generate_coding_challenge_endpoint now r w).1 =
      Return (MkChallenge (challenge_data entry) text is_cached) ∧
    coding_quizzes (storage w1) !! key = Some entry ∧
    coding_quizzes (storage w2) !! key = Some entry ∧
    ∀ s2 now' r',
      current_session (storage w2) = Some s2 ->
      milestone_of s2 = milestone_of s ->
      ∃ text',
        generate_coding_challenge_endpoint now' r' w2 =
          (Return (MkChallenge (challenge_data entry) text' true), w2).
Proof.
  intros Hs H4 key w1 w2.
  assert (Hfirst : ∃ entry text is_cached,
    (generate_coding_challenge_endpoint now r w).1 =
      Return (MkChallenge (challenge_data entry) text is_cached) ∧
    coding_quizzes (storage w1) !! key = Some entry ∧
    current_session (storage w1) = Some s).
  { unfold w1. rewrite generate_coding_challenge_endpoint_run, Hs. cbv zeta.
    fold (milestone_of s). fold key.
    replace (Z.of_nat (length (completed_lessons s)) <? 4) with false
      by (symmetry; apply Z.ltb_ge; lia).
    destruct (coding_quizzes (storage w) !! key) as [existing|] eqn:Hk; simpl.
    - by eexists existing, _, _.
    - eexists (MkCodingQuiz _ _ _), _, _. split; [done|]. split; [|done].
      apply lookup_insert_eq. }
  destruct Hfirst as (entry & text & is_cached & Hresp & Hk1 & Hs1).
  exists entry, text, is_cached. split; [done|]. split; [done|].
  pose proof (serve_all_challenge_mono rqs w1 _ _ Hk1) as Hk2. fold w2 in Hk2.
  split; [done|].
  intros s2 now' r' Hs2 Hm.
  destruct (serve_all_progress json_loads repr rqs w1 s Hs1) as (s2' & Hs2' & (Hid & _) & _).
  fold w2 in Hs2'. assert (s2' = s2) as -> by congruence.
  rewrite generate_coding_challenge_endpoint_run, Hs2. cbv zeta.
  fold (milestone_of s2). rewrite Hm, Hid. fold key. rewrite Hk2.
  assert (4 ≤ milestone_of s).
  { unfold milestone_of. pose proof (Z.div_le_mono 4 _ 4 eq_refl H4) as Hd.
    rewrite Z.div_same in Hd by done. lia. }
  assert (Hge : 4 ≤ Z.of_nat (length (completed_lessons s2))).
  { unfold milestone_of in *.
    pose proof (Z.mul_div_le (Z.of_nat (length (completed_lessons s2))) 4 eq_refl). lia. }
  replace (Z.of_nat (length (completed_lessons s2)) <? 4) with false
    by (symmetry; apply Z.ltb_ge; lia).
  by eexists.
Qed.

(** *** The chat with the tutor *)

Lemma serve_chat_history rq now r w s :
  current_session (storage w) = Some s ->
  ∃ s', current_session (storage (serve rq now r w)) = Some s' ∧
        chat_history s' = chat_history s ++ chat_log [(rq, now, r)].
Proof.
  intros Hs. destruct rq as [n|q|n|n answers| |c i]; simpl.
  - exists s. rewrite app_nil_r. split; [|done]. rewrite get_lesson_run, Hs. run_cases.
  - rewrite ask_tutor_run, Hs. simpl. eexists. split; [done|]. simpl.
    by destruct r.
  - exists s. rewrite app_nil_r. split; [|done].
    rewrite generate_quiz_run, Hs. run_cases;
      rewrite generate_and_cache_quiz_run in *; run_cases.
  - destruct (serve_session_step (SubmitQuiz n answers) now r w s Hs)
      as [Hs'|[(? & ? & ? & _)|(? & ? & ? & ? & ? & _ & _ & _ & _ & _ & Hs')]];
      [|done|]; eexists; (split; [exact Hs'|]); simpl; by rewrite app_nil_r.
  - exists s. rewrite app_nil_r. split; [|done].
    rewrite generate_coding_challenge_endpoint_run, Hs. run_cases.
  - exists s. rewrite app_nil_r. split; [|done]. rewrite submit_code_run, Hs. run_cases.
Qed.

(** X9. With an active session [POST /ask-tutor] always succeeds,
    whatever the model does, and it is the only request that touches the
    chat history: after any sequence of requests the history is the one
    before, followed by one entry per question asked, in order, each with
    the question, the clock reading of its request and the model's reply,
    or the apology text when the model call raised. *)
Theorem chat_history_is_log w s rqs :
  current_session (storage w) = Some s ->
  (∀ question now r, ∃ w',
     ask_tutor question now r w
       = (Return (MkTutor (tutor_answer r) (session_id s)), w')) ∧
  ∃ s',
    current_session (storage (serve_all rqs w)) = Some s' ∧
    chat_history s' = chat_history s ++ chat_log rqs.
Proof.
  intros Hs. split.
  - intros question now r. rewrite ask_tutor_run, Hs. simpl. eexists. by destruct r.
  - revert w s Hs. induction rqs as [|[[rq now] r] rqs IH]; intros w s Hs.
    + exists s. by rewrite app_nil_r.
    + destruct (serve_chat_history rq now r w s Hs) as (s1 & Hs1 & Hc1).
      destruct (IH _ _ Hs1) as (s2 & Hs2 & Hc2).
      exists s2. split; [exact Hs2|]. rewrite Hc2, Hc1.
      rewrite <- app_assoc. f_equal. unfold chat_log. simpl. by rewrite app_nil_r.
Qed.

(** *** Grading a submission *)

(** The loop, on any value that has a length: the results it appends are
    numbered from [i + 1] on, echo the answers in order, and the count
    grows by the number of results flagged correct. *)
Lemma evaluate_answers_results questions n : ∀ answers i c res c' res',
  py_len questions = Return n ->
  evaluate_answers questions answers i c res = Return (c', res') ->
  ∃ added,
    res' = res ++ added ∧
    c' = c + Z.of_nat (length (List.filter is_correct added)) ∧
    Z.of_nat (length added) ≤ Z.max 0 (n - i) ∧
    map question_number added = seqZ (i + 1) (Z.of_nat (length added)) ∧
    map user_answer added = take (length added) answers.
Proof.
  intros answers. induction answers as [|a answers IH]; intros i c res c' res' Hn Hrun.
  - simpl in Hrun. simplify_eq. exists []. rewrite app_nil_r. simpl.
    repeat split; try done; lia.
  - simpl in Hrun. rewrite Hn in Hrun. simpl in Hrun.
    destruct (i <? n) eqn:Hi.
    + apply Z.ltb_lt in Hi.
      destruct (py_getitem_int questions i) as [e|question]; [done|]. simpl in Hrun.
      destruct (py_get question (py "correct_answer") (PInt 0)) as [e|correct]; [done|].
      simpl in Hrun.
      destruct (py_get question (py "question") (PStr [])) as [e|text]; [done|].
      simpl in Hrun.
      destruct (py_get question (py "explanation") (PStr (py "لا يوجد شرح متاح")))
        as [e|why]; [done|].
      simpl in Hrun.
      destruct (IH _ _ _ _ _ Hn Hrun) as (added & -> & -> & Hlen & Hnum & Hans).
      eexists (_ :: added). split; [by rewrite <- app_assoc|].
      split; [|split; [|split]].
      * simpl. destruct (int_eq a correct); simpl; lia.
      * simpl length. lia.
      * simpl. rewrite Hnum.
        rewrite (seqZ_cons (i + 1) (Z.of_nat (S (length added)))) by lia.
        f_equal. f_equal; lia.
      * simpl. by rewrite Hans.
    + apply Z.ltb_ge in Hi.
      destruct (IH _ _ _ _ _ Hn Hrun) as (added & -> & -> & Hlen & Hnum & Hans).
      assert (added = []) as -> by (destruct added; [done|simpl in Hlen; lia]).
      exists []. simpl. repeat split; try done. lia.
Qed.

(** What a successful [submit_quiz] graded, and what it left. *)
Lemma submit_quiz_graded n answers r w resp w' :
  submit_quiz n answers r w = (Return resp, w') ->
  ∃ s qd g,
    current_session (storage w) = Some s ∧
    quiz_cache (storage w') !! quiz_cache_key (session_id s) n = Some qd ∧
    (∀ q, quiz_cache (storage w) !! quiz_cache_key (session_id s) n = Some q -> q = qd) ∧
    grade qd answers = Return g ∧
    score resp = g_score g ∧ passed resp = g_passed g ∧
    correct_answers resp = g_correct_count g ∧ total_questions resp = g_total g ∧
    results resp = g_results g ∧
    quiz_was_cached resp = true ∧
    current_session (storage w') = Some (if g_passed g then record_pass s n else s) ∧
    next_lesson_available resp =
      (if g_passed g then Some (current_lesson (record_pass s n)) else None).
Proof.
  rewrite submit_quiz_run.
  destruct (current_session (storage w)) as [s|] eqn:Hs; [|done].
  destruct (lookup_lesson (curriculum s) n) as [e|info]; [done|].
  assert (Hfin : ∀ qd w1,
    quiz_cache (storage w1) !! quiz_cache_key (session_id s) n = Some qd ->
    finish_quiz s n answers qd w1 = (Return resp, w') ->
    ∃ g,
      quiz_cache (storage w') !! quiz_cache_key (session_id s) n = Some qd ∧
      grade qd answers = Return g ∧
      score resp = g_score g ∧ passed resp = g_passed g ∧
      correct_answers resp = g_correct_count g ∧ total_questions resp = g_total g ∧
      results resp = g_results g ∧
      quiz_was_cached resp = true ∧
      current_session (storage w') = Some (if g_passed g then record_pass s n else s) ∧
      next_lesson_available resp =
        (if g_passed g then Some (current_lesson (record_pass s n)) else None)).
  { intros qd w1 Hq. unfold finish_quiz.
    destruct (grade qd answers) as [e|g]; [done|]. intros [= <- <-].
    exists g. simpl. rewrite Hq. simpl. repeat split; try done.
    by destruct (g_passed g). }
  destruct (quiz_cache (storage w) !! quiz_cache_key (session_id s) n) as [qd|] eqn:Hq.
  - intros Hrun. destruct (Hfin qd w Hq Hrun) as (g & H).
    exists s, qd, g. split; [done|]. destruct H as (? & H). split; [done|].
    split; [congruence|done].
  - rewrite generate_and_cache_quiz_run.
    destruct (title_or_default info n) as [e|title]; simpl; [done|].
    intros Hrun.
    match type of Hrun with finish_quiz _ _ _ ?qd ?w1 = _ =>
      destruct (Hfin qd w1) as (g & H); [simpl; apply lookup_insert_eq|exact Hrun|] end.
    eexists s, _, g. split; [done|]. destruct H as (? & H). split; [done|].
    split; [intros q Hq'; congruence|done].
Qed.

Lemma grade_inv qd answers g :
  grade qd answers = Return g ->
  ∃ questions,
    py_get qd (py "questions") (PList []) = Return questions ∧
    py_len questions = Return (g_total g) ∧
    evaluate_answers questions answers 0 0 [] = Return (g_correct_count g, g_results g) ∧
    g_results g ≠ [] ∧
    g_score g = (int_true_div (g_correct_count g) (g_total g) * 100)%float ∧
    g_passed g = (70 <=? g_score g)%float.
Proof.
  unfold grade.
  destruct (py_get qd (py "questions") (PList [])) as [e|questions]; [done|]. simpl.
  destruct (truthy questions); [|done]. simpl.
  destruct (evaluate_answers questions answers 0 0 []) as [e|[c res]] eqn:He; [done|]. simpl.
  case_bool_decide; [done|]. simpl.
  destruct (py_len questions) as [e|total] eqn:Hlen; [done|]. simpl.
  intros [= <-]. simpl. by exists questions.
Qed.

(** X10. In the answer of a successful [submit_quiz] the results
    are numbered 1, 2, ... in order and echo the submitted answers one by
    one (answers beyond the last question get no result), there is at
    least one result, [correct_answers] is the number of results flagged
    [is_correct], and it is at most the number of results, which is at most
    [total_questions]. *)
Theorem submission_results_consistent n answers r w resp w' :
  submit_quiz n answers r w = (Return resp, w') ->
  results resp ≠ [] ∧
  map question_number (results resp) = seqZ 1 (Z.of_nat (length (results resp))) ∧
  map user_answer (results resp) = take (length (results resp)) answers ∧
  correct_answers resp = Z.of_nat (length (List.filter is_correct (results resp))) ∧
  0 ≤ correct_answers resp ≤ Z.of_nat (length (results resp)) ∧
  Z.of_nat (length (results resp)) ≤ total_questions resp.
Proof.
  intros Hrun.
  destruct (submit_quiz_graded _ _ _ _ _ _ Hrun)
    as (s & qd & g & _ & _ & _ & Hg & _ & _ & -> & -> & -> & _).
  destruct (grade_inv _ _ _ Hg) as (questions & _ & Hlen & Heval & Hne & _).
  destruct (evaluate_answers_results _ _ _ _ _ _ _ _ Hlen Heval)
    as (added & Hres & -> & Hbound & Hnum & Hans).
  simpl in Hres. subst added.
  pose proof (filter_length_le is_correct (g_results g)) as Hle.
  assert (1 ≤ Z.of_nat (length (g_results g))) by (destruct (g_results g); [done|simpl; lia]).
  repeat split; try done; lia.
Qed.

(** X11. A successful [submit_quiz] on a quiz of at most 100
    questions answers [passed = true] exactly when at least 7 in 10 of all
    the questions of the quiz were answered correctly: the floating-point
    test [score >= 70] on [correct / total * 100] agrees with the exact
    comparison. The answer names the next lesson exactly when it passed, and
    its [quiz_was_cached] is [true] in every case, also when this very
    request had to generate the quiz. *)
Theorem pass_is_seventy_percent n answers r w resp w' :
  submit_quiz n answers r w = (Return resp, w') ->
  total_questions resp ≤ 100 ->
  1 ≤ total_questions resp ∧
  score resp = (int_true_div (correct_answers resp) (total_questions resp) * 100)%float ∧
  passed resp = (7 * total_questions resp <=? 10 * correct_answers resp) ∧
  (passed resp = true <-> is_Some (next_lesson_available resp)) ∧
  quiz_was_cached resp = true.
Proof.
  intros Hrun Hmax.
  destruct (submit_quiz_graded _ _ _ _ _ _ Hrun)
    as (s & qd & g & _ & _ & _ & Hg & -> & -> & -> & Ht & _ & -> & _ & ->).
  rewrite Ht in *.
  destruct (grade_inv _ _ _ Hg) as (questions & _ & Hlen & Heval & Hne & -> & ->).
  destruct (evaluate_answers_results _ _ _ _ _ _ _ _ Hlen Heval)
    as (added & Hres & Hc & Hbound & _ & _).
  simpl in Hres. subst added.
  pose proof (filter_length_le is_correct (g_results g)) as Hle.
  assert (1 ≤ Z.of_nat (length (g_results g))) by (destruct (g_results g); [done|simpl; lia]).
  assert (Htot : 1 ≤ g_total g) by lia.
  split; [done|]. split; [done|]. split; [|split; [|done]].
  - rewrite Hc. simpl.
    rewrite <- (Z2Nat.id (g_total g)) by lia.
    apply pass_threshold_exact; lia.
  - destruct (70 <=? _)%float; split; intros H'; try done.
Qed.

Lemma evaluate_answers_beyond questions n : ∀ answers i c res,
  py_len questions = Return n -> n ≤ i ->
  evaluate_answers questions answers i c res = Return (c, res).
Proof.
  induction answers as [|a answers IH]; intros i c res Hn Hi; simpl; [done|].
  rewrite Hn. simpl.
  replace (i <? n) with false by (symmetry; apply Z.ltb_ge; lia).
  apply IH; [done|lia].
Qed.

Lemma grade_fallback_quiz n title a rest :
  grade (fallback_quiz repr n title) (a :: rest) =
    Return (MkGrading (if a =? 0 then 100%float else 0%float) (a =? 0) (if a =? 0 then 1 else 0) 1
              [MkResult 1
                 (PStr (py "ما هو الموضوع الرئيسي للدرس " ++ str_of_int n ++ py "؟"))
                 a (PInt 0) (a =? 0)
                 (PStr (py "الإجابة الصحيحة هي " ++ format repr title))]).
Proof.
  unfold grade, fallback_quiz.
  set (q := PDict [(py "question", _); _; _; _]).
  assert (Hq : py_get (PDict [(py "questions", PList [q])]) (py "questions") (PList [])
               = Return (PList [q])) by (simpl; by rewrite decide_True).
  assert (Hc : py_get q (py "correct_answer") (PInt 0) = Return (PInt 0))
    by (vm_compute; reflexivity).
  assert (Ht : py_get q (py "question") (PStr []) =
               Return (PStr (py "ما هو الموضوع الرئيسي للدرس " ++ str_of_int n ++ py "؟")))
    by (vm_compute; reflexivity).
  assert (He : py_get q (py "explanation") (PStr (py "لا يوجد شرح متاح")) =
               Return (PStr (py "الإجابة الصحيحة هي " ++ format repr title)))
    by (vm_compute; reflexivity).
  clearbody q. rewrite Hq. clear Hq.
  assert (Heval : evaluate_answers (PList [q]) (a :: rest) 0 0 [] =
    Return (if a =? 0 then 1 else 0,
            [MkResult 1
               (PStr (py "ما هو الموضوع الرئيسي للدرس " ++ str_of_int n ++ py "؟"))
               a (PInt 0) (a =? 0)
               (PStr (py "الإجابة الصحيحة هي " ++ format repr title))])).
  { simpl. rewrite Hc. simpl. rewrite Ht. simpl. rewrite He. simpl.
    rewrite (evaluate_answers_beyond (PList [q]) 1) by (done || lia).
    by destruct (a =? 0). }
  cbn -[evaluate_answers int_true_div]. rewrite Heval. cbn -[int_true_div].
  destruct (a =? 0); simpl; f_equal; f_equal; vm_compute; reflexivity.
Qed.

(** X12. When a quiz is submitted for a lesson that has no
    cached quiz and the model call raises or returns nothing from which JSON
    can be extracted, the submission is graded against the fallback quiz,
    which is cached by this request: it has one question whose correct
    answer is 0, so the submission passes with score 100 exactly when its
    first answer is 0, whatever the lesson, and fails with score 0
    otherwise; further answers are ignored. *)
Theorem offline_quiz_first_answer w s n items a rest r :
  current_session (storage w) = Some s ->
  lookup_lesson (curriculum s) n = Return (PDict items) ->
  quiz_cache (storage w) !! quiz_cache_key (session_id s) n = None ->
  match r with
  | Fails => True
  | Content c => clean_json_response c = Raise ValueError
  end ->
  ∃ resp w' title,
    submit_quiz n (a :: rest) r w = (Return resp, w') ∧
    quiz_cache (storage w') !! quiz_cache_key (session_id s) n
      = Some (fallback_quiz repr n title) ∧
    passed resp = (a =? 0) ∧
    score resp = (if a =? 0 then 100%float else 0%float) ∧
    total_questions resp = 1 ∧
    length (results resp) = 1%nat ∧
    current_session (storage w') = Some (if a =? 0 then record_pass s n else s).
Proof.
  intros Hs Hl Hq Hr.
  rewrite submit_quiz_run, Hs, Hl, Hq, generate_and_cache_quiz_run. simpl.
  set (title := default _ _).
  assert (Hgen : generate_quiz_questions (language s) n title r = fallback_quiz repr n title).
  { unfold generate_quiz_questions, try_except.
    destruct r as [c|]; simpl; [|done]. by rewrite Hr. }
  rewrite Hgen. unfold finish_quiz. rewrite grade_fallback_quiz. simpl.
  eexists _, _, title. split; [done|]. simpl.
  split; [apply lookup_insert_eq|]. by destruct (a =? 0).
Qed.

(** X13. The unlock check is made by [GET /lesson/n] only. For a lesson
    [n] beyond [current_lesson] that the curriculum holds, [get_lesson]
    answers 403, yet [generate_quiz] serves its quiz, and a [submit_quiz]
    that passes records [n] as completed while [current_lesson] stays where
    it is. *)
Theorem quiz_ignores_lock w s n lessons items r :
  current_session (storage w) = Some s ->
  lessons_of (curriculum s) = Some lessons ->
  1 ≤ n ->
  current_lesson s < n ->
  lessons !! Z.to_nat (n - 1) = Some (PDict items) ->
  get_lesson n r w = (Raise lesson_locked, w) ∧
  (∃ resp w', generate_quiz n r w = (Return resp, w') ∧ qz_lesson_number resp = n) ∧
  ∀ answers resp w',
    submit_quiz n answers r w = (Return resp, w') -> passed resp = true ->
    ∃ s', current_session (storage w') = Some s' ∧
          n ∈ completed_lessons s' ∧ current_lesson s' = current_lesson s.
Proof.
  intros Hs Hlessons H1 Hlock Hitem.
  pose proof (lookup_lt_Some _ _ _ Hitem) as Hlt.
  assert (Hl : lookup_lesson (curriculum s) n = Return (PDict items)).
  { rewrite (lessons_of_lookup _ _ n Hlessons).
    replace (Z.of_nat (length lessons) <? n) with false by (symmetry; apply Z.ltb_ge; lia).
    by rewrite (seq_index_nonneg lessons (n - 1) (PDict items)) by (lia || done). }
  split; [|split].
  - rewrite get_lesson_run, Hs. by rewrite (proj2 (Z.gtb_gt _ _)) by lia.
  - rewrite generate_quiz_run, Hs, (lessons_of_require _ _ Hlessons), Hl.
    destruct (quiz_cache (storage w) !! quiz_cache_key (session_id s) n) as [q|].
    + simpl. by eexists _, _.
    + rewrite generate_and_cache_quiz_run. simpl. by eexists _, _.
  - intros answers resp w' Hrun Hp.
    destruct (submit_quiz_graded _ _ _ _ _ _ Hrun)
      as (s0 & qd & g & Hs0 & _ & _ & _ & _ & Hpg & _ & _ & _ & _ & Hs' & _).
    assert (s0 = s) as -> by congruence.
    rewrite <- Hpg, Hp in Hs'. eexists. split; [exact Hs'|]. simpl. split.
    + case_bool_decide; [done|]. apply elem_of_app. right. by apply list_elem_of_singleton.
    + replace (n =? current_lesson s) with false by (symmetry; apply Z.eqb_neq; lia).
      done.
Qed.

(** *** Starting a course *)

(** X14. [POST /select-language] always replaces the session with a
    fresh one (lesson 1, nothing completed, no chat) whose curriculum is
    what [generate_curriculum] returned, also when it answers with an error;
    it calls the model once and keeps the quiz cache and the stored
    challenges. It answers with the number of lessons and the first three
    of them; its only error is a 500, which it gives only when the
    curriculum's [lessons] is not a list. *)
Theorem select_language_starts_over lang now r w :
  let w' := (select_language lang now r w).2 in
  let s := MkSession (py "session_" ++ timestamp_str now) lang
                     (generate_curriculum lang r) 1 [] [] (isoformat now) in
  current_session (storage w') = Some s ∧
  quiz_cache (storage w') = quiz_cache (storage w) ∧
  coding_quizzes (storage w') = coding_quizzes (storage w) ∧
  calls w' = calls w ++ [CallCurriculum lang] ∧
  match (select_language lang now r w).1 with
  | Return resp =>
    sl_session_id resp = session_id s ∧ sl_language resp = lang ∧
    sl_current_lesson resp = 1 ∧
    ∀ lessons, lessons_of (curriculum s) = Some lessons ->
      sl_total_lessons resp = Z.of_nat (length lessons) ∧
      sl_curriculum_overview resp = PList (take 3 lessons)
  | Raise e => (∃ d, e = HTTPException 500 d) ∧ lessons_of (curriculum s) = None
  end.
Proof.
  intros w' s. unfold w'. rewrite select_language_world. simpl.
  repeat split; try done.
  unfold select_language, handler, bind, ret, eval, check, await,
    get_storage, put_storage. simpl.
  destruct (generate_curriculum_dict lang r) as (d & len & Hd & Hlen & _).
  rewrite Hd. simpl. rewrite Hlen. simpl.
  unfold lessons_of.
  destruct (dict_lookup d (py "lessons")) as [[| | | |x|l|d']|]; simpl in *;
    try discriminate; simplify_eq; repeat split; try done; try (by eexists);
    intros; simplify_eq; done.
Qed.

(** X15. When the model call raises or returns nothing from
    which JSON can be extracted, [POST /select-language] succeeds with the
    fallback curriculum: it reports 14 lessons, previews the first three,
    and in the session it creates lesson number [k + 1] is the entry made
    from the [k]-th title of [get_lesson_structure], for each of the 14. *)
Theorem offline_course lang now r w :
  match r with
  | Fails => True
  | Content c => clean_json_response c = Raise ValueError
  end ->
  ∃ resp w' s,
    select_language lang now r w = (Return resp, w') ∧
    sl_total_lessons resp = 14 ∧
    sl_curriculum_overview resp
      = PList (take 3 (imap (fallback_lesson lang) get_lesson_structure)) ∧
    current_session (storage w') = Some s ∧
    curriculum s = fallback_curriculum lang ∧
    ∀ k title,
      get_lesson_structure !! k = Some title ->
      lookup_lesson (curriculum s) (Z.of_nat k + 1) = Return (fallback_lesson lang k title).
Proof.
  intros Hr.
  assert (Hgen : generate_curriculum lang r = fallback_curriculum lang).
  { unfold generate_curriculum, try_except.
    destruct r as [c|]; simpl; [|done]. by rewrite Hr. }
  set (lessons := imap (fallback_lesson lang) get_lesson_structure).
  assert (Hget : py_get (fallback_curriculum lang) (py "lessons") (PList [])
                 = Return (PList lessons)) by (vm_compute; reflexivity).
  assert (Hlessons : lessons_of (fallback_curriculum lang) = Some lessons)
    by (vm_compute; reflexivity).
  assert (Hlen : length lessons = 14%nat) by (unfold lessons; by rewrite length_imap).
  pose proof (select_language_world lang now r w) as Hw.
  assert (Hres : (select_language lang now r w).1 =
                 Return (MkSelectLanguage (py "تم إنشاء كورس " ++ lang ++ py " بنجاح!")
                           (py "session_" ++ timestamp_str now) lang 1 14
                           (PList (take 3 lessons)))).
  { unfold select_language, handler, bind, ret, eval, check, await,
      get_storage, put_storage.
    cbn [fst snd storage calls]. fold (generate_curriculum lang r).
    rewrite Hgen, Hget. clearbody lessons. cbn. by rewrite Hlen. }
  destruct (select_language lang now r w) as [res w'] eqn:Hrun.
  cbn [fst snd] in Hw, Hres. subst res w'.
  eexists _, _, _. split; [reflexivity|].
  split; [reflexivity|]. split; [reflexivity|]. split; [reflexivity|].
  cbn [curriculum]. split; [exact Hgen|]. rewrite Hgen.
  intros k title Hk. rewrite (lessons_of_lookup _ _ _ Hlessons).
  pose proof (lookup_lt_Some _ _ _ Hk) as Hlt.
  assert (Hstruct : length get_lesson_structure = 14%nat) by reflexivity.
  rewrite Hlen.
  replace (Z.of_nat 14 <? Z.of_nat k + 1) with false
    by (symmetry; apply Z.ltb_ge; lia).
  replace (Z.of_nat k + 1 - 1) with (Z.of_nat k) by lia.
  rewrite (seq_index_lookup _ k (fallback_lesson lang k title)); [done|].
  unfold lessons. by rewrite list_lookup_imap, Hk.
Qed.

(** *** More on the response extractor *)

Lemma part_of_refl s : part_of s s.
Proof. exists [], []. by rewrite app_nil_r. Qed.

Lemma part_of_trans t u s : part_of t u -> part_of u s -> part_of t s.
Proof.
  intros (a & b & ->) (a' & b' & ->). exists (a' ++ a), (b ++ b').
  by rewrite <- !app_assoc.
Qed.

Lemma part_of_drop k s : part_of (drop k s) s.
Proof. exists (take k s), []. by rewrite app_nil_r, take_drop. Qed.

Lemma part_of_take k s : part_of (take k s) s.
Proof. exists [], (drop k s). simpl. by rewrite take_drop. Qed.

Lemma part_of_lstrip s : part_of (lstrip s) s.
Proof. destruct (lstrip_suffix s) as [k ->]. apply part_of_drop. Qed.

Lemma part_of_rstrip s : part_of (rstrip s) s.
Proof.
  unfold rstrip. destruct (lstrip_suffix (rev s)) as [k ->].
  replace (rev (drop k (rev s))) with (take (length s - k) s)
    by (by rewrite skipn_rev, rev_involutive).
  apply part_of_take.
Qed.

Lemma part_of_strip s : part_of (strip s) s.
Proof. unfold strip. eapply part_of_trans; [apply part_of_rstrip|apply part_of_lstrip]. Qed.

Lemma part_of_strip_fences s : part_of (strip_fences s) s.
Proof.
  unfold strip_fences.
  eapply part_of_trans; [apply part_of_strip|].
  eapply part_of_trans; [|apply part_of_strip].
  set (c0 := strip s). clearbody c0.
  eapply part_of_trans;
    [destruct (endswith _ (py "```")); [apply part_of_take|apply part_of_refl]|].
  eapply part_of_trans;
    [destruct (startswith _ (py "```")); [apply part_of_drop|apply part_of_refl]|].
  destruct (startswith c0 (py "```json")); [apply part_of_drop|apply part_of_refl].
Qed.

Lemma part_of_slice s a b : part_of (slice s a b) s.
Proof.
  unfold slice. eapply part_of_trans; [apply part_of_take|apply part_of_drop].
Qed.

Lemma part_of_brace_free t s : part_of t s -> brace_free s -> brace_free t.
Proof.
  intros (a & b & ->) H. unfold brace_free in *.
  apply Forall_app in H as [_ H]. by apply Forall_app in H as [H _].
Qed.

(** X16. Whatever the reply, [clean_json_response] either
    returns a contiguous part of the reply that [json.loads] accepts, or
    raises [ValueError]; it raises nothing else and returns no text that
    was not validated. *)
Theorem clean_json_response_sound text :
  match clean_json_response text with
  | Return json_str => part_of json_str text ∧ ∃ v, json_loads json_str = Some v
  | Raise e => e = ValueError
  end.
Proof.
  unfold clean_json_response.
  pose proof (part_of_strip_fences text) as Hc.
  set (cleaned := strip_fences text) in *. clearbody cleaned.
  set (st := brace_scan cleaned 0 _). clearbody st.
  destruct (negb (start_idx st =? -1) && negb (end_idx st =? -1)).
  - destruct (json_loads (slice cleaned (start_idx st) (end_idx st))) as [v|] eqn:Hv;
      [|done].
    split; [|by exists v]. eapply part_of_trans; [apply part_of_slice|done].
  - destruct (json_loads cleaned) as [v|] eqn:Hv; [|done].
    split; [done|by exists v].
Qed.

(** X17. A reply that holds text without braces, then a
    JSON object, then anything at all: [clean_json_response] returns the
    object, when [json.loads] accepts it and its first brace is matched by
    its last character under brace counting. No fences are needed, what
    follows the object is ignored, and of several objects in a row (the
    elements of an array, say) the first one alone is returned. *)
Theorem clean_json_response_embedded before obj after v :
  brace_free before ->
  first_object obj = Some obj ->
  json_loads obj = Some v ->
  clean_json_response (before ++ obj ++ after) = Return obj.
Proof.
  intros Hbefore Hobj Hv.
  destruct obj as [|c body]; [done|]. simpl in Hobj.
  destruct (c =? 123)%N eqn:Hc.
  - apply N.eqb_eq in Hc as ->.
    destruct (match_close body 0) as [b|] eqn:Hb; simplify_eq/=.
    apply (framed_clean json_loads body Hb _ v); [|done].
    by exists before, after.
  - apply first_object_head in Hobj as [b Hb]. injection Hb as -> _. done.
Qed.

(** X18. A reply without any brace (a JSON array of numbers or
    strings, a bare number or string), fenced or not: [clean_json_response]
    validates the whole text left after the fences and the surrounding
    whitespace are removed, and returns it when [json.loads] accepts it. *)
Theorem clean_json_response_without_braces text :
  brace_free text ->
  clean_json_response text =
    match json_loads (strip_fences text) with
    | Some _ => Return (strip_fences text)
    | None => Raise ValueError
    end.
Proof.
  intros Hfree. unfold clean_json_response.
  pose proof (part_of_brace_free _ _ (part_of_strip_fences text) Hfree) as Hc.
  set (cleaned := strip_fences text) in *. clearbody cleaned.
  rewrite <- (app_nil_r cleaned) at 1.
  rewrite brace_scan_free by done. simpl. done.
Qed.

(** *** Cache keys *)

Transparent py pretty.

Lemma utf8_decode_ascii bs : Forall (fun b => (b < 128)%N) bs -> utf8_decode bs = bs.
Proof.
  induction 1 as [|b bs Hb _ IH]; simpl; [done|].
  apply N.ltb_lt in Hb. by rewrite Hb, IH.
Qed.

Lemma pretty_N_char_ascii x : (N_of_ascii (pretty_N_char x) < 128)%N.
Proof. unfold pretty_N_char. repeat case_match; vm_compute; reflexivity. Qed.

Lemma pretty_N_go_ascii x : ∀ s, ascii_only s -> ascii_only (pretty_N_go x s).
Proof.
  induction (N.lt_wf_0 x) as [x _ IH]. intros s Hs.
  destruct (decide (0 < x)%N) as [Hx|Hx].
  - rewrite pretty_N_go_step by done. apply IH.
    + apply N.div_lt; lia.
    + unfold ascii_only in *. simpl. constructor; [apply pretty_N_char_ascii|done].
  - assert (x = 0%N) as -> by lia. by rewrite pretty_N_go_0.
Qed.

Lemma pretty_Z_ascii (z : Z) : ascii_only (pretty z).
Proof.
  assert (HN : ∀ x : N, ascii_only (pretty x)).
  { intros x. unfold pretty, pretty_N. case_decide.
    - unfold ascii_only. simpl. constructor; [vm_compute; reflexivity|constructor].
    - apply pretty_N_go_ascii. constructor. }
  unfold pretty, pretty_Z. destruct z as [|p|p].
  - unfold ascii_only. simpl. constructor; [vm_compute; reflexivity|constructor].
  - apply HN.
  - unfold ascii_only. simpl. constructor; [vm_compute; reflexivity|apply HN].
Qed.

Lemma map_N_of_ascii_inj l k : map N_of_ascii l = map N_of_ascii k -> l = k.
Proof.
  revert k. induction l as [|a l IH]; intros [|b k]; simpl; try done.
  intros [= Hab Hlk]. f_equal; [|by apply IH].
  rewrite <- (ascii_N_embedding a), Hab. apply ascii_N_embedding.
Qed.

Lemma str_of_int_inj n m : str_of_int n = str_of_int m -> n = m.
Proof.
  unfold str_of_int, py. intros H.
  rewrite !utf8_decode_ascii in H by apply pretty_Z_ascii.
  apply map_N_of_ascii_inj in H.
  apply (inj pretty). rewrite <- (string_of_list_ascii_of_string (pretty n)), H.
  apply string_of_list_ascii_of_string.
Qed.

Opaque py pretty.

(** X19. Within a session the cache key of a lesson's quiz determines
    the lesson, and the key of a stored challenge determines its milestone:
    keys built from different numbers differ. *)
Theorem cache_keys_injective sid n m :
  (quiz_cache_key sid n = quiz_cache_key sid m <-> n = m) ∧
  (challenge_key sid n = challenge_key sid m <-> n = m).
Proof.
  unfold quiz_cache_key, challenge_key.
  split; (split; [|by intros ->]); intros H;
    by apply app_inv_head, app_inv_head, str_of_int_inj in H.
Qed.

(** X20. A request changes the cached quiz of lesson [n] only when
    it is a quiz request ([generate-quiz] or [submit-quiz]) for lesson [n]
    itself: every other request, quiz requests for other lessons included,
    leaves that entry as it was, present or absent. *)
Theorem quiz_cache_entry_own_lesson rq now r w s n :
  current_session (storage w) = Some s ->
  match rq with
  | GenerateQuiz m | SubmitQuiz m _ => m ≠ n
  | _ => True
  end ->
  quiz_cache (storage (serve rq now r w)) !! quiz_cache_key (session_id s) n
  = quiz_cache (storage w) !! quiz_cache_key (session_id s) n.
Proof.
  intros Hs Hrq.
  assert (Hgen : ∀ m info, m ≠ n ->
    quiz_cache (storage (generate_and_cache_quiz s info m r w).2)
      !! quiz_cache_key (session_id s) n
    = quiz_cache (storage w) !! quiz_cache_key (session_id s) n).
  { intros m info Hne. rewrite generate_and_cache_quiz_run.
    destruct (title_or_default info m); simpl; [done|].
    apply lookup_insert_ne. unfold quiz_cache_key. intros H.
    by apply app_inv_head, app_inv_head, str_of_int_inj in H. }
  destruct rq as [m|q|m|m answers| |c i]; simpl.
  - rewrite get_lesson_run, Hs. run_cases.
  - rewrite ask_tutor_run, Hs. run_cases.
  - rewrite generate_quiz_run, Hs.
    destruct (require_lessons (curriculum s)) as [e|[]]; [done|].
    destruct (lookup_lesson (curriculum s) m) as [e|info]; [done|].
    destruct (quiz_cache (storage w) !! quiz_cache_key (session_id s) m) as [q'|].
    + by destruct (py_get info (py "title") PNone).
    + specialize (Hgen m info Hrq).
      destruct (generate_and_cache_quiz s info m r w) as [[e|q'] w']; [done|].
      by destruct (py_get info (py "title") PNone).
  - rewrite submit_quiz_run, Hs.
    destruct (lookup_lesson (curriculum s) m) as [e|info]; [done|].
    destruct (quiz_cache (storage w) !! quiz_cache_key (session_id s) m) as [q'|].
    + by rewrite (proj1 (finish_quiz_cache _ _ _ _ _)).
    + specialize (Hgen m info Hrq).
      destruct (generate_and_cache_quiz s info m r w) as [[e|q'] w']; [done|].
      by rewrite (proj1 (finish_quiz_cache _ _ _ _ _)).
  - rewrite generate_coding_challenge_endpoint_run, Hs. run_cases.
  - rewrite submit_code_run, Hs. run_cases.
Qed.

(** *** [safe_json_loads] *)

Lemma isspace_values c :
  isspace c = true ->
  (c = 9 ∨ c = 10 ∨ c = 13 ∨ c = 32)%N ∨
  (c = 11 ∨ c = 12 ∨ c = 28 ∨ c = 29 ∨ c = 30 ∨ c = 31 ∨ c = 133 ∨ c = 160 ∨ c = 5760 ∨
   c = 8192 ∨ c = 8193 ∨ c = 8194 ∨ c = 8195 ∨ c = 8196 ∨ c = 8197 ∨ c = 8198 ∨
   c = 8199 ∨ c = 8200 ∨ c = 8201 ∨ c = 8202 ∨ c = 8232 ∨ c = 8233 ∨ c = 8239 ∨
   c = 8287 ∨ c = 12288)%N.
Proof.
  unfold isspace. intros H.
  repeat (rewrite ?orb_true_iff, ?andb_true_iff, ?N.leb_le, ?N.eqb_eq in H). lia.
Qed.

Lemma lstrip_head s c r : lstrip s = c :: r -> isspace c = false.
Proof.
  induction s as [|x s IH]; simpl; [done|].
  destruct (isspace x) eqn:Hx; [done|]. by intros [= <- _].
Qed.

Lemma lstrip_nil s : lstrip s = [] -> all_space s.
Proof.
  induction s as [|x s IH]; simpl; [constructor|].
  destruct (isspace x) eqn:Hx; [|done]. intros H. apply Forall_cons. split; [done|by apply IH].
Qed.

Lemma strip_nil s : strip s = [] -> all_space s.
Proof.
  unfold strip, rstrip. intros H.
  assert (Hrev : lstrip (rev (lstrip s)) = []).
  { apply (f_equal (@rev N)) in H. by rewrite rev_involutive in H. }
  apply lstrip_nil in Hrev.
  destruct (lstrip s) as [|c r] eqn:Hl; [by apply lstrip_nil|].
  apply lstrip_head in Hl. unfold all_space in Hrev.
  rewrite Forall_forall in Hrev. specialize (Hrev c).
  rewrite Hrev in Hl; [done|]. apply list_elem_of_In, in_rev. rewrite rev_involutive. by left.
Qed.

(** Whitespace alone is not a JSON document. *)
Lemma parse_value_all_space s : ∀ fuel,
  all_space s -> Json.parse_value (S fuel) (Json.skip_ws s) = None.
Proof.
  induction s as [|c s IH]; intros fuel Hs; [vm_compute; reflexivity|].
  apply Forall_cons in Hs as [Hc Hs].
  destruct (isspace_values c Hc) as [Hws|Hother].
  - replace (Json.skip_ws (c :: s)) with (Json.skip_ws s); [by apply IH|].
    destruct Hws as [-> | [-> | [-> | ->]]]; reflexivity.
  - repeat (destruct Hother as [-> | Hother]; [vm_compute; reflexivity|]).
    subst c. vm_compute. reflexivity.
Qed.

Lemma loads_all_space s : all_space s -> Json.loads s = None.
Proof.
  intros Hs. pose proof (parse_value_all_space s (length s) Hs) as Hp.
  destruct s as [|c s]; [vm_compute; reflexivity|].
  unfold Json.loads. rewrite Hp.
  apply Forall_cons in Hs as [Hc _].
  destruct (isspace_values c Hc) as [Hws|Hother].
  - destruct Hws as [-> | [-> | [-> | ->]]]; reflexivity.
  - repeat (destruct Hother as [-> | Hother]; [reflexivity|]). subst c. reflexivity.
Qed.


End Invariants.

(** ** Closed instances *)

Ltac evaluated := vm_compute; reflexivity.

(** C1. The challenge that [GET /generate-coding-challenge] returns and
    stores is not found by [POST /submit-code] under its own [challenge_id]:
    the store is keyed by session and milestone, and only that key finds
    it. *)
Theorem stored_challenge_not_found_by_id :
  ∃ served,
    (generate_coding_challenge_endpoint Json.loads sample_clock Fails four_passed_world).1
      = Return served ∧
    ch_is_cached served = false ∧
    py_get (ch_challenge served) (py "challenge_id") PNone
      = Return (PStr (py "challenge_4_1700000000")) ∧
    (submit_code Json.loads (py "print(1)") (py "challenge_4_1700000000") Fails
       challenge_world).1 = Raise challenge_not_found ∧
    coding_quizzes (storage challenge_world) !! py "challenge_4_1700000000" = None ∧
    (challenge_data <$>
       coding_quizzes (storage challenge_world) !! py "session_1700000000.5_challenge_4")
      = Some (ch_challenge served) ∧
    ∃ found,
      (submit_code Json.loads (py "print(1)") (py "session_1700000000.5_challenge_4") Fails
         challenge_world).1 = Return found.
Proof.
  eexists. split; [evaluated|]. repeat (split; [evaluated|]).
  eexists. evaluated.
Qed.



(** Passing lesson 1, the current lesson, with four right answers out of
    five. *)
Lemma passing_submission_progress_witness :
  ∃ s resp w',
    current_session (storage quiz_world) = Some s ∧
    submit_quiz Json.loads no_repr 1 four_of_five Fails quiz_world = (Return resp, w') ∧
    passed resp = true ∧
    score resp = 80%float ∧
    ∃ s',
      current_session (storage w') = Some s' ∧
      completed_lessons s' =
        (if bool_decide (1 ∈ completed_lessons s) then completed_lessons s
         else completed_lessons s ++ [1]) ∧
      current_lesson s' =
        (if bool_decide (1 = current_lesson s ∧ 1 < 14) then current_lesson s + 1
         else current_lesson s) ∧
      (NoDup (completed_lessons s) -> NoDup (completed_lessons s')) ∧
      (1 ∈ completed_lessons s -> 1 ≠ current_lesson s ->
         current_lesson s' = current_lesson s) ∧
      ∀ r2, submit_quiz Json.loads no_repr 1 four_of_five r2 w' = (Return resp, w').
Proof.
  eexists _, _, _.
  do 4 (split; [evaluated|]).
  eapply (passing_submission_progress Json.loads no_repr quiz_world _ 1 four_of_five Fails);
    evaluated.
Defined.

(** The scenario of the specification: 4 of 5 right passes lesson 1 and
    unlocks lesson 2; 3 of 5 right afterwards fails and changes nothing. *)
Example scenario_pass_then_fail :
  ∃ first second w1 w2,
    submit_quiz Json.loads no_repr 1 four_of_five Fails quiz_world = (Return first, w1) ∧
    score first = 80%float ∧ passed first = true ∧
    (completed_lessons <$> current_session (storage w1)) = Some [1] ∧
    (current_lesson <$> current_session (storage w1)) = Some 2 ∧
    submit_quiz Json.loads no_repr 1 three_of_five Fails w1 = (Return second, w2) ∧
    score second = 60%float ∧ passed second = false ∧
    storage w2 = storage w1.
Proof. eexists _, _, _, _. repeat (split; [evaluated|]). evaluated. Qed.



(** The scenario of the specification: with 2 completed lessons the
    challenge endpoint answers 400 and names the 2. *)
Example scenario_two_completed :
  ∃ w before after,
    w = serve_all Json.loads no_repr
          [ (SubmitQuiz 1 [0], sample_clock, Fails); (SubmitQuiz 2 [0], sample_clock, Fails) ]
          sample_world ∧
    (generate_coding_challenge_endpoint Json.loads sample_clock Fails w).1 =
      Raise (HTTPException 400 (Detail (before ++ py "2" ++ after))).
Proof.
  eexists _,
    (py "يتم إنشاء التحديات البرمجية بعد إكمال 4 دروس على الأقل. لقد أكملت "),
    (py " دروس فقط حتى الآن.").
  split; [reflexivity|]. evaluated.
Qed.

(** A nested object inside [json] fences, followed by prose. *)
Lemma clean_json_response_fenced_witness :
  ∃ v,
    fenced fenced_reply fenced_object ∧
    first_object fenced_object = Some fenced_object ∧
    Json.loads fenced_object = Some v ∧
    clean_json_response Json.loads fenced_reply = Return fenced_object.
Proof.
  eexists.
  assert (Hfenced : fenced fenced_reply fenced_object).
  { exists [], (pyq "json|"), (pyq "|```|I hope this helps!").
    split; [evaluated|]. split; [by apply all_space_check|].
    apply brace_free_check. evaluated. }
  split; [exact Hfenced|]. do 2 (split; [evaluated|]).
  eapply (clean_json_response_fenced Json.loads fenced_reply fenced_object _ Hfenced);
    evaluated.
Defined.

(** A valid JSON object inside fences whose string value holds a closing
    brace: the scanner stops at that brace and the extractor raises. *)
Lemma brace_in_string_rejected :
  fenced brace_string_reply brace_string_object ∧
  Json.loads brace_string_object = Some (PDict [(py "a", PStr (py "}"))]) ∧
  clean_json_response Json.loads brace_string_reply = Raise ValueError.
Proof.
  split; [|split; evaluated].
  exists [], (pyq "json|"), (pyq "|```").
  split; [evaluated|]. split; [by apply all_space_check|].
  apply brace_free_check. evaluated.
Qed.



(** No session: 404. In the sample session, lesson 5 is locked (403, the
    scenario of the specification) and lesson 1 is served. In a session
    whose curriculum has no lessons, lesson 1 fails with 500. *)
Lemma get_lesson_cases_witness :
  get_lesson Json.loads no_repr 1 Fails initial_world = (Raise no_session, initial_world) ∧
  (∃ s lessons items,
     current_session (storage sample_world) = Some s ∧
     5 > current_lesson s ∧
     get_lesson Json.loads no_repr 5 Fails sample_world = (Raise lesson_locked, sample_world) ∧
     lessons_of (curriculum s) = Some lessons ∧
     1 ≤ current_lesson s ∧
     1 ≤ 1 ∧
     lessons !! Z.to_nat (1 - 1) = Some (PDict items) ∧
     get_lesson Json.loads no_repr 1 Fails sample_world
       = lesson_served Json.loads no_repr s 1 items Fails sample_world) ∧
  (∃ s d,
     current_session (storage bare_world) = Some s ∧
     curriculum s = PDict d ∧
     dict_lookup d (py "lessons") = None ∧
     1 ≤ current_lesson s ∧
     get_lesson Json.loads no_repr 1 Fails bare_world =
       (Raise (HTTPException 500 (Detail (py "Curriculum not found"))), bare_world)).
Proof.
  split; [|split].
  - refine (proj1 (get_lesson_cases Json.loads no_repr 1 Fails initial_world) _).
    evaluated.
  - eexists _, _, _. split; [evaluated|]. split; [evaluated|].
    split.
    + refine (proj1 (proj2 (get_lesson_cases Json.loads no_repr 5 Fails sample_world) _ _) _);
        evaluated.
    + split; [evaluated|]. split; [vm_compute; discriminate|]. split; [lia|].
      split; [evaluated|].
      refine (proj2 (proj2 (proj2 (proj2 (get_lesson_cases Json.loads no_repr 1 Fails
                                            sample_world) _ _)) _ _ _) _ _ _);
        first [evaluated | lia | (vm_compute; discriminate)].
  - eexists _, _. do 3 (split; [evaluated|]). split; [vm_compute; discriminate|].
    refine (proj1 (proj2 (proj2 (get_lesson_cases Json.loads no_repr 1 Fails bare_world)
                            _ _)) _ _ _ _);
      first [evaluated | (vm_compute; discriminate)].
Defined.

(** In the sample session [GET /lesson/0] passes both checks and serves the
    info of lesson 14 under number 0; in a session whose curriculum has no
    lessons, [GET /lesson/1] passes the unlock check and fails with 500. *)
Lemma lesson_zero_serves_last :
  (∃ s lessons served items,
     current_session (storage sample_world) = Some s ∧
     lessons_of (curriculum s) = Some lessons ∧
     (0 >? current_lesson s) = false ∧
     (Z.of_nat (length lessons) <? 0) = false ∧
     (get_lesson Json.loads no_repr 0 Fails sample_world).1 = Return served ∧
     ls_lesson_number served = 0 ∧
     lessons !! 13%nat = Some (PDict items) ∧
     dict_lookup items (py "lesson_number") = Some (PInt 14) ∧
     Some (ls_title served) = dict_lookup items (py "title")) ∧
  (∃ s,
     current_session (storage bare_world) = Some s ∧
     (1 >? current_lesson s) = false ∧
     lessons_of (curriculum s) = None ∧
     (get_lesson Json.loads no_repr 1 Fails bare_world).1
       = Raise (HTTPException 500 (Detail (py "Curriculum not found")))).
Proof.
  split.
  - eexists _, _, _, _. repeat (split; [evaluated|]). evaluated.
  - eexists. repeat (split; [evaluated|]). evaluated.
Qed.

(** [n = 0] in a fresh session. *)
Lemma get_lesson_nonpositive_witness :
  0 ≤ 0 ∧
  let w := serve_all Json.loads no_repr [] (select_language Json.loads (py "Python")
                                              sample_clock Fails initial_world).2 in
  ∃ s,
    current_session (storage w) = Some s ∧
    (∀ e, (get_lesson Json.loads no_repr 0 Fails w).1 = Raise e ->
          ∃ d, e = HTTPException 500 d) ∧
    ∀ lessons, lessons_of (curriculum s) = Some lessons ->
      (∀ items,
         1 - Z.of_nat (length lessons) ≤ 0 ->
         lessons !! Z.to_nat (Z.of_nat (length lessons) + 0 - 1) = Some (PDict items) ->
         get_lesson Json.loads no_repr 0 Fails w
           = lesson_served Json.loads no_repr s 0 items Fails w) ∧
      (0 < 1 - Z.of_nat (length lessons) ->
         get_lesson Json.loads no_repr 0 Fails w
           = (Raise (HTTPException 500 (lesson_failed IndexError)), w)).
Proof.
  split; [lia|].
  apply (get_lesson_nonpositive Json.loads no_repr initial_world (py "Python") sample_clock
           Fails [] 0 Fails). lia.
Defined.

(** With 14 lessons, [GET /lesson/-14] indexes position -15: the request
    fails with 500 and no lesson is served. *)
Lemma lesson_far_below_fails :
  ∃ s lessons,
    current_session (storage sample_world) = Some s ∧
    lessons_of (curriculum s) = Some lessons ∧
    length lessons = 14%nat ∧
    get_lesson Json.loads no_repr (-14) Fails sample_world
      = (Raise (HTTPException 500 (DetailExc (py "Error fetching lesson: ") IndexError)),
         sample_world).
Proof. eexists _, _. repeat (split; [evaluated|]). evaluated. Qed.

(** Four right answers out of five for lesson 1: the request that changes
    the progress is the submission that passed. *)
Lemma progress_only_by_passed_quiz_witness :
  ∃ s,
    current_session (storage quiz_world) = Some s ∧
    ∃ s',
      current_session
        (storage (serve Json.loads no_repr (SubmitQuiz 1 four_of_five) sample_clock Fails
                    quiz_world)) = Some s' ∧
      ((current_lesson s' = current_lesson s ∧ completed_lessons s' = completed_lessons s) ∨
       ∃ n answers resp w',
         SubmitQuiz 1 four_of_five = SubmitQuiz n answers ∧
         submit_quiz Json.loads no_repr n answers Fails quiz_world = (Return resp, w') ∧
         passed resp = true ∧
         s' = record_pass s n).
Proof.
  eexists. split; [evaluated|].
  eapply (progress_only_by_passed_quiz Json.loads no_repr (SubmitQuiz 1 four_of_five)
            sample_clock Fails quiz_world). evaluated.
Defined.

(** Four lessons completed: the challenge of milestone 4 is generated once,
    and is still the one served after a fifth lesson is completed. *)
Lemma challenge_generated_once_witness :
  ∃ s,
    current_session (storage four_passed_world) = Some s ∧
    4 ≤ Z.of_nat (length (completed_lessons s)) ∧
    let rqs := [ (GetLesson 1, sample_clock, Fails);
                 (SubmitQuiz 5 [0], sample_clock, Fails) ] in
    let key := challenge_key (session_id s) (milestone_of s) in
    let w1 :=
      (generate_coding_challenge_endpoint Json.loads sample_clock Fails four_passed_world).2 in
    let w2 := serve_all Json.loads no_repr rqs w1 in
    ∃ entry text is_cached,
      (generate_coding_challenge_endpoint Json.loads sample_clock Fails four_passed_world).1 =
        Return (MkChallenge (challenge_data entry) text is_cached) ∧
      coding_quizzes (storage w1) !! key = Some entry ∧
      coding_quizzes (storage w2) !! key = Some entry ∧
      ∀ s2 now' r',
        current_session (storage w2) = Some s2 ->
        milestone_of s2 = milestone_of s ->
        ∃ text',
          generate_coding_challenge_endpoint Json.loads now' r' w2 =
            (Return (MkChallenge (challenge_data entry) text' true), w2).
Proof.
  eexists. split; [evaluated|]. split; [vm_compute; discriminate|].
  eapply (challenge_generated_once Json.loads no_repr four_passed_world _ sample_clock Fails);
    [evaluated|vm_compute; discriminate].
Defined.

(** Two questions to the tutor, the second while the model is unreachable,
    with a lesson fetched in between. *)
Lemma chat_history_is_log_witness :
  ∃ s,
    current_session (storage sample_world) = Some s ∧
    let rqs := [ (AskTutor (py "What is a loop?"), sample_clock,
                  Content (py "A loop repeats a block."));
                 (GetLesson 1, sample_clock, Fails);
                 (AskTutor (py "And a list?"), sample_clock, Fails) ] in
    length (chat_log rqs) = 2%nat ∧
    (∀ question now r, ∃ w',
       ask_tutor question now r sample_world
         = (Return (MkTutor (tutor_answer r) (session_id s)), w')) ∧
    ∃ s',
      current_session (storage (serve_all Json.loads no_repr rqs sample_world)) = Some s' ∧
      chat_history s' = chat_history s ++ chat_log rqs.
Proof.
  eexists. split; [evaluated|]. cbv zeta. split; [reflexivity|].
  eapply (chat_history_is_log Json.loads no_repr sample_world). evaluated.
Defined.

(** Four right answers out of five against the cached quiz of lesson 1. *)
Lemma submission_results_consistent_witness :
  ∃ resp w',
    submit_quiz Json.loads no_repr 1 four_of_five Fails quiz_world = (Return resp, w') ∧
    results resp ≠ [] ∧
    map question_number (results resp) = seqZ 1 (Z.of_nat (length (results resp))) ∧
    map user_answer (results resp) = take (length (results resp)) four_of_five ∧
    correct_answers resp = Z.of_nat (length (List.filter is_correct (results resp))) ∧
    0 ≤ correct_answers resp ≤ Z.of_nat (length (results resp)) ∧
    Z.of_nat (length (results resp)) ≤ total_questions resp.
Proof.
  eexists _, _. split; [evaluated|].
  eapply (submission_results_consistent Json.loads no_repr 1 four_of_five Fails quiz_world).
  evaluated.
Defined.

(** Three right answers out of five: 7 * 5 > 10 * 3, the submission
    fails. *)
Lemma pass_is_seventy_percent_witness :
  ∃ resp w',
    submit_quiz Json.loads no_repr 1 three_of_five Fails quiz_world = (Return resp, w') ∧
    total_questions resp ≤ 100 ∧
    passed resp = false ∧
    1 ≤ total_questions resp ∧
    score resp =
      (int_true_div (correct_answers resp) (total_questions resp) * 100)%float ∧
    passed resp = (7 * total_questions resp <=? 10 * correct_answers resp) ∧
    (passed resp = true <-> is_Some (next_lesson_available resp)) ∧
    quiz_was_cached resp = true.
Proof.
  eexists _, _. split; [evaluated|]. split; [vm_compute; discriminate|].
  split; [evaluated|].
  eapply (pass_is_seventy_percent Json.loads no_repr 1 three_of_five Fails quiz_world);
    [evaluated|vm_compute; discriminate].
Defined.

(** The model is unreachable and lesson 2 has no cached quiz: answering 0
    first passes it. *)
Lemma offline_quiz_first_answer_witness :
  ∃ s items,
    current_session (storage sample_world) = Some s ∧
    lookup_lesson (curriculum s) 2 = Return (PDict items) ∧
    quiz_cache (storage sample_world) !! quiz_cache_key (session_id s) 2 = None ∧
    ∃ resp w' title,
      submit_quiz Json.loads no_repr 2 [0; 3] Fails sample_world = (Return resp, w') ∧
      quiz_cache (storage w') !! quiz_cache_key (session_id s) 2
        = Some (fallback_quiz no_repr 2 title) ∧
      passed resp = (0 =? 0) ∧
      score resp = (if 0 =? 0 then 100%float else 0%float) ∧
      total_questions resp = 1 ∧
      length (results resp) = 1%nat ∧
      current_session (storage w') = Some (if 0 =? 0 then record_pass s 2 else s).
Proof.
  eexists _, _. do 3 (split; [evaluated|]).
  eapply (offline_quiz_first_answer Json.loads no_repr sample_world _ 2 _ 0 [3] Fails);
    first [evaluated | exact I].
Defined.

(** Lesson 5 in a fresh session, where the current lesson is 1. *)
Lemma quiz_ignores_lock_witness :
  ∃ s lessons items,
    current_session (storage sample_world) = Some s ∧
    lessons_of (curriculum s) = Some lessons ∧
    1 ≤ 5 ∧
    current_lesson s < 5 ∧
    lessons !! Z.to_nat (5 - 1) = Some (PDict items) ∧
    get_lesson Json.loads no_repr 5 Fails sample_world = (Raise lesson_locked, sample_world) ∧
    (∃ resp w', generate_quiz Json.loads no_repr 5 Fails sample_world = (Return resp, w') ∧
                qz_lesson_number resp = 5) ∧
    ∀ answers resp w',
      submit_quiz Json.loads no_repr 5 answers Fails sample_world = (Return resp, w') ->
      passed resp = true ->
      ∃ s', current_session (storage w') = Some s' ∧
            5 ∈ completed_lessons s' ∧ current_lesson s' = current_lesson s.
Proof.
  eexists _, _, _. do 2 (split; [evaluated|]). split; [lia|].
  split; [vm_compute; reflexivity|]. split; [evaluated|].
  eapply (quiz_ignores_lock Json.loads no_repr sample_world _ 5 _ _ Fails);
    first [evaluated | lia | (vm_compute; reflexivity)].
Defined.

(** The model answers with prose instead of JSON. *)
Lemma offline_course_witness :
  clean_json_response Json.loads (py "I cannot answer that.") = Raise ValueError ∧
  ∃ resp w' s,
    select_language Json.loads (py "Python") sample_clock
      (Content (py "I cannot answer that.")) initial_world = (Return resp, w') ∧
    sl_total_lessons resp = 14 ∧
    sl_curriculum_overview resp
      = PList (take 3 (imap (fallback_lesson (py "Python")) get_lesson_structure)) ∧
    current_session (storage w') = Some s ∧
    curriculum s = fallback_curriculum (py "Python") ∧
    ∀ k title,
      get_lesson_structure !! k = Some title ->
      lookup_lesson (curriculum s) (Z.of_nat k + 1)
        = Return (fallback_lesson (py "Python") k title).
Proof.
  split; [evaluated|].
  apply (offline_course Json.loads (py "Python") sample_clock
           (Content (py "I cannot answer that.")) initial_world).
  evaluated.
Defined.

(** An array of two objects between prose: the first object is returned. *)
Lemma clean_json_response_embedded_witness :
  ∃ v,
    brace_free (pyq "Here are two: [") ∧
    first_object (pyq "{'a': 1}") = Some (pyq "{'a': 1}") ∧
    Json.loads (pyq "{'a': 1}") = Some v ∧
    clean_json_response Json.loads
      (pyq "Here are two: [" ++ pyq "{'a': 1}" ++ pyq ", {'b': 2}] Enjoy.")
      = Return (pyq "{'a': 1}").
Proof.
  eexists.
  assert (Hfree : brace_free (pyq "Here are two: [")) by (apply brace_free_check; evaluated).
  split; [exact Hfree|]. do 2 (split; [evaluated|]).
  eapply (clean_json_response_embedded Json.loads _ _ _ _ Hfree); evaluated.
Defined.

(** A fenced array of numbers. *)
Lemma clean_json_response_without_braces_witness :
  brace_free (pyq "```json|[1, 2, 3]|```") ∧
  strip_fences (pyq "```json|[1, 2, 3]|```") = pyq "[1, 2, 3]" ∧
  Json.loads (pyq "[1, 2, 3]") = Some (PList [PInt 1; PInt 2; PInt 3]) ∧
  clean_json_response Json.loads (pyq "```json|[1, 2, 3]|```") =
    match Json.loads (strip_fences (pyq "```json|[1, 2, 3]|```")) with
    | Some _ => Return (strip_fences (pyq "```json|[1, 2, 3]|```"))
    | None => Raise ValueError
    end.
Proof.
  assert (Hfree : brace_free (pyq "```json|[1, 2, 3]|```"))
    by (apply brace_free_check; evaluated).
  split; [exact Hfree|]. do 2 (split; [evaluated|]).
  exact (clean_json_response_without_braces Json.loads _ Hfree).
Defined.

(** Generating the quiz of lesson 2 leaves the cached quiz of lesson 1. *)
Lemma quiz_cache_entry_own_lesson_witness :
  ∃ s,
    current_session (storage quiz_world) = Some s ∧
    2 ≠ 1 ∧
    quiz_cache (storage (serve Json.loads no_repr (GenerateQuiz 2) sample_clock Fails
                           quiz_world)) !! quiz_cache_key (session_id s) 1
    = quiz_cache (storage quiz_world) !! quiz_cache_key (session_id s) 1.
Proof.
  eexists. split; [evaluated|]. split; [lia|].
  eapply (quiz_cache_entry_own_lesson Json.loads no_repr (GenerateQuiz 2) sample_clock Fails
            quiz_world _ 1); [evaluated|simpl; lia].
Defined.

(** Lesson number 0 is found by the lookup (it is the last lesson, counted
    from the end), so its quiz can be passed and 0 recorded as completed. *)
Example lesson_zero_completed :
  (completed_lessons <$>
     current_session
       (storage (serve Json.loads no_repr (SubmitQuiz 0 [0]) sample_clock Fails sample_world)))
  = Some [0].
Proof. evaluated. Qed.


(** The decoder rounds a decimal once, to the nearest float, ties to
    even. *)
Example decimal_rounded_once :
  Json.loads (py "1e-23") = Some (PFloat 0x1.82db34012b251p-77) ∧
  Json.loads (py "0.1") = Some (PFloat 0x1.999999999999ap-4) ∧
  Json.loads (py "5e-324") = Some (PFloat 0x0.0000000000001p-1022) ∧
  Json.loads (py "9007199254740993e-1") = Some (PFloat 0x1.999999999999ap+49).
Proof. repeat split; evaluated. Qed.
